(** * alchemy-chain-go-sdk: the request-signing protocol and the RPC envelope

    A shallow embedding of [alchemy.go].  Go values are modelled as the
    program has them: a [map[string]interface{}] of primitives is a
    [gmap string value] together with the order in which one [range] loop
    visits its keys, byte strings are [list ascii], integers are [Z] with the
    wrap-around of the machine type written out, and the functions that return
    [(T, error)] return a sum. *)

From Stdlib Require Import ZArith NArith List Ascii String Lia Bool.
From Stdlib Require Import Sorting.Sorted Structures.OrdersEx.
From stdpp Require Import base tactics option list strings pretty gmap sorting.

Local Open Scope Z_scope.

(** ** Go values held in an [interface{}] *)

(** The parameter sets only ever hold strings, integers ([int32], [int64])
    and, by the protocol description, booleans. *)
Inductive value : Type :=
  | VString (s : string)
  | VInt (n : Z)
  | VBool (b : bool).

Global Instance value_eq_dec : EqDecision value.
Proof. solve_decision. Defined.

(** [fmt.Sprintf("%v", v)].  Indexing a map with a key it does not hold gives
    the nil interface, which [%v] prints as [<nil>]. *)
Definition Sprintf_v (v : option value) : string :=
  match v with
  | Some (VString s) => s
  | Some (VInt n) => pretty n
  | Some (VBool true) => "true"
  | Some (VBool false) => "false"
  | None => "<nil>"
  end.

(** ** Strings: comparison, sorting, joining *)

(** Go compares strings byte by byte; [String.compare] is that order. *)
Definition string_le : relation string := λ a b, String.leb a b = true.
Definition string_lt : relation string := λ a b, String.ltb a b = true.

Global Instance string_le_dec : RelDecision string_le.
Proof. intros a b. unfold string_le. apply _. Defined.
Global Instance string_lt_dec : RelDecision string_lt.
Proof. intros a b. unfold string_lt. apply _. Defined.

(** [sort.Strings]: the library sorts the slice into ascending order; the
    keys of a map are pairwise distinct, so every sorting algorithm yields the
    same slice. *)
Definition sort_Strings (keys : list string) : list string :=
  merge_sort string_le keys.

(** [strings.Join(parts, sep)]. *)
Definition strings_Join (parts : list string) (sep : string) : string :=
  String.concat sep parts.

(** ** The canonical message builder *)

(** [range_order] is the order in which [for key := range params] visits the
    keys: Go leaves it unspecified, so it is an argument of the model. *)
Definition buildSortedMessage
    (range_order : list string) (params : gmap string value) : string :=
  let keys := sort_Strings range_order in
  let messageParts := (λ key, Sprintf_v (params !! key)) <$> keys in
  strings_Join messageParts ",".

(** A list of keys is a possible iteration order of a map when it visits every
    key of the map exactly once. *)
Definition range_of (params : gmap string value) (order : list string) : Prop :=
  order ≡ₚ (map_to_list params).*1.

(** The entries of a map listed by ascending key, as the protocol description
    words the canonical order. *)
Definition ascending_by_key (kvs : list (string * value)) : Prop :=
  StronglySorted string_lt kvs.*1.

(** ** Bytes and arbitrary-precision integers *)

(** A Go [byte] is an [ascii]; a [[]byte] and the bytes of a [string] are
    [list ascii] ([[]byte(s)] is [list_ascii_of_string s]). *)
Definition byte_val (b : ascii) : Z := Z.of_N (N_of_ascii b).

(** [byte] arithmetic wraps around modulo 256. *)
Definition byte_add (b : ascii) (k : Z) : ascii :=
  ascii_of_N (Z.to_N ((byte_val b + k) mod 256)).

(** [new(big.Int).SetBytes(buf)]: the bytes read as a big-endian unsigned
    integer. *)
Definition SetBytes (buf : list ascii) : Z :=
  fold_left (λ acc b, acc * 256 + byte_val b) buf 0.

(** [String()] of a [big.Int]: the decimal representation. *)
Definition Int_String (x : Z) : string := pretty x.

(** The value of one hexadecimal digit ([encoding/hex]'s reverse table, and
    the digits [big.Int.SetString] accepts in base 16). *)
Definition fromHexChar (c : ascii) : option Z :=
  let n := byte_val c in
  if decide (48 ≤ n ≤ 57) then Some (n - 48)
  else if decide (97 ≤ n ≤ 102) then Some (n - 87)
  else if decide (65 ≤ n ≤ 70) then Some (n - 55)
  else None.

(** Reading a run of digits in a base. *)
Fixpoint parse_digits (base : Z) (digit : ascii → option Z) (s : string)
    (acc : Z) : option Z :=
  match s with
  | EmptyString => Some acc
  | String c rest =>
      match digit c with
      | Some d => parse_digits base digit rest (acc * base + d)
      | None => None
      end
  end.

Definition decimal_digit (c : ascii) : option Z :=
  let n := byte_val c in
  if decide (48 ≤ n ≤ 57) then Some (n - 48) else None.

(** [hex.DecodeString]: the first offending character is reported before an
    odd length is. *)
Inductive hex_error : Type :=
  | InvalidByteError (c : ascii)
  | ErrLength.

Fixpoint hex_DecodeString (s : string) : hex_error + list ascii :=
  match s with
  | EmptyString => inr []
  | String p EmptyString =>
      match fromHexChar p with
      | None => inl (InvalidByteError p)
      | Some _ => inl ErrLength
      end
  | String p (String q rest) =>
      match fromHexChar p, fromHexChar q with
      | None, _ => inl (InvalidByteError p)
      | Some _, None => inl (InvalidByteError q)
      | Some a, Some b =>
          match hex_DecodeString rest with
          | inl e => inl e
          | inr bytes => inr (ascii_of_N (Z.to_N (a * 16 + b)) :: bytes)
          end
      end
  end.

(** ** Parsing the private key: go-ethereum's [crypto.HexToECDSA] *)

(** The order of the secp256k1 group. *)
Definition secp256k1N : Z :=
  0xFFFFFFFFFFFFFFFFFFFFFFFFFFFFFFFEBAAEDCE6AF48A03BBFD25E8CD0364141.

(** The ways [HexToECDSA] rejects a key: a character that is no hexadecimal
    digit, an odd number of digits, a key that is not 256 bits long, a scalar
    that is not below the group order, and the zero scalar. *)
Inductive key_error : Type :=
  | InvalidHexCharacter (c : ascii)
  | InvalidHexData
  | InvalidLength
  | NotBelowN
  | ZeroOrNegative.

(** The private key is its scalar [D].  The library's last check, that the
    public key [D * G] is a point of the curve, passes for every scalar that
    reaches it (a scalar from 1 to the order less 1), so no error stands for
    it. *)
Definition HexToECDSA (hexkey : string) : key_error + Z :=
  match hex_DecodeString hexkey with
  | inl (InvalidByteError c) => inl (InvalidHexCharacter c)
  | inl ErrLength => inl InvalidHexData
  | inr d =>
      if decide (8 * Z.of_nat (length d) ≠ 256) then inl InvalidLength
      else
        let D := SetBytes d in
        if decide (secp256k1N ≤ D) then inl NotBelowN
        else if decide (D ≤ 0) then inl ZeroOrNegative
        else inr D
  end.

(** A well-formed private key, in the words of the key's format: 64
    hexadecimal digits that denote a scalar of the group, from 1 to the order
    less 1. *)
Definition well_formed_key (hexkey : string) (scalar : Z) : Prop :=
  String.length hexkey = 64%nat
  ∧ parse_digits 16 fromHexChar hexkey 0 = Some scalar
  ∧ 0 < scalar < secp256k1N.

(** ** JSON documents *)

(** A JSON document as [encoding/json] reads and writes it.  A number keeps
    its literal; the fields of an object keep the order of the text. *)
Local Unset Elimination Schemes.
Inductive json : Type :=
  | JNull
  | JBool (b : bool)
  | JNumber (literal : string)
  | JString (s : string)
  | JArray (items : list json)
  | JObject (fields : list (string * json)).
Local Set Elimination Schemes.

(** A Go integer as [json.Marshal] writes it. *)
Definition JInt (n : Z) : json := JNumber (pretty n).

(** A string, [int32] or [int64] held in an [interface{}], as [json.Marshal]
    writes it. *)
Definition value_to_json (v : value) : json :=
  match v with
  | VString s => JString s
  | VInt n => JInt n
  | VBool b => JBool b
  end.

(** ** The packages the SDK calls *)

(** The packages whose code is not part of the SDK are parameters of the
    model: every property below holds for each implementation of them.
    - [Keccak256] and [Sign] are go-ethereum's [crypto.Keccak256Hash] and
      [crypto.Sign]; [Sign] returns the error's text or the signature bytes.
    - [json_parse] is the syntax layer of [json.Unmarshal]: the document a
      text denotes, or [None] when the text is not valid JSON (in which case
      [json.Unmarshal] leaves its destination untouched).
    - [json_Marshal] is [json.Marshal].
    - [Sscanf_0x_hex s] is [fmt.Sscanf(s, "0x%x", &n)] for an [int64] [n]:
      the number stored in [n], or [None] when the scan fails and [n] is
      left as it was.
    - [range_keys m] is the order in which the Go runtime iterates over the
      map [m].
    - [SetString_failed s] is the value [big.Int.SetString(s, 16)] leaves in
      its receiver when it fails, which the package documents as undefined. *)
Class Libraries : Type := {
  Keccak256 : list ascii → list ascii;
  Sign : list ascii → Z → string + list ascii;
  json_parse : string → option json;
  json_Marshal : json → string;
  Sscanf_0x_hex : string → option Z;
  range_keys : gmap string value → list string;
  SetString_failed : string → Z;
}.

(** What the documentation of the packages promises and the properties below
    rely on: a map iteration visits every key once, [crypto.Sign] produces
    65 bytes [R || S || V] with [V] equal to 0 or 1, and a scan against the
    format [0x%x] succeeds only on a text that starts with [0x]. *)
Class LibrariesSpec (L : Libraries) : Prop := {
  range_keys_spec : ∀ m, range_of m (range_keys m);
  Sign_spec : ∀ hash key sig,
    Sign hash key = inr sig → length sig = 65%nat ∧ 0 ≤ byte_val (nth 64 sig zero) ≤ 1;
  Sscanf_0x_hex_spec : ∀ s n,
    Sscanf_0x_hex s = Some n → ∃ rest, s = "0x" +:+ rest;
}.

(** ** Errors, panics and configuration *)

(** The errors [json.Unmarshal] reports for a document that is well formed:
    the empty input, and a value that does not fit the Go type it is decoded
    into ([UnmarshalTypeError], with the kind of the JSON value and the Go
    type).  The first one met is the one returned. *)
Inductive unmarshal_error : Type :=
  | UnexpectedEnd
  | TypeMismatch (json_kind : string) (go_type : string).

(** The errors an operation hands to its caller.  [TransportError] is what
    [client.Post] returned and [UnmarshalError] what [json.Unmarshal] of the
    result returned; the other three are made by the SDK with [fmt.Errorf]. *)
Inductive error : Type :=
  | TransportError (text : string)
  | InvalidPrivateKey (cause : key_error)
  | SignError (text : string)
  | RPCError (message : string)
  | UnmarshalError (cause : unmarshal_error).

(** [err.Error()] of the errors the SDK formats itself, from the format
    strings of [alchemy.go]; [cause] is the text of the wrapped library error
    where the model keeps that error structured. *)
Definition error_text (e : error) (cause : string) : string :=
  match e with
  | TransportError text => text
  | InvalidPrivateKey _ => "invalid private key: " +:+ cause
  | SignError text => "sign error: " +:+ text
  | RPCError message => "RPC error: " +:+ message
  | UnmarshalError _ => cause
  end.

(** A Go call either returns or panics (a slice or index out of range). *)
Inductive outcome (A : Type) : Type :=
  | Returns (a : A)
  | Panics.
Global Arguments Returns {A} a.
Global Arguments Panics {A}.

(** The two package-level variables [baseURL] and [privateKey]. *)
Record config : Type := { baseURL : string; privateKey : string }.

Definition initial_config : config :=
  {| baseURL := "http://localhost:8545"; privateKey := "" |}.

Definition Config (url key : string) (_ : config) : config :=
  {| baseURL := url; privateKey := key |}.

(** ** The signer *)

Module Signature.
Record t : Type := mk { R : string; S : string; V : string }.
End Signature.

(** [if len(privateKeyHex) > 2 && privateKeyHex[:2] == "0x"] then
    [privateKeyHex[2:]]. *)
Definition strip_0x (privateKeyHex : string) : string :=
  match privateKeyHex with
  | String "0" (String "x" (String c rest)) => String c rest
  | _ => privateKeyHex
  end.

Definition generateSignature `{Libraries} (cfg : config)
    (params : gmap string value) : outcome (error + Signature.t) :=
  let privateKeyHex := strip_0x (privateKey cfg) in
  match HexToECDSA privateKeyHex with
  | inl e => Returns (inl (InvalidPrivateKey e))
  | inr privKey =>
      let message := buildSortedMessage (range_keys params) params in
      let hash := Keccak256 (list_ascii_of_string message) in
      match Sign hash privKey with
      | inl e => Returns (inl (SignError e))
      | inr signature =>
          (* signature[:32], signature[32:64] and signature[64] *)
          if decide (length signature < 65)%nat then Panics
          else
            let r := SetBytes (take 32 signature) in
            let s := SetBytes (take 32 (drop 32 signature)) in
            let v := SetBytes [byte_add (nth 64 signature zero) 27] in
            Returns (inr (Signature.mk (Int_String r) (Int_String s) (Int_String v)))
      end
  end.

(** ** Decoding JSON documents into Go values *)

(** [strconv.ParseUint(s, 10, 64)] on a JSON number literal: the literal has
    to be a run of digits. *)
Definition ParseUint (s : string) : option Z :=
  match s with
  | EmptyString => None
  | _ =>
      match parse_digits 10 decimal_digit s 0 with
      | Some n => if decide (n < 2 ^ 64) then Some n else None
      | None => None
      end
  end.

(** The integer a decimal numeral denotes: an optional minus sign and a
    non-empty run of digits, with nothing before, between or after them. *)
Definition decimal_value (s : string) : option Z :=
  let '(negative, ds) :=
    match s with
    | String "-" rest => (true, rest)
    | _ => (false, s)
    end in
  match ds with
  | EmptyString => None
  | _ =>
      match parse_digits 10 decimal_digit ds 0 with
      | Some n => Some (if negative then - n else n)
      | None => None
      end
  end.

(** The name under which [encoding/json] compares an object key with a field
    name when they are not equal byte for byte: ASCII letters in upper case,
    and the two letters U+017F and U+212A, which Unicode folds onto [S] and
    [K], replaced by them. *)
Definition upper (c : ascii) : ascii :=
  let n := byte_val c in
  if decide (97 ≤ n ≤ 122) then ascii_of_N (Z.to_N (n - 32)) else c.

Fixpoint foldName (key : string) : string :=
  match key with
  | EmptyString => EmptyString
  | String c rest =>
      match c, rest with
      | "197"%char, String "191"%char rest' => String "S" (foldName rest')
      | "226"%char, String "132"%char (String "170"%char rest') =>
          String "K" (foldName rest')
      | _, _ => String (upper c) (foldName rest)
      end
  end.

Definition field_is (name key : string) : bool :=
  bool_decide (foldName key = foldName name).

(** The kind of a JSON value as [UnmarshalTypeError] names it. *)
Definition json_kind (j : json) : string :=
  match j with
  | JNull => "null"
  | JBool _ => "bool"
  | JNumber _ => "number"
  | JString _ => "string"
  | JArray _ => "array"
  | JObject _ => "object"
  end.

(** The zero value of a Go type. *)
Class Zero (T : Type) : Type := zero_value : T.

Global Instance zero_string : Zero string := "".
Global Instance zero_bool : Zero bool := false.
Global Instance zero_pointer {T} : Zero (option T) := None.

(** [unmarshal j old] decodes the document [j] into a Go variable that holds
    [old]: the value the variable holds afterwards, and the error reported,
    if any.  Decoding goes on after a value that does not fit. *)
Class Unmarshal (T : Type) : Type :=
  unmarshal : json → T → T * option unmarshal_error.

(** The first error is the one kept ([saveError]). *)
Definition first_error (e1 e2 : option unmarshal_error) : option unmarshal_error :=
  match e1 with
  | Some e => Some e
  | None => e2
  end.

Global Instance unmarshal_string : Unmarshal string := λ j old,
  match j with
  | JString s => (s, None)
  | JNull => (old, None)
  | _ => (old, Some (TypeMismatch (json_kind j) "string"))
  end.

Global Instance unmarshal_bool : Unmarshal bool := λ j old,
  match j with
  | JBool b => (b, None)
  | JNull => (old, None)
  | _ => (old, Some (TypeMismatch (json_kind j) "bool"))
  end.

(** A [uint8] field. *)
Definition unmarshal_uint8 (j : json) (old : Z) : Z * option unmarshal_error :=
  match j with
  | JNumber literal =>
      match ParseUint literal with
      | Some n =>
          if decide (n < 256) then (n, None)
          else (old, Some (TypeMismatch ("number " +:+ literal) "uint8"))
      | None => (old, Some (TypeMismatch ("number " +:+ literal) "uint8"))
      end
  | JNull => (old, None)
  | _ => (old, Some (TypeMismatch (json_kind j) "uint8"))
  end.

(** A pointer: [null] sets it to nil, any other document allocates the
    pointee when the pointer is nil and is decoded into it. *)
Global Instance unmarshal_pointer {T} `{Zero T, Unmarshal T} : Unmarshal (option T) :=
  λ j old,
  match j with
  | JNull => (None, None)
  | _ =>
      let '(new, e) := unmarshal j (default zero_value old) in
      (Some new, e)
  end.

(** A struct: the fields of the object are decoded one after the other, in the
    order of the text, each into the Go field whose name it carries;
    [set_field] does one of them. *)
Definition unmarshal_struct {T} (go_type : string)
    (set_field : string → json → T → T * option unmarshal_error)
    (j : json) (old : T) : T * option unmarshal_error :=
  match j with
  | JObject fields =>
      fold_left
        (λ '(cur, e) '(key, v), let '(new, e') := set_field key v cur in
                                (new, first_error e e'))
        fields (old, None)
  | JNull => (old, None)
  | _ => (old, Some (TypeMismatch (json_kind j) go_type))
  end.

(** [json.Unmarshal(data, &v)] for [data] cut out of a document that was
    parsed before (a [json.RawMessage]): [None] is the empty message. *)
Definition Unmarshal_raw {T} `{Unmarshal T} (data : option json) (v : T)
    : T * option unmarshal_error :=
  match data with
  | None => (v, Some UnexpectedEnd)
  | Some j => unmarshal j v
  end.

(** [json.Unmarshal(body, &v)] with the error dropped, as the SDK calls it on
    response bodies. *)
Definition Unmarshal_body `{Libraries} {T} `{Unmarshal T} (body : string) (v : T)
    : T :=
  match json_parse body with
  | None => v
  | Some j => (unmarshal j v).1
  end.

(** ** The result types *)

Module TokenMetadata.
Record t : Type := mk {
  Name : string; Symbol : string; Decimals : Z; Supply : string; IsPaused : bool
}.
End TokenMetadata.

Module TokenIssueResult.
Record t : Type := mk { Hash : string; Token : string }.
End TokenIssueResult.

Module TransactionResult.
Record t : Type := mk { Hash : string }.
End TransactionResult.

Module BalanceInfo.
Record t : Type := mk { Wei : string; Eth : string }.
End BalanceInfo.

Global Instance zero_TokenMetadata : Zero TokenMetadata.t := TokenMetadata.mk "" "" 0 "" false.

Global Instance unmarshal_TokenMetadata : Unmarshal TokenMetadata.t :=
  unmarshal_struct "alchemy.TokenMetadata" (λ key v cur,
    let '(TokenMetadata.mk name symbol decimals supply isPaused) := cur in
    if field_is "name" key then
      let '(x, e) := unmarshal v name in (TokenMetadata.mk x symbol decimals supply isPaused, e)
    else if field_is "symbol" key then
      let '(x, e) := unmarshal v symbol in (TokenMetadata.mk name x decimals supply isPaused, e)
    else if field_is "decimals" key then
      let '(x, e) := unmarshal_uint8 v decimals in (TokenMetadata.mk name symbol x supply isPaused, e)
    else if field_is "supply" key then
      let '(x, e) := unmarshal v supply in (TokenMetadata.mk name symbol decimals x isPaused, e)
    else if field_is "isPaused" key then
      let '(x, e) := unmarshal v isPaused in (TokenMetadata.mk name symbol decimals supply x, e)
    else (cur, None)).

Global Instance zero_TokenIssueResult : Zero TokenIssueResult.t := TokenIssueResult.mk "" "".

Global Instance unmarshal_TokenIssueResult : Unmarshal TokenIssueResult.t :=
  unmarshal_struct "alchemy.TokenIssueResult" (λ key v cur,
    let '(TokenIssueResult.mk hash token) := cur in
    if field_is "hash" key then
      let '(x, e) := unmarshal v hash in (TokenIssueResult.mk x token, e)
    else if field_is "token" key then
      let '(x, e) := unmarshal v token in (TokenIssueResult.mk hash x, e)
    else (cur, None)).

Global Instance zero_TransactionResult : Zero TransactionResult.t := TransactionResult.mk "".

Global Instance unmarshal_TransactionResult : Unmarshal TransactionResult.t :=
  unmarshal_struct "alchemy.TransactionResult" (λ key v cur,
    let '(TransactionResult.mk hash) := cur in
    if field_is "hash" key then
      let '(x, e) := unmarshal v hash in (TransactionResult.mk x, e)
    else (cur, None)).

(** ** The response envelopes *)

(** The [error] member of an envelope: [*struct{ Message string }]. *)
Module rpcError.
Record t : Type := mk { Message : string }.
End rpcError.

Global Instance zero_rpcError : Zero rpcError.t := rpcError.mk "".

Global Instance unmarshal_rpcError : Unmarshal rpcError.t :=
  unmarshal_struct "struct { Message string }" (λ key v cur,
    if field_is "message" key then
      let '(x, e) := unmarshal v (rpcError.Message cur) in (rpcError.mk x, e)
    else (cur, None)).

(** The envelope [rpcCall] decodes: [Result] is a [json.RawMessage], which
    takes every document as it is ([None] is the nil message). *)
Module rpcResp.
Record t : Type := mk { Result : option json; Error : option rpcError.t }.
End rpcResp.

Global Instance zero_rpcResp : Zero rpcResp.t := rpcResp.mk None None.

Global Instance unmarshal_rpcResp : Unmarshal rpcResp.t :=
  unmarshal_struct "struct" (λ key v cur,
    if field_is "result" key then (rpcResp.mk (Some v) (rpcResp.Error cur), None)
    else if field_is "error" key then
      let '(x, e) := unmarshal v (rpcResp.Error cur) in (rpcResp.mk (rpcResp.Result cur) x, e)
    else (cur, None)).

(** The envelope [GetBalance] decodes: [Result] is a [string]. *)
Module balanceResp.
Record t : Type := mk { Result : string; Error : option rpcError.t }.
End balanceResp.

Global Instance zero_balanceResp : Zero balanceResp.t := balanceResp.mk "" None.

Global Instance unmarshal_balanceResp : Unmarshal balanceResp.t :=
  unmarshal_struct "struct" (λ key v cur,
    if field_is "result" key then
      let '(x, e) := unmarshal v (balanceResp.Result cur) in (balanceResp.mk x (balanceResp.Error cur), e)
    else if field_is "error" key then
      let '(x, e) := unmarshal v (balanceResp.Error cur) in (balanceResp.mk (balanceResp.Result cur) x, e)
    else (cur, None)).

(** The envelope [getBlockNumber] decodes. *)
Module blockResp.
Record t : Type := mk { Result : string }.
End blockResp.

Global Instance zero_blockResp : Zero blockResp.t := blockResp.mk "".

Global Instance unmarshal_blockResp : Unmarshal blockResp.t :=
  unmarshal_struct "struct" (λ key v cur,
    if field_is "result" key then
      let '(x, e) := unmarshal v (blockResp.Result cur) in (blockResp.mk x, e)
    else (cur, None)).

(** ** The HTTP client *)

(** One [client.Post(url, contentType, body)]. *)
Record request : Type := { url : string; contentType : string; body : string }.

(** The other end of the wire: given the requests sent so far and the one
    being sent, either [client.Post] fails with an error (its text) or the
    body of the response is read. *)
Definition network : Type := list request → request → string + string.

(** A call that uses the network receives the requests sent so far and returns
    them extended with its own. *)
Definition client_Post (net : network) (url contentType body : string)
    (sent : list request) : (string + string) * list request :=
  let req := {| url := url; contentType := contentType; body := body |} in
  (net sent req, sent ++ [req]).

(** JSON text written with an apostrophe where the text has a double quote. *)
Fixpoint json_text (s : string) : string :=
  match s with
  | EmptyString => EmptyString
  | String c rest =>
      String (if decide (c = "'"%char) then "034"%char else c) (json_text rest)
  end.

(** ** The RPC client *)

(** The body [getBlockNumber] posts. *)
Definition blockNumber_body : string :=
  json_text "{'jsonrpc':'2.0','method':'eth_blockNumber','params':[],'id':1}".

Definition getBlockNumber `{Libraries} (net : network) (cfg : config)
    (sent : list request) : (error + Z) * list request :=
  match client_Post net (baseURL cfg) "application/json" blockNumber_body sent with
  | (inl err, sent) => (inl (TransportError err), sent)
  | (inr respBody, sent) =>
      let blockResp := Unmarshal_body respBody (zero_value : blockResp.t) in
      let blockNumber := default 0 (Sscanf_0x_hex (blockResp.Result blockResp)) in
      (inr blockNumber, sent)
  end.

(** The map [rpcReq] of [rpcCall] and of [GetBalance]. *)
Definition rpcReq (method : string) (params : json) : json :=
  JObject [("jsonrpc", JString "2.0"); ("method", JString method);
           ("params", params); ("id", JInt 1)].

Definition rpcCall `{Libraries} (net : network) (cfg : config)
    (method : string) (params : json)
    (sent : list request) : (error + option json) * list request :=
  let reqBody := json_Marshal (rpcReq method params) in
  match client_Post net (baseURL cfg +:+ "/rpc") "application/json" reqBody sent with
  | (inl err, sent) => (inl (TransportError err), sent)
  | (inr respBody, sent) =>
      let rpcResp := Unmarshal_body respBody (zero_value : rpcResp.t) in
      match rpcResp.Error rpcResp with
      | Some e => (inl (RPCError (rpcError.Message e)), sent)
      | None => (inr (rpcResp.Result rpcResp), sent)
      end
  end.

(** The two requests an operation sends: the block-height query to the chain
    node and the call to the service. *)
Definition blockNumber_request (cfg : config) : request :=
  {| url := baseURL cfg; contentType := "application/json"; body := blockNumber_body |}.

Definition rpc_request `{Libraries} (cfg : config) (method : string) (params : json)
    : request :=
  {| url := baseURL cfg +:+ "/rpc"; contentType := "application/json";
     body := json_Marshal (rpcReq method params) |}.

(** ** The response wrapper *)

Record ResponseHandler (T : Type) : Type := { data : T; err : option error }.
Global Arguments data {T} _.
Global Arguments err {T} _.
Global Arguments Build_ResponseHandler {T} _ _.

(** A callback acts on the state of the caller; an accessor that does not
    invoke its callback leaves that state as it is. *)
Definition Success {T St} (r : ResponseHandler T) (callback : T → St → St)
    (st : St) : ResponseHandler T * St :=
  match err r with
  | None => (r, callback (data r) st)
  | Some _ => (r, st)
  end.

Definition Error {T St} (r : ResponseHandler T) (callback : error → St → St)
    (st : St) : ResponseHandler T * St :=
  match err r with
  | Some e => (r, callback e st)
  | None => (r, st)
  end.

(** [&ResponseHandler[T]{err: err}] and [&ResponseHandler[T]{data: response}]. *)
Definition failed {T} `{Zero T} (e : error) : ResponseHandler T :=
  {| data := zero_value; err := Some e |}.
Definition succeeded {T} (response : T) : ResponseHandler T :=
  {| data := response; err := None |}.

(** ** The operations *)

(** The map [params] of [CreateToken]: what is signed. *)
Definition CreateToken_params (name symbol : string) (decimals : Z)
    (masterAuthority : string) (nonce blockNum : Z) : gmap string value :=
  {[ "decimals" := VInt decimals;
     "masterAuthority" := VString masterAuthority;
     "name" := VString name;
     "nonce" := VInt nonce;
     "recentCheckpoint" := VInt blockNum;
     "symbol" := VString symbol ]}.

(** The map under the key [signature] of a request. *)
Definition signature_json (signature : Signature.t) : json :=
  JObject [("r", JString (Signature.R signature));
           ("s", JString (Signature.S signature));
           ("v", JString (Signature.V signature))].

(** The map [reqParams] of [CreateToken]: what is sent. *)
Definition CreateToken_reqParams (name symbol : string) (decimals : Z)
    (masterAuthority : string) (nonce blockNum : Z) (signature : Signature.t) : json :=
  JObject [("decimals", JInt decimals);
           ("master_authority", JString masterAuthority);
           ("name", JString name);
           ("symbol", JString symbol);
           ("nonce", JInt nonce);
           ("recent_checkpoint", JInt blockNum);
           ("signature", signature_json signature)].

(** The map [params] of [dynamicCallWithType]: what is signed. *)
Definition dynamicCall_params (tokenAddress : string) (nonce blockNum : Z)
    : gmap string value :=
  {[ "recentCheckpoint" := VInt blockNum;
     "nonce" := VInt nonce;
     "token" := VString tokenAddress ]}.

(** The map [reqParams] of [dynamicCallWithType]: what is sent. *)
Definition dynamicCall_reqParams (tokenAddress : string) (methodArgs : list value)
    (nonce blockNum : Z) (signature : Signature.t) : json :=
  JObject [("nonce", JInt nonce);
           ("token", JString tokenAddress);
           ("methodArgs", JArray (value_to_json <$> methodArgs));
           ("recent_checkpoint", JInt blockNum);
           ("signature", signature_json signature)].

Definition CreateToken `{Libraries} (net : network) (cfg : config)
    (name symbol : string) (decimals : Z) (masterAuthority : string)
    (sent : list request)
    : outcome (ResponseHandler (option TokenIssueResult.t)) * list request :=
  match getBlockNumber net cfg sent with
  | (inl err, sent) => (Returns (failed err), sent)
  | (inr blockNum, sent) =>
      let nonce := 0 in
      let params := CreateToken_params name symbol decimals masterAuthority nonce blockNum in
      match generateSignature cfg params with
      | Panics => (Panics, sent)
      | Returns (inl err) => (Returns (failed err), sent)
      | Returns (inr signature) =>
          let reqParams :=
            CreateToken_reqParams name symbol decimals masterAuthority nonce blockNum
              signature in
          match rpcCall net cfg "create_token" reqParams sent with
          | (inl err, sent) => (Returns (failed err), sent)
          | (inr result, sent) =>
              match Unmarshal_raw result (zero_value : TokenIssueResult.t) with
              | (_, Some e) => (Returns (failed (UnmarshalError e)), sent)
              | (response, None) => (Returns (succeeded (Some response)), sent)
              end
          end
      end
  end.

Definition dynamicCallWithType `{Libraries} {T} `{Zero T, Unmarshal T}
    (net : network) (cfg : config)
    (tokenAddress methodName : string) (methodArgs : list value) (nonce : Z)
    (sent : list request) : outcome (ResponseHandler T) * list request :=
  match getBlockNumber net cfg sent with
  | (inl err, sent) => (Returns (failed err), sent)
  | (inr blockNum, sent) =>
      let params := dynamicCall_params tokenAddress nonce blockNum in
      match generateSignature cfg params with
      | Panics => (Panics, sent)
      | Returns (inl err) => (Returns (failed err), sent)
      | Returns (inr signature) =>
          let reqParams :=
            dynamicCall_reqParams tokenAddress methodArgs nonce blockNum signature in
          match rpcCall net cfg methodName reqParams sent with
          | (inl err, sent) => (Returns (failed err), sent)
          | (inr result, sent) =>
              match Unmarshal_raw result (zero_value : T) with
              | (_, Some e) => (Returns (failed (UnmarshalError e)), sent)
              | (response, None) => (Returns (succeeded response), sent)
              end
          end
      end
  end.

Definition dynamicCall `{Libraries} (net : network) (cfg : config)
    (tokenAddress methodName : string) (methodArgs : list value) (nonce : Z)
    : list request → outcome (ResponseHandler (option TransactionResult.t)) * list request :=
  dynamicCallWithType net cfg tokenAddress methodName methodArgs nonce.

Definition GetTokenMetadata `{Libraries} (net : network) (cfg : config)
    (tokenAddress : string)
    : list request → outcome (ResponseHandler (option TokenMetadata.t)) * list request :=
  dynamicCallWithType net cfg tokenAddress "getTokenMetadata" [] 0.

Definition UpdateMetadata `{Libraries} (net : network) (cfg : config)
    (tokenAddress newName newSymbol : string) (nonce : Z) :=
  dynamicCall net cfg tokenAddress "updateMetadata" [VString newName; VString newSymbol] nonce.

Definition Mint `{Libraries} (net : network) (cfg : config)
    (tokenAddress toAddress amount : string) (nonce : Z) :=
  dynamicCall net cfg tokenAddress "mint" [VString toAddress; VString amount] nonce.

Definition GrantAuthority `{Libraries} (net : network) (cfg : config)
    (tokenAddress role account : string) (nonce : Z) :=
  dynamicCall net cfg tokenAddress "grantAuthority" [VString role; VString account] nonce.

Definition RevokeAuthority `{Libraries} (net : network) (cfg : config)
    (tokenAddress role account : string) (nonce : Z) :=
  dynamicCall net cfg tokenAddress "revokeAuthority" [VString role; VString account] nonce.

Definition AdminBurn `{Libraries} (net : network) (cfg : config)
    (tokenAddress fromAddress amount : string) (nonce : Z) :=
  dynamicCall net cfg tokenAddress "adminBurn" [VString fromAddress; VString amount] nonce.

Definition Pause `{Libraries} (net : network) (cfg : config)
    (tokenAddress : string) (nonce : Z) :=
  dynamicCall net cfg tokenAddress "pause" [] nonce.

Definition Unpause `{Libraries} (net : network) (cfg : config)
    (tokenAddress : string) (nonce : Z) :=
  dynamicCall net cfg tokenAddress "unpause" [] nonce.

Definition AddToBlacklist `{Libraries} (net : network) (cfg : config)
    (tokenAddress accountAddress : string) (nonce : Z) :=
  dynamicCall net cfg tokenAddress "addToBlacklist" [VString accountAddress] nonce.

(** ** Two statements of the description, as it words them *)

(** "A signing failure is surfaced before any network call is made": when a
    token creation ends with a signing error, it has sent no request. *)
Definition signing_failure_precedes_every_request : Prop :=
  ∀ (L : Libraries) (net : network) (cfg : config) (name symbol : string)
    (decimals : Z) (masterAuthority : string) (sent : list request) (e : error),
    ((∃ cause, e = InvalidPrivateKey cause) ∨ (∃ text, e = SignError text)) →
    (CreateToken net cfg name symbol decimals masterAuthority sent).1
    = Returns (failed e) →
    (CreateToken net cfg name symbol decimals masterAuthority sent).2 = sent.


(** Callbacks that record their invocation in a log. *)
Definition log_success {T} (x : T) (log : list (T + error)) : list (T + error) :=
  log ++ [inl x].
Definition log_error {T} (e : error) (log : list (T + error)) : list (T + error) :=
  log ++ [inr e].

(** [r.Success(f).Error(g)], the chain of the SDK's documentation. *)
Definition Success_then_Error {T St} (r : ResponseHandler T) (f : T → St → St)
    (g : error → St → St) (st : St) : ResponseHandler T * St :=
  let '(r1, st1) := Success r f st in Error r1 g st1.

(** ** Arbitrary-precision numbers: [math/big] *)

(** [z.SetString(s, 16)]: an optional sign and at least one hexadecimal
    digit, nothing else; [None] when the call reports failure. *)
Definition Int_SetString16 (s : string) : option Z :=
  let '(neg, digits) :=
    match s with
    | String "-" rest => (true, rest)
    | String "+" rest => (false, rest)
    | _ => (false, s)
    end in
  match digits with
  | EmptyString => None
  | _ =>
      match parse_digits 16 fromHexChar digits 0 with
      | Some n => Some (if neg then - n else n)
      | None => None
      end
  end.

(** [x.BitLen()]. *)
Definition bitLen (x : Z) : Z :=
  if decide (x = 0) then 0 else Z.log2 (Z.abs x) + 1.

(** A finite [big.Float]: its precision in bits and its value
    [(-1)^neg * mant * 2^exp]; the value is zero when [mant] is. *)
Record Float : Type := { prec : Z; neg : bool; mant : Z; exp : Z }.

(** [new(big.Float).SetInt(x)]: the precision becomes the larger of
    [x.BitLen()] and 64, so the value is [x] exactly. *)
Definition Float_SetInt (x : Z) : Float :=
  {| prec := Z.max (bitLen x) 64; neg := bool_decide (x < 0); mant := Z.abs x; exp := 0 |}.

(** [big.NewFloat(1e18)]: precision 53; the [float64] constant [1e18] is
    [10^18] exactly. *)
Definition NewFloat_1e18 : Float :=
  {| prec := 53; neg := false; mant := 10 ^ 18; exp := 0 |}.

(** The quotient [n / d] of two positive integers rounded to [p] bits, ties to
    even: the pair [(m, e)] with [2^(p-1) <= m < 2^p] whose value is
    [m * 2^e]. *)
Definition round_quotient (p n d : Z) : Z * Z :=
  let e1 := bitLen n - bitLen d - p in
  let num e := n * 2 ^ Z.max 0 (- e) in
  let den e := d * 2 ^ Z.max 0 e in
  let e := if decide (2 ^ p ≤ num e1 / den e1) then e1 + 1 else e1 in
  let q := num e / den e in
  let r := num e mod den e in
  let q := if decide (den e < 2 * r ∨ (2 * r = den e ∧ Z.odd q = true))
           then q + 1 else q in
  if decide (q = 2 ^ p) then (2 ^ (p - 1), e + 1) else (q, e).

(** [z.Quo(x, y)] with [z] and [x] the same variable: the precision of [x] is
    kept and the quotient is rounded to it, in the default mode
    [ToNearestEven].  The divisor is not zero here (it is [1e18]); for a zero
    divisor, where Go gives an infinity or panics, the model leaves [x]. *)
Definition Float_Quo (x y : Float) : Float :=
  if decide (mant y = 0) then x
  else if decide (mant x = 0) then
    {| prec := prec x; neg := xorb (neg x) (neg y); mant := 0; exp := 0 |}
  else
    let '(m, e) := round_quotient (prec x) (mant x) (mant y) in
    {| prec := prec x; neg := xorb (neg x) (neg y); mant := m; exp := e + exp x - exp y |}.

(** A decimal number [0.d1 d2 ... dn * 10^dexp], its digits without trailing
    zeros: the [decimal] of [math/big]. *)
Record decimal : Type := { digits : list ascii; dexp : Z }.

Fixpoint drop_while {A} (f : A → bool) (l : list A) : list A :=
  match l with
  | [] => []
  | x :: l' => if f x then drop_while f l' else l
  end.

Definition trim (ds : list ascii) : list ascii :=
  reverse (drop_while (λ c, bool_decide (c = "0"%char)) (reverse ds)).

(** [d.init(m, shift)]: the exact decimal expansion of [m * 2^shift]. *)
Definition decimal_init (m shift : Z) : decimal :=
  if decide (m = 0) then {| digits := []; dexp := 0 |}
  else
    let n := if decide (0 ≤ shift) then m * 2 ^ shift else m * 5 ^ (- shift) in
    let ds := list_ascii_of_string (pretty n) in
    {| digits := trim ds;
       dexp := Z.of_nat (length ds) + (if decide (0 ≤ shift) then 0 else shift) |}.

(** [shouldRoundUp(x, n)]: halfway cases go to the even digit. *)
Definition shouldRoundUp (x : decimal) (n : nat) : bool :=
  match digits x !! n with
  | Some c =>
      if bool_decide (c = "5"%char) && bool_decide (S n = length (digits x)) then
        bool_decide (0 < n)%nat
        && Z.odd (byte_val (nth (n - 1) (digits x) "0"%char) - 48)
      else bool_decide (53 ≤ byte_val c)
  | None => false
  end.

(** [x.roundUp(n)]: the nines before position [n] are dropped and the digit
    before them is incremented. *)
Definition roundUp (x : decimal) (n : nat) : decimal :=
  match drop_while (λ c, bool_decide (57 ≤ byte_val c))
          (reverse (take n (digits x))) with
  | [] => {| digits := ["1"%char]; dexp := dexp x + 1 |}
  | c :: before => {| digits := reverse before ++ [byte_add c 1]; dexp := dexp x |}
  end.

Definition roundDown (x : decimal) (n : nat) : decimal :=
  {| digits := trim (take n (digits x)); dexp := dexp x |}.

(** [x.round(n)]: at most [n] digits are kept. *)
Definition decimal_round (x : decimal) (n : nat) : decimal :=
  if decide (n < length (digits x))%nat then
    if shouldRoundUp x n then roundUp x n else roundDown x n
  else x.

(** [d.at(i)]. *)
Definition digit_at (d : decimal) (i : Z) : ascii :=
  if decide (0 ≤ i) then nth (Z.to_nat i) (digits d) "0"%char else "0"%char.

(** [fmtE(buf, 'e', prec, d)]. *)
Definition fmtE (precision : Z) (d : decimal) : string :=
  let first := nth 0 (digits d) "0"%char in
  let m := Z.to_nat (Z.min (Z.of_nat (length (digits d))) (precision + 1)) in
  let more :=
    if decide (0 < precision) then
      "."%char :: drop 1 (take m (digits d))
        ++ replicate (Z.to_nat (precision + 1) - Nat.max 1 m) "0"%char
    else [] in
  let e := if decide (digits d = []) then 0 else dexp d - 1 in
  let sign := if decide (e < 0) then "-" else "+" in
  let pad := if decide (Z.abs e < 10) then "0" else "" in
  string_of_list_ascii (first :: more) +:+ "e" +:+ sign +:+ pad +:+ pretty (Z.abs e).

(** [fmtF(buf, prec, d)]. *)
Definition fmtF (precision : Z) (d : decimal) : string :=
  let integer :=
    if decide (0 < dexp d) then
      let m := Z.to_nat (Z.min (Z.of_nat (length (digits d))) (dexp d)) in
      take m (digits d) ++ replicate (Z.to_nat (dexp d) - m) "0"%char
    else ["0"%char] in
  let fraction :=
    if decide (0 < precision) then
      "."%char :: ((λ i, digit_at d (dexp d + Z.of_nat i)) <$> seq 0 (Z.to_nat precision))
    else [] in
  string_of_list_ascii (integer ++ fraction).

(** [x.Text('g', precision)] for a finite [x]. *)
Definition Float_Text_g (x : Float) (precision : Z) : string :=
  let d := decimal_round (decimal_init (mant x) (exp x)) (Z.to_nat precision) in
  let len := Z.of_nat (length (digits d)) in
  let eprec := if decide (len < precision ∧ dexp d ≤ len) then len else precision in
  let e := dexp d - 1 in
  (if neg x then "-" else "") +:+
  (if decide (e < -4 ∨ eprec ≤ e) then
     fmtE (Z.min precision len - 1) d
   else
     let precision := if decide (dexp d < precision) then len else precision in
     fmtF (Z.max (precision - dexp d) 0) d).

(** [x.String()] is [x.Text('g', 10)]. *)
Definition Float_String (x : Float) : string := Float_Text_g x 10.

(** ** The balance query *)

(** [s[n:]] for [n <= len(s)]. *)
Fixpoint string_from (n : nat) (s : string) : string :=
  match n, s with
  | O, _ => s
  | S n, String _ rest => string_from n rest
  | S _, EmptyString => EmptyString
  end.

Definition GetBalance `{Libraries} (net : network) (cfg : config)
    (address : string) (sent : list request)
    : outcome (ResponseHandler (option BalanceInfo.t)) * list request :=
  let reqBody :=
    json_Marshal (rpcReq "eth_getBalance" (JArray [JString address; JString "latest"])) in
  match client_Post net (baseURL cfg) "application/json" reqBody sent with
  | (inl err, sent) => (Returns (failed (TransportError err)), sent)
  | (inr respBody, sent) =>
      let rpcResp := Unmarshal_body respBody (zero_value : balanceResp.t) in
      match balanceResp.Error rpcResp with
      | Some e => (Returns (failed (RPCError (rpcError.Message e))), sent)
      | None =>
          let balanceHex := balanceResp.Result rpcResp in
          (* balanceHex[2:] *)
          if decide (String.length balanceHex < 2)%nat then (Panics, sent)
          else
            let digits := string_from 2 balanceHex in
            let balanceWei :=
              match Int_SetString16 digits with
              | Some x => x
              | None => SetString_failed digits
              end in
            let ethValue := Float_SetInt balanceWei in
            let ethValue := Float_Quo ethValue NewFloat_1e18 in
            let balanceEth := Float_String ethValue in
            let response := BalanceInfo.mk (Int_String balanceWei) balanceEth in
            (Returns (succeeded (Some response)), sent)
      end
  end.

(** ** Reference implementations of the packages *)

(** One implementation of [Libraries], to run the operations on concrete
    inputs.  The JSON reader and writer and the scanner follow the Go
    packages on the texts the service exchanges; the hash and the signer are
    stand-ins (any functions do to run the protocol), and no property below
    depends on any of them. *)
Module Reference.

(** *** Reading JSON *)

Definition is_ws (c : ascii) : bool :=
  bool_decide (c = " "%char ∨ c = "009"%char ∨ c = "010"%char ∨ c = "013"%char).

Definition skip_ws (cs : list ascii) : list ascii := drop_while is_ws cs.

Definition is_digit (c : ascii) : bool := bool_decide (48 ≤ byte_val c ≤ 57).

(** The longest run of digits at the head of the text, and the rest. *)
Fixpoint span_digits (cs : list ascii) : list ascii * list ascii :=
  match cs with
  | c :: rest =>
      if is_digit c then let '(ds, rest') := span_digits rest in (c :: ds, rest')
      else ([], cs)
  | [] => ([], [])
  end.

(** A number: an optional minus sign, an integer part with no leading zero,
    an optional fraction and an optional exponent. *)
Definition read_number (cs : list ascii) : option (list ascii * list ascii) :=
  let '(sign, cs) :=
    match cs with
    | "-"%char :: rest => (["-"%char], rest)
    | _ => ([], cs)
    end in
  let '(int, cs) := span_digits cs in
  match int with
  | [] => None
  | "0"%char :: _ :: _ => None
  | _ =>
      let frac :=
        match cs with
        | "."%char :: rest =>
            let '(ds, rest') := span_digits rest in
            match ds with
            | [] => None
            | _ => Some ("."%char :: ds, rest')
            end
        | _ => Some ([], cs)
        end in
      match frac with
      | None => None
      | Some (frac, cs) =>
          let expo :=
            match cs with
            | e :: rest =>
                if bool_decide (e = "e"%char ∨ e = "E"%char) then
                  let '(esign, rest) :=
                    match rest with
                    | c :: rest' =>
                        if bool_decide (c = "+"%char ∨ c = "-"%char)
                        then ([c], rest') else ([], rest)
                    | [] => ([], rest)
                    end in
                  let '(ds, rest') := span_digits rest in
                  match ds with
                  | [] => None
                  | _ => Some (e :: esign ++ ds, rest')
                  end
                else Some ([], cs)
            | [] => Some ([], cs)
            end in
          match expo with
          | None => None
          | Some (expo, cs) => Some (sign ++ int ++ frac ++ expo, cs)
          end
      end
  end.

(** The UTF-8 encoding of a code point. *)
Definition utf8 (cp : Z) : list ascii :=
  let b (n : Z) := ascii_of_N (Z.to_N n) in
  if decide (cp < 128) then [b cp]
  else if decide (cp < 2048) then [b (192 + cp / 64); b (128 + cp mod 64)]
  else if decide (cp < 65536) then
    [b (224 + cp / 4096); b (128 + cp / 64 mod 64); b (128 + cp mod 64)]
  else [b (240 + cp / 262144); b (128 + cp / 4096 mod 64);
        b (128 + cp / 64 mod 64); b (128 + cp mod 64)].

(** Four hexadecimal digits. *)
Definition read_u4 (cs : list ascii) : option (Z * list ascii) :=
  match cs with
  | a :: b :: c :: d :: rest =>
      match fromHexChar a, fromHexChar b, fromHexChar c, fromHexChar d with
      | Some a, Some b, Some c, Some d => Some (((a * 16 + b) * 16 + c) * 16 + d, rest)
      | _, _, _, _ => None
      end
  | _ => None
  end.

(** The text of a string after its opening quote, up to the closing one.  An
    escaped surrogate that is not half of a pair reads as U+FFFD.  Bytes
    above 127 are kept: the text is taken to be valid UTF-8. *)
Fixpoint read_string (fuel : nat) (cs : list ascii) : option (list ascii * list ascii) :=
  match fuel with
  | O => None
  | S fuel =>
      match cs with
      | [] => None
      | "034"%char :: rest => Some ([], rest)
      | "\"%char :: e :: rest =>
          let simple (c : ascii) :=
            match read_string fuel rest with
            | Some (str, rest') => Some (c :: str, rest')
            | None => None
            end in
          if decide (e = "034"%char) then simple "034"%char
          else if decide (e = "\"%char) then simple "\"%char
          else if decide (e = "/"%char) then simple "/"%char
          else if decide (e = "b"%char) then simple "008"%char
          else if decide (e = "f"%char) then simple "012"%char
          else if decide (e = "n"%char) then simple "010"%char
          else if decide (e = "r"%char) then simple "013"%char
          else if decide (e = "t"%char) then simple "009"%char
          else if decide (e = "u"%char) then
            match read_u4 rest with
            | None => None
            | Some (hi, rest1) =>
                let '(cp, rest2) :=
                  if decide (55296 ≤ hi < 57344) then
                    match rest1 with
                    | "\"%char :: "u"%char :: rest1' =>
                        match read_u4 rest1' with
                        | Some (lo, rest2) =>
                            if decide (hi < 56320 ∧ 56320 ≤ lo < 57344)
                            then (65536 + (hi - 55296) * 1024 + (lo - 56320), rest2)
                            else (65533, rest1)
                        | None => (65533, rest1)
                        end
                    | _ => (65533, rest1)
                    end
                  else (hi, rest1) in
                match read_string fuel rest2 with
                | Some (str, rest') => Some (utf8 cp ++ str, rest')
                | None => None
                end
            end
          else None
      | c :: rest =>
          if decide (byte_val c < 32) then None
          else
            match read_string fuel rest with
            | Some (str, rest') => Some (c :: str, rest')
            | None => None
            end
      end
  end.

(** A value, the elements of an array after its bracket, and the members of
    an object after its brace. *)
Fixpoint read_value (fuel : nat) (cs : list ascii) : option (json * list ascii) :=
  match fuel with
  | O => None
  | S fuel =>
      match skip_ws cs with
      | "n"%char :: "u"%char :: "l"%char :: "l"%char :: rest => Some (JNull, rest)
      | "t"%char :: "r"%char :: "u"%char :: "e"%char :: rest => Some (JBool true, rest)
      | "f"%char :: "a"%char :: "l"%char :: "s"%char :: "e"%char :: rest =>
          Some (JBool false, rest)
      | "034"%char :: rest =>
          match read_string (S (length rest)) rest with
          | Some (str, rest') => Some (JString (string_of_list_ascii str), rest')
          | None => None
          end
      | "["%char :: rest =>
          match skip_ws rest with
          | "]"%char :: rest' => Some (JArray [], rest')
          | _ =>
              match read_elements fuel rest with
              | Some (items, rest') => Some (JArray items, rest')
              | None => None
              end
          end
      | "{"%char :: rest =>
          match skip_ws rest with
          | "}"%char :: rest' => Some (JObject [], rest')
          | _ =>
              match read_members fuel rest with
              | Some (fields, rest') => Some (JObject fields, rest')
              | None => None
              end
          end
      | rest =>
          match read_number rest with
          | Some (literal, rest') => Some (JNumber (string_of_list_ascii literal), rest')
          | None => None
          end
      end
  end
with read_elements (fuel : nat) (cs : list ascii) : option (list json * list ascii) :=
  match fuel with
  | O => None
  | S fuel =>
      match read_value fuel cs with
      | None => None
      | Some (item, rest) =>
          match skip_ws rest with
          | "]"%char :: rest' => Some ([item], rest')
          | ","%char :: rest' =>
              match read_elements fuel rest' with
              | Some (items, rest'') => Some (item :: items, rest'')
              | None => None
              end
          | _ => None
          end
      end
  end
with read_members (fuel : nat) (cs : list ascii)
    : option (list (string * json) * list ascii) :=
  match fuel with
  | O => None
  | S fuel =>
      match skip_ws cs with
      | "034"%char :: rest =>
          match read_string (S (length rest)) rest with
          | None => None
          | Some (key, rest) =>
              match skip_ws rest with
              | ":"%char :: rest =>
                  match read_value fuel rest with
                  | None => None
                  | Some (v, rest) =>
                      let field := (string_of_list_ascii key, v) in
                      match skip_ws rest with
                      | "}"%char :: rest' => Some ([field], rest')
                      | ","%char :: rest' =>
                          match read_members fuel rest' with
                          | Some (fields, rest'') => Some (field :: fields, rest'')
                          | None => None
                          end
                      | _ => None
                      end
                  end
              | _ => None
              end
          end
      | _ => None
      end
  end.

(** A text is one value with blanks around it. *)
Definition read_json (text : string) : option json :=
  let cs := list_ascii_of_string text in
  match read_value (S (2 * length cs)) cs with
  | Some (j, rest) =>
      match skip_ws rest with
      | [] => Some j
      | _ => None
      end
  | None => None
  end.

(** *** Writing JSON *)

Definition hex_digit (n : Z) : ascii :=
  nth (Z.to_nat n) (list_ascii_of_string "0123456789abcdef") "0"%char.

(** One byte of a string as [json.Marshal] writes it: the quote and the
    backslash escaped, control characters and the characters [<], [>] and [&]
    as escapes, the rest as it is. *)
Definition write_char (c : ascii) : list ascii :=
  let n := byte_val c in
  if decide (c = "034"%char ∨ c = "\"%char) then ["\"%char; c]
  else if decide (n = 8) then ["\"%char; "b"%char]
  else if decide (n = 9) then ["\"%char; "t"%char]
  else if decide (n = 10) then ["\"%char; "n"%char]
  else if decide (n = 12) then ["\"%char; "f"%char]
  else if decide (n = 13) then ["\"%char; "r"%char]
  else if decide (n < 32 ∨ n = 38 ∨ n = 60 ∨ n = 62) then
    ["\"%char; "u"%char; "0"%char; "0"%char; hex_digit (n / 16); hex_digit (n mod 16)]
  else [c].

Definition write_string (str : string) : string :=
  string_of_list_ascii
    ("034"%char :: mbind write_char (list_ascii_of_string str) ++ ["034"%char]).

Definition key_le : relation (string * string) := λ a b, string_le a.1 b.1.

Global Instance key_le_dec : RelDecision key_le.
Proof. intros a b. unfold key_le. apply _. Defined.

(** The SDK marshals Go maps, whose keys [json.Marshal] writes in ascending
    order. *)
Fixpoint write_json (j : json) : string :=
  match j with
  | JNull => "null"
  | JBool true => "true"
  | JBool false => "false"
  | JNumber literal => literal
  | JString str => write_string str
  | JArray items => "[" +:+ String.concat "," (map write_json items) +:+ "]"
  | JObject fields =>
      let members := map (λ kv, (kv.1, write_json kv.2)) fields in
      let sorted := merge_sort key_le members in
      "{" +:+ String.concat "," (map (λ kv, write_string kv.1 +:+ ":" +:+ kv.2) sorted)
          +:+ "}"
  end.

(** *** Scanning a block number *)

(** The text after one space character other than a newline, when the text
    starts with one: the ASCII blanks and the Unicode spaces of [fmt]. *)
Definition after_space (cs : list ascii) : option (list ascii) :=
  match cs with
  | "009"%char :: rest | "011"%char :: rest | "012"%char :: rest
  | "013"%char :: rest | " "%char :: rest => Some rest
  | "194"%char :: "133"%char :: rest | "194"%char :: "160"%char :: rest => Some rest
  | "225"%char :: "154"%char :: "128"%char :: rest => Some rest
  | "226"%char :: "128"%char :: c :: rest =>
      if decide (128 ≤ byte_val c ≤ 138 ∨ byte_val c = 168 ∨ byte_val c = 169
                 ∨ byte_val c = 175)
      then Some rest else None
  | "226"%char :: "129"%char :: "159"%char :: rest => Some rest
  | "227"%char :: "128"%char :: "128"%char :: rest => Some rest
  | _ => None
  end.

(** [SkipSpace]: a newline is an error. *)
Fixpoint SkipSpace (fuel : nat) (cs : list ascii) : option (list ascii) :=
  match fuel with
  | O => Some cs
  | S fuel =>
      match cs with
      | "010"%char :: _ => None
      | _ =>
          match after_space cs with
          | Some rest => SkipSpace fuel rest
          | None => Some cs
          end
      end
  end.

Fixpoint span_hex (cs : list ascii) : list ascii * list ascii :=
  match cs with
  | c :: rest =>
      if bool_decide (is_Some (fromHexChar c)) then
        let '(ds, rest') := span_hex rest in (c :: ds, rest')
      else ([], cs)
  | [] => ([], [])
  end.

(** The verb [%x] into an [int64]: blanks, an optional sign and the longest
    run of hexadecimal digits, which has to be the numeral of an [int64];
    what follows the digits is not read. *)
Definition scan_hex_int64 (cs : list ascii) : option Z :=
  match SkipSpace (length cs) cs with
  | None => None
  | Some rest =>
      let '(negative, rest) :=
        match rest with
        | "-"%char :: rest' => (true, rest')
        | "+"%char :: rest' => (false, rest')
        | _ => (false, rest)
        end in
      match span_hex rest with
      | ([], _) => None
      | (ds, _) =>
          match parse_digits 16 fromHexChar (string_of_list_ascii ds) 0 with
          | Some n =>
              let n := if negative then - n else n in
              if decide (- 2 ^ 63 ≤ n < 2 ^ 63) then Some n else None
          | None => None
          end
      end
  end.

(** [fmt.Sscanf(s, "0x%x", &n)] for an [int64]: the literal [0x], then the
    verb. *)
Definition scan_block_number (str : string) : option Z :=
  match str with
  | String c0 (String c1 rest) =>
      if decide (c0 = "0"%char ∧ c1 = "x"%char)
      then scan_hex_int64 (list_ascii_of_string rest)
      else None
  | _ => None
  end.

(** *** Stand-ins for the hash and the signer *)

(** [n] as [len] big-endian bytes. *)
Fixpoint to_bytes (len : nat) (n : Z) : list ascii :=
  match len with
  | O => []
  | S len => to_bytes len (n / 256) ++ [ascii_of_N (Z.to_N (n mod 256))]
  end.

(** Not Keccak-256: 32 bytes computed from the message. *)
Definition standin_Keccak256 (message : list ascii) : list ascii :=
  to_bytes 32 (SetBytes message * 31 + Z.of_nat (length message)).

(** Not ECDSA: 65 bytes [R || S || V] computed from the hash and the key.
    Like [crypto.Sign], it refuses a hash that is not 32 bytes long. *)
Definition standin_Sign (hash : list ascii) (key : Z) : string + list ascii :=
  if decide (length hash = 32%nat) then
    inr (hash ++ to_bytes 32 (SetBytes hash + key) ++ to_bytes 1 (key mod 2))
  else inl "hash is required to be exactly 32 bytes".

Definition libraries : Libraries := {|
  Keccak256 := standin_Keccak256;
  Sign := standin_Sign;
  json_parse := read_json;
  json_Marshal := write_json;
  Sscanf_0x_hex := scan_block_number;
  range_keys := λ m, (map_to_list m).*1;
  SetString_failed := λ _, 0;
|}.

(** *** A mock of the two endpoints *)

(** The chain node at [base] answers every request with [nodeBody] and the
    service at [base/rpc] answers every request with [rpcBody]. *)
Definition mock (base nodeBody rpcBody : string) : network :=
  λ _ req,
    if decide (url req = base +:+ "/rpc") then inr rpcBody
    else if decide (url req = base) then inr nodeBody
    else inl "no such host".

End Reference.

(** ** The balance conversion, as the description words it *)

(** The request of the balance query. *)
Definition balance_request `{Libraries} (cfg : config) (address : string) : request :=
  {| url := baseURL cfg; contentType := "application/json";
     body := json_Marshal
               (rpcReq "eth_getBalance" (JArray [JString address; JString "latest"])) |}.

(** The node answers the balance query with the hexadecimal amount
    [0x] followed by [digits], a non-empty run of hexadecimal digits that
    denotes [wei]. *)
Definition node_returns `{Libraries} (net : network) (cfg : config)
    (address : string) (sent : list request) (digits : string) (wei : Z) : Prop :=
  ∃ respBody,
    net sent (balance_request cfg address) = inr respBody
    ∧ Unmarshal_body respBody (zero_value : balanceResp.t)
      = balanceResp.mk ("0x" +:+ digits) None
    ∧ digits ≠ ""
    ∧ parse_digits 16 fromHexChar digits 0 = Some wei.

(** The text before the first occurrence of a character, and the text after
    it when there is one. *)
Fixpoint split_at (c : ascii) (s : string) : string * option string :=
  match s with
  | EmptyString => (EmptyString, None)
  | String a rest =>
      if decide (a = c) then (EmptyString, Some rest)
      else let '(before, after) := split_at c rest in (String a before, after)
  end.

Definition unsigned_value (s : string) : option Z :=
  match s with
  | EmptyString => None
  | _ => parse_digits 10 decimal_digit s 0
  end.

Definition signed_value (s : string) : option Z :=
  match s with
  | String "-" rest => Z.opp <$> unsigned_value rest
  | String "+" rest => unsigned_value rest
  | _ => unsigned_value s
  end.

(** The number a decimal numeral with an optional fraction and an optional
    exponent denotes, as a pair [(m, k)] that stands for [m * 10^k]. *)
Definition numeral_value (s : string) : option (Z * Z) :=
  let '(mantissa, exponent) := split_at "e" s in
  let '(negative, mantissa) :=
    match mantissa with
    | String "-" rest => (true, rest)
    | _ => (false, mantissa)
    end in
  let '(integer, fraction) := split_at "." mantissa in
  match unsigned_value integer,
        match fraction with None => Some 0 | Some f => unsigned_value f end,
        match exponent with None => Some 0 | Some e => signed_value e end with
  | Some i, Some f, Some e =>
      let len := Z.of_nat (String.length (default EmptyString fraction)) in
      let m := i * 10 ^ len + f in
      Some (if negative : bool then - m else m, e - len)
  | _, _, _ => None
  end.

(** The numeral [s] denotes the quotient [num / den] exactly. *)
Definition denotes_quotient (s : string) (num den : Z) : Prop :=
  ∃ m k, numeral_value s = Some (m, k)
         ∧ m * 10 ^ Z.max 0 k * den = num * 10 ^ Z.max 0 (- k).

(** "Converts the hexadecimal wei amount to a decimal string, and computes the
    ETH-denominated value by dividing by 10^18 with no rounding loss": for
    every amount the node returns, the balance holds the decimal numeral of
    the amount and a numeral that denotes the amount divided by [10^18]. *)
Definition balance_conversion_exact : Prop :=
  ∀ (L : Libraries) (net : network) (cfg : config) (address : string)
    (sent : list request) (digits : string) (wei : Z),
    node_returns net cfg address sent digits wei →
    ∃ info,
      (GetBalance net cfg address sent).1 = Returns (succeeded (Some info))
      ∧ decimal_value (BalanceInfo.Wei info) = Some wei
      ∧ denotes_quotient (BalanceInfo.Eth info) wei (10 ^ 18).

(** ** Example inputs *)

(** The signed parameter set of a token creation, with the values of the
    scenario of the description, and one order of iteration over it. *)
Definition example_params : gmap string value :=
  {[ "decimals" := VInt 18;
     "masterAuthority" := VString "0xAuth";
     "name" := VString "T";
     "nonce" := VInt 0;
     "recentCheckpoint" := VInt 100;
     "symbol" := VString "TK" ]}.

Definition example_order : list string :=
  ["symbol"; "name"; "decimals"; "nonce"; "masterAuthority"; "recentCheckpoint"].

(** The same parameter set, its entries inserted in another order. *)
Definition example_params_reordered : gmap string value :=
  <["symbol" := VString "TK"]> (<["nonce" := VInt 0]> (<["name" := VString "T"]>
  (<["recentCheckpoint" := VInt 100]> (<["masterAuthority" := VString "0xAuth"]>
  (<["decimals" := VInt 18]> ∅))))).

(** A configuration whose key is the one of the SDK's example program. *)
Definition example_config : config :=
  Config "http://x" "1234567890123456789012345678901234567890123456789012345678901234"
    initial_config.

(** What the reference signer returns for the example parameters. *)
Definition example_signature : Signature.t :=
  Signature.mk "8710790406999498771110091725366882647898675098921"
    "8234104122419153896766082843079115592836257564959374869192191588873565783901"
    "27".

(** The body of the response of the scenario "nonce too low". *)
Definition nonce_too_low_body : string :=
  json_text "{'result':null,'error':{'message':'nonce too low'}}".

(** A chain node at [http://x] that reports block 16 and answers the service
    calls with [rpcBody]. *)
Definition example_net (rpcBody : string) : network :=
  Reference.mock "http://x" (json_text "{'result':'0x10'}") rpcBody.

(** ** JSON-RPC 2.0 responses, as the protocol words them *)

(** A response that carries a result, and one that carries an error with its
    code and message. *)
Definition result_response (result : json) : json :=
  JObject [("jsonrpc", JString "2.0"); ("id", JInt 1); ("result", result)].

Definition error_response (code : Z) (message : string) : json :=
  JObject [("jsonrpc", JString "2.0"); ("id", JInt 1);
           ("error", JObject [("code", JInt code); ("message", JString message)])].

(** ** Answers of the service, as scenarios word them *)

(** The service answers the call of an operation with the body [respBody]:
    the chain node has answered the block-height query, the signer has signed,
    and the request to the service is answered with [respBody]. *)
Definition CreateToken_answered `{Libraries} (net : network) (cfg : config)
    (name symbol : string) (decimals : Z) (masterAuthority : string)
    (sent : list request) (respBody : string) : Prop :=
  ∃ sent1 blockNum signature,
    getBlockNumber net cfg sent = (inr blockNum, sent1)
    ∧ generateSignature cfg
        (CreateToken_params name symbol decimals masterAuthority 0 blockNum)
      = Returns (inr signature)
    ∧ net sent1 (rpc_request cfg "create_token"
                   (CreateToken_reqParams name symbol decimals masterAuthority 0
                      blockNum signature)) = inr respBody.

Definition dynamicCall_answered `{Libraries} (net : network) (cfg : config)
    (tokenAddress methodName : string) (methodArgs : list value) (nonce : Z)
    (sent : list request) (respBody : string) : Prop :=
  ∃ sent1 blockNum signature,
    getBlockNumber net cfg sent = (inr blockNum, sent1)
    ∧ generateSignature cfg (dynamicCall_params tokenAddress nonce blockNum)
      = Returns (inr signature)
    ∧ net sent1 (rpc_request cfg methodName
                   (dynamicCall_reqParams tokenAddress methodArgs nonce blockNum
                      signature)) = inr respBody.

(** The metadata of a token as the service writes it. *)
Definition TokenMetadata_json (md : TokenMetadata.t) : json :=
  JObject [("name", JString (TokenMetadata.Name md));
           ("symbol", JString (TokenMetadata.Symbol md));
           ("decimals", JInt (TokenMetadata.Decimals md));
           ("supply", JString (TokenMetadata.Supply md));
           ("isPaused", JBool (TokenMetadata.IsPaused md))].

(** A JSON value that is neither [null] nor an object. *)
Definition scalar_or_array (j : json) : Prop :=
  match j with
  | JNull | JObject _ => False
  | _ => True
  end.

(** ** Chains and operations *)

(** [r.Error(g).Success(f)], the chain in the other order. *)
Definition Error_then_Success {T St} (r : ResponseHandler T) (g : error → St → St)
    (f : T → St → St) (st : St) : ResponseHandler T * St :=
  let '(r1, st1) := Error r g st in Success r1 f st1.

(** The type of the operations that change a token. *)
Definition token_operation : Type :=
  list request → outcome (ResponseHandler (option TransactionResult.t)) * list request.

(** ** Correct rounding *)

(** [m * 2^e] is the quotient [n / d] rounded to [p] bits: the mantissa [m] has
    exactly [p] bits and [m * 2^e] is at most half a unit of the last bit of
    [m], which is [2^e / 2], away from [n / d].  The inequality is the one
    between the numbers, multiplied by [d] and by the power of 2 that makes
    both sides integers. *)
Definition rounded_quotient (p n d m e : Z) : Prop :=
  2 ^ (p - 1) ≤ m < 2 ^ p
  ∧ 2 * Z.abs (n * 2 ^ Z.max 0 (- e) - m * (d * 2 ^ Z.max 0 e)) ≤ d * 2 ^ Z.max 0 e.

(** ** Key texts, as the description words them *)

(** The scalar a key text denotes, in the words of the description: the text
    is a well-formed key, or it is [0x] followed by a well-formed key. *)
Definition key_denotes (key : string) (scalar : Z) : Prop :=
  well_formed_key key scalar ∨ ∃ k, key = "0x" +:+ k ∧ well_formed_key k scalar.

(** ** The wrapper, as the description words it *)




(** ** Members of a result *)

(** A member of the metadata other than [decimals], with a value of the type
    of its field. *)
Definition well_typed_member (member : string * json) : Prop :=
  ((member.1 = "name" ∨ member.1 = "symbol" ∨ member.1 = "supply")
   ∧ ∃ s, member.2 = JString s)
  ∨ (member.1 = "isPaused" ∧ ∃ b, member.2 = JBool b).

(** Two letters that are the same up to the case of ASCII letters, and two
    names that are the same letter by letter. *)
Definition same_letter (a b : ascii) : Prop :=
  a = b
  ∨ (65 ≤ byte_val a ≤ 90 ∧ byte_val b = byte_val a + 32)
  ∨ (65 ≤ byte_val b ≤ 90 ∧ byte_val a = byte_val b + 32).

Fixpoint same_name (a b : string) : Prop :=
  match a, b with
  | EmptyString, EmptyString => True
  | String x a', String y b' => same_letter x y ∧ same_name a' b'
  | _, _ => False
  end.

(** Closed goals about concrete maps and lists are decided by computation. *)
Ltac by_computation := apply (bool_decide_unpack _); vm_compute; exact I.

(** * Properties *)

(** ** The byte-wise order on strings *)

Global Instance string_le_total : Total string_le.
Proof. intros a b. apply String.leb_total. Qed.

Global Instance string_le_antisym : AntiSymm (=) string_le.
Proof. intros a b. apply String.leb_antisym. Qed.

Global Instance string_le_trans : Transitive string_le.
Proof.
  intros a b c. unfold string_le, String.leb.
  change String.compare with String_as_OT.compare.
  destruct (String_as_OT.compare_spec a b) as [->|Hab|Hab]; [done| |discriminate].
  destruct (String_as_OT.compare_spec b c) as [->|Hbc|Hbc]; [| |discriminate].
  - intros _ _. destruct (String_as_OT.compare_spec a c) as [|?|Hca]; try done.
    destruct (irreflexivity String_as_OT.lt a). by etrans.
  - intros _ _. destruct (String_as_OT.compare_spec a c) as [|?|Hca]; try done.
    destruct (irreflexivity String_as_OT.lt a). etrans; [done|]. by etrans.
Qed.

Lemma string_lt_le a b : string_lt a b ↔ string_le a b ∧ a ≠ b.
Proof.
  unfold string_lt, string_le, String.ltb, String.leb.
  destruct (String.compare a b) eqn:E.
  - apply String.compare_eq_iff in E. subst. split; [done|]. by intros [_ ?].
  - split; [|done]. intros _. split; [done|]. intros ->.
    change String.compare with String_as_OT.compare in E.
    by apply (irreflexivity String_as_OT.lt b).
  - split; [done|]. by intros [? _].
Qed.

(** ** Decimal numerals *)

Lemma parse_pretty_N_go (x : N) :
  ∃ k : Z, 0 ≤ k ∧ ∀ s acc,
    parse_digits 10 decimal_digit (pretty_N_go x s) acc
    = parse_digits 10 decimal_digit s (acc * 10 ^ k + Z.of_N x).
Proof.
  induction (N.lt_wf_0 x) as [x _ IH].
  destruct (decide (x = 0)%N) as [->|Hx].
  { exists 0. split; [done|]. intros s acc. rewrite pretty_N_go_0. f_equal. lia. }
  destruct (IH (x `div` 10)%N) as (k & Hk & IHk); [apply N.div_lt; lia|].
  exists (k + 1). split; [lia|]. intros s acc.
  rewrite pretty_N_go_step by lia. rewrite IHk. cbn [parse_digits].
  assert (decimal_digit (pretty_N_char (x `mod` 10)) = Some (Z.of_N (x `mod` 10))) as ->.
  { assert (x `mod` 10 < 10)%N as Hlt by (apply N.mod_lt; lia).
    destruct (x `mod` 10)%N as [|p] eqn:E; [done|].
    repeat (destruct p as [p|p|]; try done; try lia). }
  f_equal. rewrite Z.pow_add_r by lia.
  pose proof (N.div_mod x 10 ltac:(lia)) as Hdm. lia.
Qed.

Lemma parse_pretty_N (x : N) :
  parse_digits 10 decimal_digit (pretty x) 0 = Some (Z.of_N x).
Proof.
  unfold pretty, pretty_N. case_decide as Hx; [by subst|].
  destruct (parse_pretty_N_go x) as (k & _ & Hk). rewrite Hk. simpl. f_equal; lia.
Qed.

Lemma pretty_N_nonempty (x : N) : pretty x ≠ "".
Proof.
  intros Hx. pose proof (parse_pretty_N x) as Hp. rewrite Hx in Hp.
  unfold pretty, pretty_N in Hx. case_decide as H0; [done|].
  simpl in Hp. injection Hp as Hp. lia.
Qed.

Lemma pretty_N_no_sign (x : N) rest : pretty x ≠ String "-" rest.
Proof.
  intros Hx. pose proof (parse_pretty_N x) as Hp. rewrite Hx in Hp. done.
Qed.

(** The decimal representation of an integer denotes it: there is nothing in
    it but a sign and digits. *)
Lemma decimal_value_pretty (n : Z) : decimal_value (pretty n) = Some n.
Proof.
  destruct n as [|p|p]; [done|..].
  - change (pretty (Z.pos p)) with (pretty (N.pos p)).
    pose proof (pretty_N_nonempty (N.pos p)) as Hne.
    pose proof (pretty_N_no_sign (N.pos p)) as Hns.
    pose proof (parse_pretty_N (N.pos p)) as Hp.
    unfold decimal_value.
    destruct (pretty (N.pos p)) as [|c rest] eqn:E; [done|].
    destruct (decide (c = "-"%char)) as [->|Hc]; [by destruct (Hns rest)|].
    assert ((let '(negative, ds) :=
               match String c rest with
               | String "-" rest0 => (true, rest0)
               | _ => (false, String c rest)
               end in
             match ds with
             | "" => None
             | String _ _ =>
                 match parse_digits 10 decimal_digit ds 0 with
                 | Some n => Some (if negative then - n else n)
                 | None => None
                 end
             end) =
            match parse_digits 10 decimal_digit (String c rest) 0 with
            | Some n => Some n
            | None => None
            end) as ->.
    { destruct c as [[] [] [] [] [] [] [] []]; try done. }
    by rewrite Hp.
  - change (pretty (Z.neg p)) with ("-" +:+ pretty (N.pos p)).
    pose proof (pretty_N_nonempty (N.pos p)) as Hne.
    pose proof (parse_pretty_N (N.pos p)) as Hp.
    change ("-" +:+ pretty (N.pos p)) with (String "-" (pretty (N.pos p))).
    unfold decimal_value. cbv beta iota zeta.
    destruct (pretty (N.pos p)) as [|c rest] eqn:E; [done|].
    by rewrite Hp.
Qed.

(** ** The canonical message builder *)

Lemma sort_Strings_unique (o1 o2 : list string) :
  o1 ≡ₚ o2 → sort_Strings o1 = sort_Strings o2.
Proof.
  intros Hp. unfold sort_Strings.
  apply (StronglySorted_unique string_le).
  - apply StronglySorted_merge_sort; apply _.
  - apply StronglySorted_merge_sort; apply _.
  - by rewrite !merge_sort_Permutation.
Qed.

Lemma StronglySorted_lt_le (l : list string) :
  StronglySorted string_lt l → StronglySorted string_le l.
Proof.
  induction 1 as [|x l ? IH Hx]; constructor; [done|].
  eapply Forall_impl; [done|]. intros y Hy. by apply string_lt_le in Hy as [? _].
Qed.

Lemma StronglySorted_le_lt (l : list string) :
  NoDup l → StronglySorted string_le l → StronglySorted string_lt l.
Proof.
  intros Hnd. induction 1 as [|x l ? IH Hx]; constructor.
  - apply IH. by apply NoDup_cons in Hnd as [_ ?].
  - apply NoDup_cons in Hnd as [Hx' _].
    rewrite Forall_forall in Hx |- *. intros y Hy.
    apply string_lt_le. split; [by apply Hx|]. by intros ->.
Qed.

(** Sorting the keys gives the one ascending list of them. *)
Lemma sort_Strings_sorted (keys sorted : list string) :
  sorted ≡ₚ keys → StronglySorted string_lt sorted → sort_Strings keys = sorted.
Proof.
  intros Hp Hs. unfold sort_Strings.
  apply (StronglySorted_unique string_le).
  - apply StronglySorted_merge_sort; apply _.
  - by apply StronglySorted_lt_le.
  - by rewrite merge_sort_Permutation.
Qed.

Lemma lookup_sorted_entries (params : gmap string value) (kvs : list (string * value)) :
  kvs ≡ₚ map_to_list params →
  (λ key, Sprintf_v (params !! key)) <$> kvs.*1 = (λ kv, Sprintf_v (Some kv.2)) <$> kvs.
Proof.
  intros Hp. rewrite <-list_fmap_compose. apply Forall_fmap_ext_1, Forall_forall.
  intros [k v] Hkv. rewrite Hp in Hkv. apply elem_of_map_to_list in Hkv.
  simpl. by rewrite Hkv.
Qed.

Lemma ascending_entries_exist (params : gmap string value) :
  ∃ kvs, kvs ≡ₚ map_to_list params ∧ ascending_by_key kvs.
Proof.
  set (R := λ a b : string * value, string_le a.1 b.1).
  assert (Total R) by (intros a b; apply (total string_le)).
  assert (Transitive R) by (intros a b c; apply (transitivity (R:=string_le))).
  assert (RelDecision R) by (intros a b; apply string_le_dec).
  exists (merge_sort R (map_to_list params)). split.
  - apply merge_sort_Permutation.
  - apply StronglySorted_le_lt.
    + rewrite merge_sort_Permutation. apply NoDup_fst_map_to_list.
    + apply (StronglySorted_fmap _ R); [done|].
      by apply StronglySorted_merge_sort.
Qed.

(** What the builder returns for the entries listed by ascending key. *)
Lemma buildSortedMessage_ascending (params : gmap string value)
    (order : list string) (kvs : list (string * value)) :
  range_of params order → kvs ≡ₚ map_to_list params → ascending_by_key kvs →
  buildSortedMessage order params
  = strings_Join ((λ kv, Sprintf_v (Some kv.2)) <$> kvs) ",".
Proof.
  intros Ho Hp Hs. unfold buildSortedMessage.
  rewrite (sort_Strings_sorted order kvs.*1).
  - by rewrite lookup_sorted_entries.
  - unfold range_of in Ho. by rewrite Ho, Hp.
  - done.
Qed.

(** C1. For every parameter mapping, whatever the order in which the map is
    iterated, the canonical message builder returns the default string
    representations of the values (a string verbatim, a boolean as [true] or
    [false], a number as its decimal numeral, in which there is nothing but a
    sign and digits) joined by a single comma, in the ascending byte-wise
    order of their keys; such an ordering of the entries always exists, and
    for the empty mapping the message is the empty string. *)
Theorem buildSortedMessage_spec (params : gmap string value) (order : list string) :
  range_of params order →
  (∀ kvs, kvs ≡ₚ map_to_list params → ascending_by_key kvs →
     buildSortedMessage order params
     = strings_Join ((λ kv, Sprintf_v (Some kv.2)) <$> kvs) ",")
  ∧ (∃ kvs, kvs ≡ₚ map_to_list params ∧ ascending_by_key kvs)
  ∧ (params = ∅ → buildSortedMessage order params = "")
  ∧ (∀ s, Sprintf_v (Some (VString s)) = s)
  ∧ (∀ b : bool, Sprintf_v (Some (VBool b)) = if b then "true" else "false")
  ∧ (∀ n, decimal_value (Sprintf_v (Some (VInt n))) = Some n).
Proof.
  intros Ho. split; [|split; [|split; [|split; [|split]]]].
  - intros kvs. by apply buildSortedMessage_ascending.
  - apply ascending_entries_exist.
  - intros ->. unfold range_of in Ho. rewrite map_to_list_empty in Ho.
    by apply Permutation_nil_r in Ho as ->.
  - done.
  - by intros [].
  - intros n. apply decimal_value_pretty.
Qed.

Lemma example_order_range : range_of example_params example_order.
Proof. unfold range_of. by_computation. Defined.

Lemma buildSortedMessage_spec_witness :
  buildSortedMessage example_order example_params = "18,0xAuth,T,0,100,TK".
Proof.
  destruct (buildSortedMessage_spec example_params example_order
              example_order_range) as [Hmsg _].
  rewrite (Hmsg [("decimals", VInt 18); ("masterAuthority", VString "0xAuth");
                 ("name", VString "T"); ("nonce", VInt 0);
                 ("recentCheckpoint", VInt 100); ("symbol", VString "TK")]).
  - reflexivity.
  - by_computation.
  - unfold ascending_by_key. by_computation.
Defined.

(** The order of iteration does not matter. *)
Lemma buildSortedMessage_any_order (m : gmap string value) (o1 o2 : list string) :
  range_of m o1 → range_of m o2 → buildSortedMessage o1 m = buildSortedMessage o2 m.
Proof.
  intros Ho1 Ho2. unfold buildSortedMessage.
  rewrite (sort_Strings_unique o1 o2); [done|].
  unfold range_of in *. by rewrite Ho1, Ho2.
Qed.

(** C2. Two parameter mappings with the same content give the same canonical
    message, whichever way each was built and in whichever order each is
    iterated. *)
Theorem buildSortedMessage_order_independent
    (m1 m2 : gmap string value) (o1 o2 : list string) :
  (∀ k, m1 !! k = m2 !! k) → range_of m1 o1 → range_of m2 o2 →
  buildSortedMessage o1 m1 = buildSortedMessage o2 m2.
Proof.
  intros Hm Ho1 Ho2. apply map_eq in Hm as ->.
  by apply buildSortedMessage_any_order.
Qed.

Lemma buildSortedMessage_order_independent_witness :
  buildSortedMessage example_order example_params
  = buildSortedMessage (reverse example_order) example_params_reordered.
Proof.
  apply buildSortedMessage_order_independent.
  - assert (example_params = example_params_reordered) as -> by by_computation.
    done.
  - exact example_order_range.
  - unfold range_of. by_computation.
Defined.

(** ** Bytes and keys *)

Lemma byte_val_range (b : ascii) : 0 ≤ byte_val b < 256.
Proof. unfold byte_val. pose proof (N_ascii_bounded b). lia. Qed.

Lemma byte_val_of_Z (n : Z) :
  0 ≤ n < 256 → byte_val (ascii_of_N (Z.to_N n)) = n.
Proof. intros Hn. unfold byte_val. rewrite N_ascii_embedding by lia. lia. Qed.

Lemma fromHexChar_range (c : ascii) (d : Z) : fromHexChar c = Some d → 0 ≤ d < 16.
Proof. unfold fromHexChar. intros. repeat case_decide; simplify_eq; lia. Qed.

(** Induction on a string two characters at a time. *)
Lemma string_pair_ind (P : string → Prop) :
  P "" → (∀ c, P (String c "")) → (∀ c d s, P s → P (String c (String d s))) →
  ∀ s, P s.
Proof.
  intros H0 H1 H2 s. cut (P s ∧ ∀ c, P (String c s)); [by intros []|].
  induction s as [|d s [IH1 IH2]]; split; auto.
Qed.

Lemma hex_DecodeString_value (s : string) (bytes : list ascii) :
  hex_DecodeString s = inr bytes →
  String.length s = (2 * length bytes)%nat
  ∧ ∀ acc, parse_digits 16 fromHexChar s acc
           = Some (fold_left (λ acc b, acc * 256 + byte_val b) bytes acc).
Proof.
  revert bytes. induction s as [|c|c d s IH] using string_pair_ind; intros bytes.
  - intros [= <-]. done.
  - simpl. by destruct (fromHexChar c).
  - cbn [hex_DecodeString].
    destruct (fromHexChar c) as [a|] eqn:Ha; [|done].
    destruct (fromHexChar d) as [b|] eqn:Hb; [|done].
    destruct (hex_DecodeString s) as [e|bytes'] eqn:Hs; [done|].
    intros [= <-]. destruct (IH bytes' eq_refl) as [Hlen Hval].
    split; [simpl; lia|]. intros acc. cbn [parse_digits fold_left].
    rewrite Ha, Hb, Hval. do 2 f_equal.
    apply fromHexChar_range in Ha, Hb. rewrite byte_val_of_Z by lia. lia.
Qed.

Lemma hex_DecodeString_digits (s : string) (acc n : Z) :
  parse_digits 16 fromHexChar s acc = Some n → Nat.Even (String.length s) →
  ∃ bytes, hex_DecodeString s = inr bytes.
Proof.
  revert acc. induction s as [|c|c d s IH] using string_pair_ind; intros acc.
  - by exists [].
  - intros _ [k Hk]. simpl in Hk. lia.
  - cbn [parse_digits hex_DecodeString].
    destruct (fromHexChar c) as [a|]; [|done].
    destruct (fromHexChar d) as [b|]; [|done].
    intros Hp [k Hk]. destruct (IH _ Hp) as [bytes ->].
    { exists (k - 1)%nat. simpl in Hk. lia. }
    by eexists.
Qed.

(** [HexToECDSA] accepts the well-formed keys and no other text. *)
Lemma HexToECDSA_accepts (hexkey : string) (scalar : Z) :
  HexToECDSA hexkey = inr scalar ↔ well_formed_key hexkey scalar.
Proof.
  unfold HexToECDSA, well_formed_key. split.
  - destruct (hex_DecodeString hexkey) as [[]|d] eqn:Hd; [done|done|].
    apply hex_DecodeString_value in Hd as [Hlen Hval].
    repeat case_decide; try done. intros [= <-].
    split; [lia|]. split; [apply Hval|]. unfold SetBytes in *. lia.
  - intros (Hlen & Hval & Hrange).
    destruct (hex_DecodeString_digits hexkey 0 scalar Hval) as [d Hd].
    { exists 32%nat. lia. }
    rewrite Hd. apply hex_DecodeString_value in Hd as [Hlen' Hval'].
    rewrite Hval' in Hval. injection Hval as Hval.
    unfold SetBytes. rewrite Hval.
    repeat case_decide; try done; lia.
Qed.

Lemma strip_0x_prefixed (key : string) : key ≠ "" → strip_0x ("0x" +:+ key) = key.
Proof. by destruct key. Qed.

Lemma byte_add_val (b : ascii) (k : Z) :
  byte_val (byte_add b k) = (byte_val b + k) mod 256.
Proof.
  unfold byte_add. apply byte_val_of_Z. apply Z.mod_pos_bound. lia.
Qed.

Lemma SetBytes_singleton (b : ascii) : SetBytes [b] = byte_val b.
Proof. unfold SetBytes. cbn [fold_left]. lia. Qed.

(** ** The reference implementation meets the contract of the packages *)

Lemma to_bytes_length (len : nat) (n : Z) : length (Reference.to_bytes len n) = len.
Proof.
  revert n. induction len as [|len IH]; intros n; [done|].
  simpl. rewrite length_app, IH. simpl. lia.
Qed.

Lemma Reference_libraries_spec : LibrariesSpec Reference.libraries.
Proof.
  split.
  - intros m. by unfold range_of.
  - intros hash key sig.
    change (Reference.standin_Sign hash key = inr sig
            → length sig = 65%nat ∧ 0 ≤ byte_val (nth 64 sig zero) ≤ 1).
    unfold Reference.standin_Sign.
    case_decide as Hlen; [|discriminate]. intros Hsig.
    apply (inj inr) in Hsig. subst sig.
    split; [by rewrite !length_app, !to_bytes_length, Hlen|].
    rewrite app_assoc, app_nth2 by (rewrite length_app, to_bytes_length; lia).
    rewrite length_app, to_bytes_length, Hlen.
    change (nth (64 - (32 + 32)) (Reference.to_bytes 1 (key mod 2)) zero)
      with (ascii_of_N (Z.to_N (key mod 2 mod 256))).
    pose proof (Z.mod_pos_bound key 2 ltac:(lia)) as Hbit.
    rewrite byte_val_of_Z; rewrite Z.mod_small by lia; lia.
  - intros str n.
    change (Reference.scan_block_number str = Some n → ∃ rest, str = "0x" +:+ rest).
    unfold Reference.scan_block_number.
    destruct str as [|c0 [|c1 rest]]; [discriminate..|].
    case_decide as Hc; [|discriminate]. destruct Hc as [-> ->].
    intros _. by exists rest.
Qed.

(** ** The signer *)

Section signer.
Context (L : Libraries) (HL : LibrariesSpec L).

Lemma signature_parts (signature : list ascii) :
  length signature = 65%nat →
  signature = take 32 signature ++ take 32 (drop 32 signature) ++ [nth 64 signature zero]
  ∧ length (take 32 signature) = 32%nat
  ∧ length (take 32 (drop 32 signature)) = 32%nat.
Proof.
  intros Hlen. do 65 (destruct signature as [|? signature]; [done|]).
  destruct signature; [|done]. done.
Qed.

(** C3. Signing succeeds exactly when the configured key, its optional [0x]
    removed, parses to a key and the primitive signs the Keccak-256 hash of
    the bytes of the canonical message (built in whichever order the map is
    iterated); the signer then returns the decimal numerals of [r] and [s],
    the two 32-byte halves of the signature read as big-endian integers, and
    of [v], the recovery id plus 27. *)
Theorem generateSignature_spec (cfg : config) (params : gmap string value)
    (sig : Signature.t) :
  generateSignature cfg params = Returns (inr sig) ↔
  ∃ key r s recid,
    HexToECDSA (strip_0x (privateKey cfg)) = inr key
    ∧ (∀ order, range_of params order →
        Sign (Keccak256 (list_ascii_of_string (buildSortedMessage order params))) key
        = inr (r ++ s ++ [recid]))
    ∧ length r = 32%nat ∧ length s = 32%nat ∧ 0 ≤ byte_val recid ≤ 1
    ∧ sig = Signature.mk (Int_String (SetBytes r)) (Int_String (SetBytes s))
                         (Int_String (byte_val recid + 27))
    ∧ decimal_value (Signature.R sig) = Some (SetBytes r)
    ∧ decimal_value (Signature.S sig) = Some (SetBytes s)
    ∧ decimal_value (Signature.V sig) = Some (byte_val recid + 27).
Proof.
  unfold generateSignature. split.
  - destruct (HexToECDSA _) as [e|key] eqn:Hkey; [done|].
    destruct (Sign _ key) as [e|signature] eqn:Hsign; [done|].
    destruct (Sign_spec _ _ _ Hsign) as [Hlen Hv].
    case_decide; [lia|]. intros [= <-].
    destruct (signature_parts signature Hlen) as (Hparts & Hr & Hs).
    exists key, (take 32 signature), (take 32 (drop 32 signature)), (nth 64 signature zero).
    assert (SetBytes [byte_add (nth 64 signature zero) 27]
            = byte_val (nth 64 signature zero) + 27) as Hrec.
    { rewrite SetBytes_singleton, byte_add_val. rewrite Z.mod_small; lia. }
    split; [done|]. split.
    { intros order Ho. rewrite <-Hparts, <-Hsign. do 3 f_equal.
      apply buildSortedMessage_any_order; [done|apply range_keys_spec]. }
    rewrite Hrec. simpl. unfold Int_String. rewrite !decimal_value_pretty. done.
  - intros (key & r & s & recid & Hkey & Hsign & Hr & Hs & Hv & -> & _).
    rewrite Hkey, (Hsign _ (range_keys_spec params)).
    case_decide as Hlen. { rewrite !length_app, Hr, Hs in Hlen. simpl in Hlen. exfalso. lia. }
    do 3 f_equal.
    + by rewrite take_app_length'.
    + rewrite drop_app_length' by done. by rewrite take_app_length'.
    + assert (nth 64 (r ++ s ++ [recid]) zero = recid) as ->.
      { rewrite app_assoc, app_nth2 by (rewrite length_app; lia).
        rewrite length_app, Hr, Hs. done. }
      rewrite SetBytes_singleton, byte_add_val. by rewrite Z.mod_small by lia.
Qed.

End signer.

Lemma generateSignature_spec_witness :
  ∃ key r s recid,
    HexToECDSA (strip_0x (privateKey example_config)) = inr key
    ∧ (∀ order, range_of example_params order →
        Sign (Libraries:=Reference.libraries)
          (Keccak256 (Libraries:=Reference.libraries)
             (list_ascii_of_string (buildSortedMessage order example_params)))
          key = inr (r ++ s ++ [recid]))
    ∧ length r = 32%nat ∧ length s = 32%nat ∧ 0 ≤ byte_val recid ≤ 1
    ∧ example_signature
      = Signature.mk (Int_String (SetBytes r)) (Int_String (SetBytes s))
          (Int_String (byte_val recid + 27))
    ∧ decimal_value (Signature.R example_signature) = Some (SetBytes r)
    ∧ decimal_value (Signature.S example_signature) = Some (SetBytes s)
    ∧ decimal_value (Signature.V example_signature) = Some (byte_val recid + 27).
Proof.
  apply (proj1 (generateSignature_spec Reference.libraries Reference_libraries_spec
                  example_config example_params example_signature)).
  vm_compute. reflexivity.
Defined.

(** What the code removes is the prefix [0x] of a longer text, or nothing. *)
Lemma strip_0x_cases (key : string) :
  strip_0x key = key ∨ ∃ k, key = "0x" +:+ k ∧ k ≠ "" ∧ strip_0x key = k.
Proof.
  destruct key as [|c0 [|c1 [|c2 rest]]].
  - by left.
  - left. by destruct c0 as [[] [] [] [] [] [] [] []].
  - left. destruct c0 as [[] [] [] [] [] [] [] []]; try done.
    by destruct c1 as [[] [] [] [] [] [] [] []].
  - destruct c0 as [[] [] [] [] [] [] [] []]; try (by left).
    destruct c1 as [[] [] [] [] [] [] [] []]; try (by left).
    right. by exists (String c2 rest).
Qed.

(** A well-formed key holds digits only, so nothing is removed from it. *)
Lemma well_formed_key_no_prefix (key : string) (scalar : Z) :
  well_formed_key key scalar → strip_0x key = key.
Proof.
  intros (_ & Hdigits & _).
  destruct (strip_0x_cases key) as [Heq|(k & -> & _ & _)]; [done|].
  by cbn in Hdigits.
Qed.

Lemma key_denotes_strip_0x (key : string) (scalar : Z) :
  key_denotes key scalar ↔ well_formed_key (strip_0x key) scalar.
Proof.
  split.
  - intros [Hwf|(k & -> & Hwf)].
    + by rewrite (well_formed_key_no_prefix key scalar).
    + rewrite strip_0x_prefixed; [done|]. destruct Hwf as [Hlen _]. by destruct k.
  - intros Hwf. destruct (strip_0x_cases key) as [Heq|(k & -> & _ & Heq)].
    + left. by rewrite Heq in Hwf.
    + right. exists k. by rewrite Heq in Hwf.
Qed.

(** C7. A key text that denotes a scalar, written with the prefix [0x] or
    without it, is accepted: the signer never answers [invalid private key]
    for it, it signs the hash of the canonical message with that scalar (an
    error of the primitive is returned as a sign error, a signature of 65
    bytes gives a triple), and two texts that denote the same scalar, such as
    a key and the same key after [0x], give the same result.  A key text that
    denotes no scalar (it is not 64 hexadecimal digits for a scalar from 1 to
    the group order less 1, with or without the prefix) never signs: the
    signer returns the error [invalid private key: ...]. *)
Theorem generateSignature_private_key (L : Libraries) :
  (∀ cfg params scalar,
     key_denotes (privateKey cfg) scalar →
     let hash :=
       Keccak256 (list_ascii_of_string (buildSortedMessage (range_keys params) params)) in
     (∀ cause, generateSignature cfg params ≠ Returns (inl (InvalidPrivateKey cause)))
     ∧ (∀ e, Sign hash scalar = inl e →
          generateSignature cfg params = Returns (inl (SignError e)))
     ∧ (∀ signature, Sign hash scalar = inr signature → length signature = 65%nat →
          ∃ sig, generateSignature cfg params = Returns (inr sig))
     ∧ (∀ cfg', key_denotes (privateKey cfg') scalar →
          generateSignature cfg' params = generateSignature cfg params))
  ∧ (∀ cfg cfg' params k scalar,
       well_formed_key k scalar →
       privateKey cfg = k → privateKey cfg' = "0x" +:+ k →
       generateSignature cfg' params = generateSignature cfg params)
  ∧ (∀ cfg params,
       (∀ scalar, ¬ key_denotes (privateKey cfg) scalar) →
       ∃ cause,
         generateSignature cfg params = Returns (inl (InvalidPrivateKey cause))
         ∧ ∀ text, error_text (InvalidPrivateKey cause) text
                   = "invalid private key: " +:+ text).
Proof.
  assert (∀ cfg scalar, key_denotes (privateKey cfg) scalar →
            HexToECDSA (strip_0x (privateKey cfg)) = inr scalar) as Hparse.
  { intros cfg scalar Hkey. by apply HexToECDSA_accepts, key_denotes_strip_0x. }
  split; [|split].
  - intros cfg params scalar Hkey hash. unfold generateSignature.
    rewrite (Hparse _ _ Hkey). fold hash. split; [|split; [|split]].
    + intros cause. destruct (Sign hash scalar); [done|]. by case_decide.
    + by intros e ->.
    + intros signature -> Hlen. rewrite decide_False by lia. by eexists.
    + intros cfg' Hkey'. by rewrite (Hparse _ _ Hkey').
  - intros cfg cfg' params k scalar Hwf Hk Hk'. unfold generateSignature.
    rewrite (Hparse cfg scalar), (Hparse cfg' scalar); [done|..].
    + right. exists k. by rewrite Hk'.
    + left. by rewrite Hk.
  - intros cfg params Hbad. unfold generateSignature.
    destruct (HexToECDSA _) as [cause|scalar] eqn:Hkey.
    + by exists cause.
    + apply HexToECDSA_accepts, key_denotes_strip_0x in Hkey. by destruct (Hbad scalar).
Qed.

Lemma example_key_well_formed :
  well_formed_key "1234567890123456789012345678901234567890123456789012345678901234"
    0x1234567890123456789012345678901234567890123456789012345678901234.
Proof.
  split; [reflexivity|]. split; [vm_compute; reflexivity|]. vm_compute. by split.
Qed.

Lemma generateSignature_private_key_witness :
  generateSignature (H:=Reference.libraries)
    (Config "http://x"
       "0x1234567890123456789012345678901234567890123456789012345678901234"
       initial_config) example_params
  = generateSignature (H:=Reference.libraries) example_config example_params.
Proof.
  apply (proj1 (proj2 (generateSignature_private_key Reference.libraries)) _ _ _
           "1234567890123456789012345678901234567890123456789012345678901234" _
           example_key_well_formed); reflexivity.
Defined.

(** ** Running the operations *)

Section operations.
Context (L : Libraries).

Lemma getBlockNumber_run (net : network) (cfg : config) (sent : list request) :
  getBlockNumber net cfg sent
  = (match net sent (blockNumber_request cfg) with
     | inl e => inl (TransportError e)
     | inr respBody =>
         inr (default 0 (Sscanf_0x_hex
                (blockResp.Result (Unmarshal_body respBody (zero_value : blockResp.t)))))
     end, sent ++ [blockNumber_request cfg]).
Proof.
  unfold getBlockNumber, client_Post. fold (blockNumber_request cfg).
  by destruct (net sent (blockNumber_request cfg)).
Qed.

Lemma rpcCall_run (net : network) (cfg : config) (method : string) (params : json)
    (sent : list request) :
  rpcCall net cfg method params sent
  = (match net sent (rpc_request cfg method params) with
     | inl e => inl (TransportError e)
     | inr respBody =>
         let rpcResp := Unmarshal_body respBody (zero_value : rpcResp.t) in
         match rpcResp.Error rpcResp with
         | Some e => inl (RPCError (rpcError.Message e))
         | None => inr (rpcResp.Result rpcResp)
         end
     end, sent ++ [rpc_request cfg method params]).
Proof.
  unfold rpcCall, client_Post. fold (rpc_request cfg method params).
  destruct (net sent (rpc_request cfg method params)); [done|].
  simpl. by destruct (rpcResp.Error _).
Qed.

Lemma CreateToken_params_entries name symbol decimals masterAuthority nonce blockNum :
  [("decimals", VInt decimals); ("masterAuthority", VString masterAuthority);
   ("name", VString name); ("nonce", VInt nonce);
   ("recentCheckpoint", VInt blockNum); ("symbol", VString symbol)]
  ≡ₚ map_to_list (CreateToken_params name symbol decimals masterAuthority nonce blockNum).
Proof.
  unfold CreateToken_params.
  repeat (rewrite map_to_list_insert by done; apply Permutation_skip).
  by rewrite map_to_list_singleton.
Qed.


(** The message signed for a token creation and for any other operation. *)
Lemma CreateToken_message name symbol decimals masterAuthority nonce blockNum order :
  range_of (CreateToken_params name symbol decimals masterAuthority nonce blockNum) order →
  buildSortedMessage order
    (CreateToken_params name symbol decimals masterAuthority nonce blockNum)
  = strings_Join [pretty decimals; masterAuthority; name; pretty nonce;
                  pretty blockNum; symbol] ",".
Proof.
  intros Ho.
  by rewrite (buildSortedMessage_ascending _ _ _ Ho
                (CreateToken_params_entries _ _ _ _ _ _)
                ltac:(unfold ascending_by_key; cbn [fmap list_fmap fst]; by_computation)).
Qed.


Lemma CreateToken_run (net : network) (cfg : config) (name symbol : string)
    (decimals : Z) (masterAuthority : string) (sent sent1 : list request)
    (blockNum : Z) :
  getBlockNumber net cfg sent = (inr blockNum, sent1) →
  CreateToken net cfg name symbol decimals masterAuthority sent
  = match generateSignature cfg
            (CreateToken_params name symbol decimals masterAuthority 0 blockNum) with
    | Panics => (Panics, sent1)
    | Returns (inl e) => (Returns (failed e), sent1)
    | Returns (inr signature) =>
        let req := rpc_request cfg "create_token"
                     (CreateToken_reqParams name symbol decimals masterAuthority 0
                        blockNum signature) in
        (Returns
           match net sent1 req with
           | inl e => failed (TransportError e)
           | inr respBody =>
               let rpcResp := Unmarshal_body respBody (zero_value : rpcResp.t) in
               match rpcResp.Error rpcResp with
               | Some e => failed (RPCError (rpcError.Message e))
               | None =>
                   match Unmarshal_raw (rpcResp.Result rpcResp)
                           (zero_value : TokenIssueResult.t) with
                   | (_, Some e) => failed (UnmarshalError e)
                   | (response, None) => succeeded (Some response)
                   end
               end
           end, sent1 ++ [req])
    end.
Proof.
  intros Hblock. unfold CreateToken. rewrite Hblock.
  destruct (generateSignature _ _) as [[e|signature]|]; [done| |done].
  rewrite rpcCall_run. destruct (net sent1 _) as [e|respBody]; [done|].
  cbv zeta. destruct (rpcResp.Error _); [done|].
  by destruct (Unmarshal_raw _ _) as [response [e|]].
Qed.

Lemma dynamicCallWithType_run {T} `{Zero T, Unmarshal T} (net : network)
    (cfg : config) (tokenAddress methodName : string) (methodArgs : list value)
    (nonce : Z) (sent sent1 : list request) (blockNum : Z) :
  getBlockNumber net cfg sent = (inr blockNum, sent1) →
  dynamicCallWithType (T:=T) net cfg tokenAddress methodName methodArgs nonce sent
  = match generateSignature cfg (dynamicCall_params tokenAddress nonce blockNum) with
    | Panics => (Panics, sent1)
    | Returns (inl e) => (Returns (failed e), sent1)
    | Returns (inr signature) =>
        let req := rpc_request cfg methodName
                     (dynamicCall_reqParams tokenAddress methodArgs nonce blockNum
                        signature) in
        (Returns
           match net sent1 req with
           | inl e => failed (TransportError e)
           | inr respBody =>
               let rpcResp := Unmarshal_body respBody (zero_value : rpcResp.t) in
               match rpcResp.Error rpcResp with
               | Some e => failed (RPCError (rpcError.Message e))
               | None =>
                   match Unmarshal_raw (rpcResp.Result rpcResp) (zero_value : T) with
                   | (_, Some e) => failed (UnmarshalError e)
                   | (response, None) => succeeded response
                   end
               end
           end, sent1 ++ [req])
    end.
Proof.
  intros Hblock. unfold dynamicCallWithType. rewrite Hblock.
  destruct (generateSignature _ _) as [[e|signature]|]; [done| |done].
  rewrite rpcCall_run. destruct (net sent1 _) as [e|respBody]; [done|].
  cbv zeta. destruct (rpcResp.Error _); [done|].
  by destruct (Unmarshal_raw _ _) as [response [e|]].
Qed.

Lemma generateSignature_error (cfg : config)
    (params : gmap string value) (e : error) :
  generateSignature cfg params = Returns (inl e) →
  (∃ cause, e = InvalidPrivateKey cause) ∨ (∃ text, e = SignError text).
Proof.
  unfold generateSignature.
  destruct (HexToECDSA _) as [cause|key]; [intros [= <-]; eauto|].
  destruct (Sign _ _) as [text|signature]; [intros [= <-]; eauto|].
  by case_decide.
Qed.

Lemma getBlockNumber_sent net cfg sent r sent1 :
  getBlockNumber net cfg sent = (r, sent1) → sent1 = sent ++ [blockNumber_request cfg].
Proof. rewrite getBlockNumber_run. by intros [= _ <-]. Qed.

Lemma Unmarshal_body_error (respBody : string) (result : json) (message : string) :
  json_parse respBody
  = Some (JObject [("result", result); ("error", JObject [("message", JString message)])]) →
  Unmarshal_body respBody (zero_value : rpcResp.t)
  = rpcResp.mk (Some result) (Some (rpcError.mk message)).
Proof. unfold Unmarshal_body. by intros ->. Qed.

Lemma Unmarshal_body_result (respBody : string) (result : json) :
  json_parse respBody = Some (JObject [("result", result); ("error", JNull)]) →
  Unmarshal_body respBody (zero_value : rpcResp.t) = rpcResp.mk (Some result) None.
Proof. unfold Unmarshal_body. by intros ->. Qed.






End operations.

(** ** What is signed and what is sent *)

Section signed_parameters.
Context (L : Libraries) (HL : LibrariesSpec L).

End signed_parameters.


(** ** Signing failures *)

(** The run of the reference implementation with the key never configured. *)
Lemma CreateToken_unconfigured_key :
  CreateToken (H:=Reference.libraries)
    (Reference.mock "http://localhost:8545" (json_text "{'result':'0x10'}") "")
    initial_config "T" "TK" 18 "0xAuth" []
  = (Returns (failed (InvalidPrivateKey InvalidLength)),
     [blockNumber_request initial_config]).
Proof. vm_compute. reflexivity. Qed.

(** C5, as stated, does not hold: with the key never configured, a token
    creation ends with the error [invalid private key] after it has sent the
    block-height query to the chain node. *)
Lemma signing_failure_follows_block_fetch : ¬ signing_failure_precedes_every_request.
Proof.
  intros Hclaim.
  specialize (Hclaim Reference.libraries
    (Reference.mock "http://localhost:8545" (json_text "{'result':'0x10'}") "")
    initial_config "T" "TK" 18 "0xAuth" [] (InvalidPrivateKey InvalidLength)).
  rewrite CreateToken_unconfigured_key in Hclaim.
  discriminate Hclaim; [left; by eexists|done].
Qed.

(** C5, amended. For every operation, a signing failure (a key that does not
    parse, or a failure of the signing primitive) is returned in the wrapper,
    whose error accessor invokes its callback with it and whose success
    accessor invokes nothing; by then the operation has sent one request, the
    block-height query to the chain node, and it sends none to the service. *)
Theorem signing_failure_surfaces_before_rpc (L : Libraries) :
  (∀ net cfg name symbol decimals masterAuthority sent sent1 blockNum e,
     getBlockNumber net cfg sent = (inr blockNum, sent1) →
     generateSignature cfg
       (CreateToken_params name symbol decimals masterAuthority 0 blockNum)
     = Returns (inl e) →
     CreateToken net cfg name symbol decimals masterAuthority sent
     = (Returns (failed e), sent ++ [blockNumber_request cfg]))
  ∧ (∀ T (HZ : Zero T) (HU : Unmarshal T) net cfg tokenAddress methodName methodArgs
       nonce sent sent1 blockNum e,
       getBlockNumber net cfg sent = (inr blockNum, sent1) →
       generateSignature cfg (dynamicCall_params tokenAddress nonce blockNum)
       = Returns (inl e) →
       dynamicCallWithType (T:=T) net cfg tokenAddress methodName methodArgs nonce sent
       = (Returns (failed e), sent ++ [blockNumber_request cfg]))
  ∧ (∀ cfg params e,
       generateSignature cfg params = Returns (inl e) →
       (∃ cause, e = InvalidPrivateKey cause) ∨ (∃ text, e = SignError text))
  ∧ (∀ T (HZ : Zero T) St (e : error) (f : T → St → St) (g : error → St → St) st,
       Error (failed (T:=T) e) g st = (failed e, g e st)
       ∧ Success (failed (T:=T) e) f st = (failed e, st)).
Proof.
  split; [|split; [|split]].
  - intros * Hblock Hsig.
    rewrite (CreateToken_run _ _ _ _ _ _ _ _ _ _ Hblock), Hsig.
    by rewrite (getBlockNumber_sent _ _ _ _ _ _ Hblock).
  - intros * Hblock Hsig.
    rewrite (dynamicCallWithType_run _ _ _ _ _ _ _ _ _ _ Hblock), Hsig.
    by rewrite (getBlockNumber_sent _ _ _ _ _ _ Hblock).
  - intros *. apply generateSignature_error.
  - done.
Qed.

Lemma signing_failure_surfaces_before_rpc_witness :
  CreateToken (H:=Reference.libraries)
    (Reference.mock "http://localhost:8545" (json_text "{'result':'0x10'}") "")
    initial_config "T" "TK" 18 "0xAuth" []
  = (Returns (failed (InvalidPrivateKey InvalidLength)),
     [] ++ [blockNumber_request initial_config]).
Proof.
  apply (proj1 (signing_failure_surfaces_before_rpc Reference.libraries))
    with (sent1 := [blockNumber_request initial_config]) (blockNum := 16).
  - vm_compute. reflexivity.
  - vm_compute. reflexivity.
Defined.

(** ** The response envelope *)

Section envelope.
Context (L : Libraries).

(** C6. When the envelope of a response holds an error, the call fails with
    the error [RPC error: ] followed by the message of the server, and no
    result is returned; when it holds none, the raw result is returned for
    decoding.  An envelope whose [error] member is an object holds an error
    with that object's message, and one whose [error] member is [null] holds
    none.  When the server answers a token creation with the message
    [nonce too low], only the error callback is invoked, with the error whose
    text is [RPC error: nonce too low]. *)
Theorem rpcCall_envelope :
  (∀ net cfg method params sent respBody,
     net sent (rpc_request cfg method params) = inr respBody →
     (∀ e, rpcResp.Error (Unmarshal_body respBody (zero_value : rpcResp.t)) = Some e →
        rpcCall net cfg method params sent
        = (inl (RPCError (rpcError.Message e)), sent ++ [rpc_request cfg method params])
        ∧ ∀ cause, error_text (RPCError (rpcError.Message e)) cause
                   = "RPC error: " +:+ rpcError.Message e)
     ∧ (rpcResp.Error (Unmarshal_body respBody (zero_value : rpcResp.t)) = None →
        rpcCall net cfg method params sent
        = (inr (rpcResp.Result (Unmarshal_body respBody (zero_value : rpcResp.t))),
           sent ++ [rpc_request cfg method params])))
  ∧ (∀ respBody result message,
       json_parse respBody
       = Some (JObject [("result", result);
                        ("error", JObject [("message", JString message)])]) →
       Unmarshal_body respBody (zero_value : rpcResp.t)
       = rpcResp.mk (Some result) (Some (rpcError.mk message)))
  ∧ (∀ respBody result,
       json_parse respBody = Some (JObject [("result", result); ("error", JNull)]) →
       Unmarshal_body respBody (zero_value : rpcResp.t) = rpcResp.mk (Some result) None)
  ∧ (∀ net cfg name symbol decimals masterAuthority sent sent1 blockNum signature
       respBody,
       getBlockNumber net cfg sent = (inr blockNum, sent1) →
       generateSignature cfg
         (CreateToken_params name symbol decimals masterAuthority 0 blockNum)
       = Returns (inr signature) →
       net sent1 (rpc_request cfg "create_token"
                    (CreateToken_reqParams name symbol decimals masterAuthority 0
                       blockNum signature)) = inr respBody →
       json_parse respBody
       = Some (JObject [("result", JNull);
                        ("error", JObject [("message", JString "nonce too low")])]) →
       ∃ r, (CreateToken net cfg name symbol decimals masterAuthority sent).1 = Returns r
            ∧ Success_then_Error r log_success log_error []
              = (r, [inr (RPCError "nonce too low")])
            ∧ ∀ cause, error_text (RPCError "nonce too low") cause
                       = "RPC error: " +:+ "nonce too low").
Proof.
  split; [|split; [|split]].
  - intros * Hnet. split.
    + intros e He. rewrite rpcCall_run, Hnet. cbv zeta. by rewrite He.
    + intros He. rewrite rpcCall_run, Hnet. cbv zeta. by rewrite He.
  - apply Unmarshal_body_error.
  - apply Unmarshal_body_result.
  - intros * Hblock Hsig Hnet Hbody.
    rewrite (CreateToken_run _ _ _ _ _ _ _ _ _ _ Hblock), Hsig. cbv zeta.
    rewrite Hnet, (Unmarshal_body_error _ _ _ _ Hbody).
    eexists. split; [done|]. done.
Qed.
End envelope.

Lemma rpcCall_envelope_witness :
  ∃ r, (CreateToken (H:=Reference.libraries)
          (example_net nonce_too_low_body)
          example_config "T" "TK" 18 "0xAuth" []).1 = Returns r
       ∧ Success_then_Error r log_success log_error [] = (r, [inr (RPCError "nonce too low")])
       ∧ ∀ cause, error_text (RPCError "nonce too low") cause
                  = "RPC error: " +:+ "nonce too low".
Proof.
  pose proof (proj2 (proj2 (proj2 (rpcCall_envelope Reference.libraries)))) as Hscenario.
  eapply (Hscenario _ _ _ _ _ _ _ [blockNumber_request example_config] 16).
  - vm_compute. reflexivity.
  - vm_compute. reflexivity.
  - vm_compute. reflexivity.
  - vm_compute. reflexivity.
Defined.

(** ** The block-height fetch *)

Section block_number.
Context (L : Libraries) (HL : LibrariesSpec L).

Lemma Sscanf_empty : Sscanf_0x_hex "" = None.
Proof.
  destruct (Sscanf_0x_hex "") as [n|] eqn:Hscan; [|done].
  by apply Sscanf_0x_hex_spec in Hscan as [rest ?].
Qed.


End block_number.


(** ** The response wrapper *)

Section wrapper.
Context (L : Libraries).

End wrapper.




(** ** The balance query *)

Lemma Int_SetString16_digits (digits : string) (wei : Z) :
  digits ≠ "" → parse_digits 16 fromHexChar digits 0 = Some wei →
  Int_SetString16 digits = Some wei.
Proof.
  destruct digits as [|c rest]; [done|]. intros _ Hp.
  unfold Int_SetString16.
  assert (fromHexChar c ≠ None) as Hc.
  { cbn [parse_digits] in Hp. by destruct (fromHexChar c). }
  destruct (decide (c = "-"%char)) as [->|Hm]; [done|].
  destruct (decide (c = "+"%char)) as [->|Hpl]; [done|].
  assert ((let '(neg, digits) :=
             match String c rest with
             | String "-" rest0 => (true, rest0)
             | String "+" rest0 => (false, rest0)
             | _ => (false, String c rest)
             end in
           match digits with
           | "" => None
           | String _ _ =>
               match parse_digits 16 fromHexChar digits 0 with
               | Some n => Some (if neg then - n else n)
               | None => None
               end
           end)
          = match parse_digits 16 fromHexChar (String c rest) 0 with
            | Some n => Some n
            | None => None
            end) as ->.
  { destruct c as [[] [] [] [] [] [] [] []]; try done. }
  by rewrite Hp.
Qed.

Lemma drop_while_length {A} (f : A → bool) (l : list A) :
  (length (drop_while f l) ≤ length l)%nat.
Proof. induction l as [|x l IH]; simpl; [done|]. destruct (f x); simpl; lia. Qed.

Lemma decimal_round_length (x : decimal) (n : nat) :
  (0 < n)%nat → (length (digits (decimal_round x n)) ≤ n)%nat.
Proof.
  intros Hn. unfold decimal_round. case_decide as Hlen; [|lia].
  assert (length (take n (digits x)) ≤ n)%nat as Htake by (rewrite length_take; lia).
  destruct (shouldRoundUp x n).
  - unfold roundUp.
    pose proof (drop_while_length (λ c, bool_decide (57 ≤ byte_val c))
                  (reverse (take n (digits x)))) as Hdrop.
    rewrite length_reverse in Hdrop.
    destruct (drop_while _ _) as [|c before]; simpl in *; [lia|].
    rewrite length_app, length_reverse. simpl. lia.
  - unfold roundDown, trim. simpl. rewrite length_reverse.
    etrans; [apply drop_while_length|]. by rewrite length_reverse.
Qed.

Section balance.
Context (L : Libraries).

Lemma GetBalance_run net cfg address sent digits wei :
  node_returns net cfg address sent digits wei →
  GetBalance net cfg address sent
  = (Returns (succeeded (Some
       (BalanceInfo.mk (Int_String wei)
          (Float_String (Float_Quo (Float_SetInt wei) NewFloat_1e18))))),
     sent ++ [balance_request cfg address]).
Proof.
  intros (respBody & Hnet & Hbody & Hne & Hdigits).
  unfold GetBalance, client_Post. fold (balance_request cfg address).
  rewrite Hnet. cbv zeta. rewrite Hbody.
  change (balanceResp.Error (balanceResp.mk ("0x" +:+ digits) None)) with (@None rpcError.t).
  change (balanceResp.Result (balanceResp.mk ("0x" +:+ digits) None))
    with (String "0" (String "x" digits)).
  cbn [String.length string_from].
  case_decide; [lia|].
  by rewrite (Int_SetString16_digits _ _ Hne Hdigits).
Qed.

(** C9, amended. For every hexadecimal amount the node returns, the balance
    holds the decimal numeral of the amount, exactly, and as its ETH value the
    quotient of the amount by 10^18 in binary floating point, rounded to a
    mantissa of 64 bits (or of as many bits as the amount has, if more), and
    printed with at most 10 significant decimal digits.  For 10^18 wei the
    value is [1] and for 5 * 10^17 wei it is [0.5], both exact. *)
Theorem GetBalance_conversion net cfg address sent hex wei :
  node_returns net cfg address sent hex wei →
  ∃ info,
    GetBalance net cfg address sent
    = (Returns (succeeded (Some info)), sent ++ [balance_request cfg address])
    ∧ decimal_value (BalanceInfo.Wei info) = Some wei
    ∧ (let quotient := Float_Quo (Float_SetInt wei) NewFloat_1e18 in
       prec quotient = Z.max (bitLen wei) 64
       ∧ BalanceInfo.Eth info = Float_Text_g quotient 10
       ∧ (length (digits (decimal_round (decimal_init (mant quotient) (exp quotient)) 10))
          ≤ 10)%nat)
    ∧ (wei = 10 ^ 18 →
       BalanceInfo.Eth info = "1" ∧ denotes_quotient (BalanceInfo.Eth info) wei (10 ^ 18))
    ∧ (wei = 5 * 10 ^ 17 →
       BalanceInfo.Eth info = "0.5"
       ∧ denotes_quotient (BalanceInfo.Eth info) wei (10 ^ 18)).
Proof.
  intros Hnode. eexists. split; [exact (GetBalance_run _ _ _ _ _ _ Hnode)|].
  cbn [BalanceInfo.Wei BalanceInfo.Eth].
  split; [apply decimal_value_pretty|]. split; [|split].
  - cbv zeta. split; [|split; [reflexivity|apply decimal_round_length; lia]].
    unfold Float_Quo. cbn [mant NewFloat_1e18].
    case_decide as H18; [by vm_compute in H18|].
    case_decide; [done|]. by destruct (round_quotient _ _ _).
  - intros ->. split; [by vm_compute|]. exists 1, 0. by vm_compute.
  - intros ->. split; [by vm_compute|]. exists 5, (-1). by vm_compute.
Qed.
End balance.

Lemma GetBalance_conversion_witness :
  ∃ info,
    GetBalance (H:=Reference.libraries)
      (Reference.mock "http://x" (json_text "{'result':'0xde0b6b3a7640000'}") "")
      example_config "0xAddr" []
    = (Returns (succeeded (Some info)),
       [] ++ [balance_request (H:=Reference.libraries) example_config "0xAddr"])
    ∧ decimal_value (BalanceInfo.Wei info) = Some (10 ^ 18)
    ∧ BalanceInfo.Eth info = "1".
Proof.
  destruct (GetBalance_conversion Reference.libraries
              (Reference.mock "http://x" (json_text "{'result':'0xde0b6b3a7640000'}") "")
              example_config "0xAddr" [] "de0b6b3a7640000" (10 ^ 18))
    as (info & Hrun & Hwei & _ & Hone & _).
  { eexists. split; [vm_compute; reflexivity|]. split; [vm_compute; reflexivity|].
    split; [done|]. vm_compute. reflexivity. }
  exists info. split; [exact Hrun|]. split; [exact Hwei|]. by apply Hone.
Defined.

(** The run of the reference implementation for a node that returns
    [0x112210f47de98115]. *)
Lemma balance_of_1234567890123456789 :
  GetBalance (H:=Reference.libraries)
    (Reference.mock "http://x" (json_text "{'result':'0x112210f47de98115'}") "")
    example_config "0xAddr" []
  = (Returns (succeeded (Some (BalanceInfo.mk "1234567890123456789" "1.23456789"))),
     [balance_request (H:=Reference.libraries) example_config "0xAddr"]).
Proof. vm_compute. reflexivity. Qed.

(** C9, as stated, does not hold: for 1234567890123456789 wei the ETH value
    is [1.23456789], which is not the amount divided by 10^18. *)
Lemma balance_conversion_rounds : ¬ balance_conversion_exact.
Proof.
  intros Hclaim.
  destruct (Hclaim Reference.libraries
              (Reference.mock "http://x" (json_text "{'result':'0x112210f47de98115'}") "")
              example_config "0xAddr" [] "112210f47de98115" 1234567890123456789)
    as (info & Hinfo & _ & m & k & Hvalue & Hexact).
  { eexists. split; [vm_compute; reflexivity|]. split; [vm_compute; reflexivity|].
    split; [done|]. vm_compute. reflexivity. }
  rewrite balance_of_1234567890123456789 in Hinfo.
  injection Hinfo as <-. vm_compute in Hvalue. injection Hvalue as <- <-.
  vm_compute in Hexact. discriminate Hexact.
Qed.

(** * Further properties of the code *)

(** ** The canonical message: what it leaves out *)

(** X1. The message holds the printed values only: two parameter sets whose
    values, taken by ascending key, print alike give the same message, whatever
    their keys are called and whether a value is a number or the string of its
    numeral. *)
Theorem buildSortedMessage_ignores_keys_and_types
    (m1 m2 : gmap string value) (o1 o2 : list string)
    (kvs1 kvs2 : list (string * value)) :
  range_of m1 o1 → range_of m2 o2 →
  kvs1 ≡ₚ map_to_list m1 → ascending_by_key kvs1 →
  kvs2 ≡ₚ map_to_list m2 → ascending_by_key kvs2 →
  (λ kv, Sprintf_v (Some kv.2)) <$> kvs1 = (λ kv, Sprintf_v (Some kv.2)) <$> kvs2 →
  buildSortedMessage o1 m1 = buildSortedMessage o2 m2.
Proof.
  intros Ho1 Ho2 Hp1 Hs1 Hp2 Hs2 Hvalues.
  rewrite (buildSortedMessage_ascending m1 o1 kvs1), (buildSortedMessage_ascending m2 o2 kvs2)
    by done.
  by rewrite Hvalues.
Qed.

Lemma buildSortedMessage_ignores_keys_and_types_witness :
  buildSortedMessage ["nonce"; "decimals"] {[ "decimals" := VInt 18; "nonce" := VInt 0 ]}
  = buildSortedMessage ["a"; "b"] {[ "a" := VString "18"; "b" := VString "0" ]}.
Proof.
  apply (buildSortedMessage_ignores_keys_and_types _ _ _ _
           [("decimals", VInt 18); ("nonce", VInt 0)]
           [("a", VString "18"); ("b", VString "0")]).
  - unfold range_of. by_computation.
  - unfold range_of. by_computation.
  - by_computation.
  - unfold ascending_by_key. by_computation.
  - by_computation.
  - unfold ascending_by_key. by_computation.
  - reflexivity.
Defined.

Lemma two_entries (k1 k2 : string) (v1 v2 : value) :
  string_lt k1 k2 →
  [(k1, v1); (k2, v2)] ≡ₚ map_to_list ({[ k1 := v1; k2 := v2 ]} : gmap string value)
  ∧ ascending_by_key [(k1, v1); (k2, v2)].
Proof.
  intros Hlt. assert (k1 ≠ k2) as Hne by (by apply string_lt_le in Hlt as [_ ?]).
  split.
  - rewrite map_to_list_insert by (by rewrite lookup_singleton_ne).
    by rewrite map_to_list_singleton.
  - unfold ascending_by_key. simpl. repeat constructor. done.
Qed.

(** X2. Values are joined with no escaping, so the message does not tell one
    value that holds a comma from two values: a parameter set with the values
    [a] and [b] and one with the single value [a,b] give the same message. *)
Theorem buildSortedMessage_comma_ambiguity (k1 k2 a b : string) (o1 o2 : list string) :
  string_lt k1 k2 →
  range_of {[ k1 := VString a; k2 := VString b ]} o1 →
  range_of {[ k1 := VString (a +:+ "," +:+ b) ]} o2 →
  buildSortedMessage o1 {[ k1 := VString a; k2 := VString b ]}
  = buildSortedMessage o2 {[ k1 := VString (a +:+ "," +:+ b) ]}.
Proof.
  intros Hlt Ho1 Ho2. destruct (two_entries k1 k2 (VString a) (VString b) Hlt) as [Hp Hs].
  rewrite (buildSortedMessage_ascending _ o1 _ Ho1 Hp Hs).
  rewrite (buildSortedMessage_ascending _ o2 [(k1, VString (a +:+ "," +:+ b))] Ho2).
  - done.
  - by rewrite map_to_list_singleton.
  - unfold ascending_by_key. simpl. repeat constructor.
Qed.

Lemma buildSortedMessage_comma_ambiguity_witness :
  buildSortedMessage ["symbol"; "name"] {[ "name" := VString "T"; "symbol" := VString "TK" ]}
  = buildSortedMessage ["name"] {[ "name" := VString ("T" +:+ "," +:+ "TK") ]}.
Proof.
  apply buildSortedMessage_comma_ambiguity.
  - by_computation.
  - unfold range_of. by_computation.
  - unfold range_of. by_computation.
Defined.

(** ** The signer: panics, bounds and rejected keys *)

Lemma SetBytes_bound (buf : list ascii) : 0 ≤ SetBytes buf < 256 ^ Z.of_nat (length buf).
Proof.
  unfold SetBytes.
  cut (∀ acc n, 0 ≤ acc < 256 ^ n → 0 ≤ n →
         0 ≤ fold_left (λ acc b, acc * 256 + byte_val b) buf acc
           < 256 ^ (n + Z.of_nat (length buf))).
  { intros Hcut. apply (Hcut 0 0); lia. }
  induction buf as [|b buf IH]; intros acc n Hacc Hn.
  - simpl. by rewrite Z.add_0_r.
  - cbn [fold_left length]. replace (n + Z.of_nat (S (length buf)))
      with ((n + 1) + Z.of_nat (length buf)) by lia.
    apply IH; [|lia]. pose proof (byte_val_range b).
    rewrite Z.pow_add_r by lia. lia.
Qed.

Section signer_bounds.
Context (L : Libraries) (HL : LibrariesSpec L).

Lemma generateSignature_returns (cfg : config) (params : gmap string value) :
  generateSignature cfg params ≠ Panics.
Proof.
  unfold generateSignature.
  destruct (HexToECDSA _) as [e|key]; [done|].
  destruct (Sign _ key) as [e|signature] eqn:Hsign; [done|].
  destruct (Sign_spec _ _ _ Hsign) as [Hlen _]. case_decide; [lia|done].
Qed.

(** X3. With a signing primitive that keeps its contract (65 bytes, the last
    one 0 or 1), the signer never panics on the slices it takes of the
    signature, and the triple it returns holds the decimal numerals of two
    integers from 0 to 2^256 - 1 and the text [27] or [28]. *)
Theorem generateSignature_returns_bounded_fields
    (cfg : config) (params : gmap string value) :
  generateSignature cfg params ≠ Panics
  ∧ ∀ sig, generateSignature cfg params = Returns (inr sig) →
      (∃ r s, decimal_value (Signature.R sig) = Some r ∧ 0 ≤ r < 2 ^ 256
              ∧ decimal_value (Signature.S sig) = Some s ∧ 0 ≤ s < 2 ^ 256)
      ∧ (Signature.V sig = "27" ∨ Signature.V sig = "28").
Proof.
  split; [apply generateSignature_returns|].
  intros sig. unfold generateSignature.
  destruct (HexToECDSA _) as [e|key]; [done|].
  destruct (Sign _ key) as [e|signature] eqn:Hsign; [done|].
  destruct (Sign_spec _ _ _ Hsign) as [Hlen Hv].
  case_decide; [lia|]. intros [= <-]. cbn [Signature.R Signature.S Signature.V].
  destruct (signature_parts signature Hlen) as (_ & Hr & Hs).
  split.
  - exists (SetBytes (take 32 signature)), (SetBytes (take 32 (drop 32 signature))).
    unfold Int_String. rewrite !decimal_value_pretty.
    pose proof (SetBytes_bound (take 32 signature)) as Hrb.
    pose proof (SetBytes_bound (take 32 (drop 32 signature))) as Hsb.
    rewrite Hr in Hrb. rewrite Hs in Hsb.
    change (256 ^ Z.of_nat 32) with (2 ^ 256) in *. done.
  - rewrite SetBytes_singleton, byte_add_val, Z.mod_small by lia.
    assert (byte_val (nth 64 signature zero) = 0 ∨ byte_val (nth 64 signature zero) = 1)
      as [-> | ->] by lia; [by left|by right].
Qed.
End signer_bounds.

Lemma generateSignature_returns_bounded_fields_witness :
  (∃ r s, decimal_value (Signature.R example_signature) = Some r ∧ 0 ≤ r < 2 ^ 256
          ∧ decimal_value (Signature.S example_signature) = Some s ∧ 0 ≤ s < 2 ^ 256)
  ∧ (Signature.V example_signature = "27" ∨ Signature.V example_signature = "28").
Proof.
  apply (proj2 (generateSignature_returns_bounded_fields Reference.libraries
                  Reference_libraries_spec example_config example_params)).
  vm_compute. reflexivity.
Defined.

(** X4. Only a lower-case [0x] that is followed by at least one character is
    removed, and only once: a key written with [0X], the bare text [0x], and
    a key with the prefix written twice are all rejected as holding a
    character that is no hexadecimal digit. *)
Theorem generateSignature_prefix_edge_cases (L : Libraries)
    (cfg : config) (params : gmap string value) :
  (∀ rest, privateKey cfg = "0X" +:+ rest →
     generateSignature cfg params
     = Returns (inl (InvalidPrivateKey (InvalidHexCharacter "X"))))
  ∧ (privateKey cfg = "0x" →
     generateSignature cfg params
     = Returns (inl (InvalidPrivateKey (InvalidHexCharacter "x"))))
  ∧ (∀ rest, privateKey cfg = "0x0x" +:+ rest →
     generateSignature cfg params
     = Returns (inl (InvalidPrivateKey (InvalidHexCharacter "x")))).
Proof.
  unfold generateSignature. split; [|split].
  - by intros rest ->.
  - by intros ->.
  - by intros rest ->.
Qed.

Lemma generateSignature_prefix_edge_cases_witness :
  generateSignature (H:=Reference.libraries)
    (Config "http://x"
       "0X1234567890123456789012345678901234567890123456789012345678901234"
       initial_config) example_params
  = Returns (inl (InvalidPrivateKey (InvalidHexCharacter "X"))).
Proof.
  apply (proj1 (generateSignature_prefix_edge_cases Reference.libraries _ example_params)
           "1234567890123456789012345678901234567890123456789012345678901234").
  reflexivity.
Defined.

Lemma hex_DecodeString_odd (s : string) (acc n : Z) :
  parse_digits 16 fromHexChar s acc = Some n → Nat.Odd (String.length s) →
  hex_DecodeString s = inl ErrLength.
Proof.
  revert acc. induction s as [|c|c d s IH] using string_pair_ind; intros acc.
  - intros _ [k Hk]. simpl in Hk. lia.
  - cbn [parse_digits hex_DecodeString]. by destruct (fromHexChar c).
  - cbn [parse_digits hex_DecodeString].
    destruct (fromHexChar c) as [a|]; [|done].
    destruct (fromHexChar d) as [b|]; [|done].
    intros Hp [k Hk]. rewrite (IH _ Hp); [done|].
    exists (k - 1)%nat. simpl in Hk. lia.
Qed.

(** X5. What the signer answers for a key that holds hexadecimal digits only
    (after the prefix is removed): an odd number of digits is invalid hex data,
    an even number other than 64 (among them the empty key of a client that was
    never configured) is an invalid length, and 64 digits are rejected when
    they denote 0 or a number that is not below the order of the group. *)
Theorem generateSignature_key_errors (L : Libraries)
    (cfg : config) (params : gmap string value) (n : Z) :
  parse_digits 16 fromHexChar (strip_0x (privateKey cfg)) 0 = Some n →
  let len := String.length (strip_0x (privateKey cfg)) in
  (Nat.Odd len →
     generateSignature cfg params = Returns (inl (InvalidPrivateKey InvalidHexData)))
  ∧ (Nat.Even len → len ≠ 64%nat →
     generateSignature cfg params = Returns (inl (InvalidPrivateKey InvalidLength)))
  ∧ (len = 64%nat → n = 0 →
     generateSignature cfg params = Returns (inl (InvalidPrivateKey ZeroOrNegative)))
  ∧ (len = 64%nat → secp256k1N ≤ n →
     generateSignature cfg params = Returns (inl (InvalidPrivateKey NotBelowN))).
Proof.
  intros Hp len. unfold generateSignature. split; [|split; [|split]].
  - intros Hodd. unfold HexToECDSA. by rewrite (hex_DecodeString_odd _ _ _ Hp Hodd).
  - intros Heven Hlen.
    destruct (hex_DecodeString_digits _ _ _ Hp Heven) as [bytes Hd].
    unfold HexToECDSA. rewrite Hd.
    apply hex_DecodeString_value in Hd as [Hlen' _]. fold len in Hlen'.
    case_decide; [done|lia].
  - intros Hlen ->.
    destruct (hex_DecodeString_digits _ _ _ Hp) as [bytes Hd].
    { exists 32%nat. fold len. lia. }
    unfold HexToECDSA. rewrite Hd.
    apply hex_DecodeString_value in Hd as [Hlen' Hval]. fold len in Hlen'.
    rewrite Hval in Hp. injection Hp as Hp.
    unfold SetBytes. rewrite Hp.
    case_decide; [lia|]. case_decide as Hzero; [by vm_compute in Hzero|].
    by case_decide.
  - intros Hlen Hn.
    destruct (hex_DecodeString_digits _ _ _ Hp) as [bytes Hd].
    { exists 32%nat. fold len. lia. }
    unfold HexToECDSA. rewrite Hd.
    apply hex_DecodeString_value in Hd as [Hlen' Hval]. fold len in Hlen'.
    rewrite Hval in Hp. injection Hp as Hp.
    unfold SetBytes. rewrite Hp.
    case_decide; [lia|]. by case_decide.
Qed.

Lemma generateSignature_key_errors_witness :
  generateSignature (H:=Reference.libraries) initial_config example_params
  = Returns (inl (InvalidPrivateKey InvalidLength)).
Proof.
  refine (proj1 (proj2 (generateSignature_key_errors Reference.libraries
                          initial_config example_params 0 _)) _ _).
  - reflexivity.
  - by exists 0%nat.
  - done.
Defined.

(** ** The operations: what they send and when they fail *)

Section requests.
Context (L : Libraries).

Lemma getBlockNumber_cases (net : network) (cfg : config) (sent : list request) :
  (∃ e, net sent (blockNumber_request cfg) = inl e
        ∧ getBlockNumber net cfg sent
          = (inl (TransportError e), sent ++ [blockNumber_request cfg]))
  ∨ (∃ blockNum, getBlockNumber net cfg sent
                 = (inr blockNum, sent ++ [blockNumber_request cfg])).
Proof.
  rewrite getBlockNumber_run.
  destruct (net sent (blockNumber_request cfg)) as [e|respBody]; [left|right]; eauto.
Qed.


(** X7. A failure of the transport is returned as it is.  When the chain node
    cannot be reached, the operation ends with that error after its one
    request, whatever the key is: nothing is signed.  When the service cannot
    be reached, the operation ends with that error after its two requests. *)
Theorem transport_errors_are_returned :
  (∀ net cfg name symbol decimals masterAuthority sent e,
     net sent (blockNumber_request cfg) = inl e →
     CreateToken net cfg name symbol decimals masterAuthority sent
     = (Returns (failed (TransportError e)), sent ++ [blockNumber_request cfg]))
  ∧ (∀ T (HZ : Zero T) (HU : Unmarshal T) net cfg tokenAddress methodName methodArgs
       nonce sent e,
       net sent (blockNumber_request cfg) = inl e →
       dynamicCallWithType (T:=T) net cfg tokenAddress methodName methodArgs nonce sent
       = (Returns (failed (TransportError e)), sent ++ [blockNumber_request cfg]))
  ∧ (∀ net cfg name symbol decimals masterAuthority sent sent1 blockNum signature e,
       getBlockNumber net cfg sent = (inr blockNum, sent1) →
       generateSignature cfg
         (CreateToken_params name symbol decimals masterAuthority 0 blockNum)
       = Returns (inr signature) →
       net sent1 (rpc_request cfg "create_token"
                    (CreateToken_reqParams name symbol decimals masterAuthority 0
                       blockNum signature)) = inl e →
       (CreateToken net cfg name symbol decimals masterAuthority sent).1
       = Returns (failed (TransportError e)))
  ∧ (∀ T (HZ : Zero T) (HU : Unmarshal T) net cfg tokenAddress methodName methodArgs
       nonce sent sent1 blockNum signature e,
       getBlockNumber net cfg sent = (inr blockNum, sent1) →
       generateSignature cfg (dynamicCall_params tokenAddress nonce blockNum)
       = Returns (inr signature) →
       net sent1 (rpc_request cfg methodName
                    (dynamicCall_reqParams tokenAddress methodArgs nonce blockNum
                       signature)) = inl e →
       (dynamicCallWithType (T:=T) net cfg tokenAddress methodName methodArgs nonce
          sent).1
       = Returns (failed (TransportError e)))
  ∧ (∀ e cause, error_text (TransportError e) cause = e).
Proof.
  split; [|split; [|split; [|split]]].
  - intros * Hnet. unfold CreateToken. by rewrite getBlockNumber_run, Hnet.
  - intros * Hnet. unfold dynamicCallWithType. by rewrite getBlockNumber_run, Hnet.
  - intros * Hb Hsig Hnet.
    rewrite (CreateToken_run _ _ _ _ _ _ _ _ _ _ Hb), Hsig. cbv zeta. by rewrite Hnet.
  - intros * Hb Hsig Hnet.
    rewrite (dynamicCallWithType_run _ _ _ _ _ _ _ _ _ _ Hb), Hsig. cbv zeta.
    by rewrite Hnet.
  - done.
Qed.

End requests.

Lemma transport_errors_are_returned_witness :
  CreateToken (H:=Reference.libraries) (λ _ _, inl "connection refused")
    initial_config "T" "TK" 18 "0xAuth" []
  = (Returns (failed (TransportError "connection refused")),
     [] ++ [blockNumber_request initial_config]).
Proof.
  apply (proj1 (transport_errors_are_returned Reference.libraries)). reflexivity.
Defined.

Section returns.
Context (L : Libraries) (HL : LibrariesSpec L).

(** X8. With a signing primitive that keeps its contract, the token creation
    and every operation on a token return a wrapper for every answer of the
    network: they never panic. *)
Theorem operations_never_panic :
  (∀ net cfg name symbol decimals masterAuthority sent,
     ∃ r, (CreateToken net cfg name symbol decimals masterAuthority sent).1 = Returns r)
  ∧ (∀ T (HZ : Zero T) (HU : Unmarshal T) net cfg tokenAddress methodName methodArgs
       nonce sent,
       ∃ r, (dynamicCallWithType (T:=T) net cfg tokenAddress methodName methodArgs
               nonce sent).1 = Returns r).
Proof.
  split.
  - intros. destruct (getBlockNumber_cases L net cfg sent) as [(e & _ & Hb)|[blockNum Hb]].
    { unfold CreateToken. rewrite Hb. by eexists. }
    rewrite (CreateToken_run _ _ _ _ _ _ _ _ _ _ Hb).
    pose proof (generateSignature_returns L HL cfg
                  (CreateToken_params name symbol decimals masterAuthority 0 blockNum)).
    destruct (generateSignature _ _) as [[e|signature]|]; [by eexists|by eexists|done].
  - intros. destruct (getBlockNumber_cases L net cfg sent) as [(e & _ & Hb)|[blockNum Hb]].
    { unfold dynamicCallWithType. rewrite Hb. by eexists. }
    rewrite (dynamicCallWithType_run _ _ _ _ _ _ _ _ _ _ Hb).
    pose proof (generateSignature_returns L HL cfg
                  (dynamicCall_params tokenAddress nonce blockNum)).
    destruct (generateSignature _ _) as [[e|signature]|]; [by eexists|by eexists|done].
Qed.
End returns.

Lemma operations_never_panic_witness :
  ∃ r, (CreateToken (H:=Reference.libraries) (example_net "") example_config
          "T" "TK" 18 "0xAuth" []).1 = Returns r.
Proof.
  apply (proj1 (operations_never_panic Reference.libraries Reference_libraries_spec)).
Defined.

(** ** Decoding the answers of the service *)

Section answers.
Context (L : Libraries).

(** What an operation returns once the service has answered. *)
Lemma CreateToken_answer net cfg name symbol decimals masterAuthority sent respBody :
  CreateToken_answered net cfg name symbol decimals masterAuthority sent respBody →
  (CreateToken net cfg name symbol decimals masterAuthority sent).1
  = Returns
      (let rpcResp := Unmarshal_body respBody (zero_value : rpcResp.t) in
       match rpcResp.Error rpcResp with
       | Some e => failed (RPCError (rpcError.Message e))
       | None =>
           match Unmarshal_raw (rpcResp.Result rpcResp)
                   (zero_value : TokenIssueResult.t) with
           | (_, Some e) => failed (UnmarshalError e)
           | (response, None) => succeeded (Some response)
           end
       end).
Proof.
  intros (sent1 & blockNum & signature & Hb & Hsig & Hnet).
  rewrite (CreateToken_run _ _ _ _ _ _ _ _ _ _ Hb), Hsig. cbv zeta. by rewrite Hnet.
Qed.

Lemma dynamicCall_answer {T} `{Zero T, Unmarshal T} net cfg tokenAddress methodName
    methodArgs nonce sent respBody :
  dynamicCall_answered net cfg tokenAddress methodName methodArgs nonce sent respBody →
  (dynamicCallWithType (T:=T) net cfg tokenAddress methodName methodArgs nonce sent).1
  = Returns
      (let rpcResp := Unmarshal_body respBody (zero_value : rpcResp.t) in
       match rpcResp.Error rpcResp with
       | Some e => failed (RPCError (rpcError.Message e))
       | None =>
           match Unmarshal_raw (rpcResp.Result rpcResp) (zero_value : T) with
           | (_, Some e) => failed (UnmarshalError e)
           | (response, None) => succeeded response
           end
       end).
Proof.
  intros (sent1 & blockNum & signature & Hb & Hsig & Hnet).
  rewrite (dynamicCallWithType_run _ _ _ _ _ _ _ _ _ _ Hb), Hsig. cbv zeta.
  by rewrite Hnet.
Qed.

Lemma Unmarshal_body_result_response (respBody : string) (result : json) :
  json_parse respBody = Some (result_response result) →
  Unmarshal_body respBody (zero_value : rpcResp.t) = rpcResp.mk (Some result) None.
Proof. unfold Unmarshal_body. by intros ->. Qed.

Lemma Unmarshal_body_empty (respBody : string) :
  json_parse respBody = None ∨ json_parse respBody = Some JNull
  ∨ json_parse respBody = Some (JObject []) →
  Unmarshal_body respBody (zero_value : rpcResp.t) = rpcResp.mk None None.
Proof. unfold Unmarshal_body. by intros [->|[->| ->]]. Qed.

(** X9. A response whose result is [null] is a success: an operation on a
    token then returns a nil pointer as its data, which the success accessor
    hands to its callback, and a token creation returns a result whose hash
    and token address are empty. *)
Theorem null_result_is_a_success :
  (∀ net cfg name symbol decimals masterAuthority sent respBody,
     CreateToken_answered net cfg name symbol decimals masterAuthority sent respBody →
     json_parse respBody = Some (result_response JNull) →
     (CreateToken net cfg name symbol decimals masterAuthority sent).1
     = Returns (succeeded (Some (TokenIssueResult.mk "" ""))))
  ∧ (∀ T (HZ : Zero T) (HU : Unmarshal T) net cfg tokenAddress methodName methodArgs
       nonce sent respBody,
       dynamicCall_answered net cfg tokenAddress methodName methodArgs nonce sent
         respBody →
       json_parse respBody = Some (result_response JNull) →
       (dynamicCallWithType (T:=option T) net cfg tokenAddress methodName methodArgs
          nonce sent).1
       = Returns (succeeded None))
  ∧ (∀ T St (f : option T → St → St) (g : error → St → St) st,
       Success_then_Error (succeeded (None : option T)) f g st
       = (succeeded None, f None st)).
Proof.
  split; [|split].
  - intros * Hans Hbody.
    by rewrite (CreateToken_answer _ _ _ _ _ _ _ _ Hans),
      (Unmarshal_body_result_response _ _ Hbody).
  - intros * Hans Hbody.
    by rewrite (dynamicCall_answer _ _ _ _ _ _ _ _ Hans),
      (Unmarshal_body_result_response _ _ Hbody).
  - done.
Qed.

(** X10. A response that holds neither a result nor an error (a body that is
    not JSON, the document [null], or an object with no member) makes the
    operation fail with the error of decoding an empty input. *)
Theorem empty_response_fails_decoding :
  (∀ net cfg name symbol decimals masterAuthority sent respBody,
     CreateToken_answered net cfg name symbol decimals masterAuthority sent respBody →
     json_parse respBody = None ∨ json_parse respBody = Some JNull
     ∨ json_parse respBody = Some (JObject []) →
     (CreateToken net cfg name symbol decimals masterAuthority sent).1
     = Returns (failed (UnmarshalError UnexpectedEnd)))
  ∧ (∀ T (HZ : Zero T) (HU : Unmarshal T) net cfg tokenAddress methodName methodArgs
       nonce sent respBody,
       dynamicCall_answered net cfg tokenAddress methodName methodArgs nonce sent
         respBody →
       json_parse respBody = None ∨ json_parse respBody = Some JNull
       ∨ json_parse respBody = Some (JObject []) →
       (dynamicCallWithType (T:=T) net cfg tokenAddress methodName methodArgs nonce
          sent).1
       = Returns (failed (UnmarshalError UnexpectedEnd))).
Proof.
  split.
  - intros * Hans Hbody.
    by rewrite (CreateToken_answer _ _ _ _ _ _ _ _ Hans), (Unmarshal_body_empty _ Hbody).
  - intros * Hans Hbody.
    by rewrite (dynamicCall_answer _ _ _ _ _ _ _ _ Hans), (Unmarshal_body_empty _ Hbody).
Qed.

End answers.

Lemma example_answered (rpcBody : string) :
  CreateToken_answered (H:=Reference.libraries) (example_net rpcBody) example_config
    "T" "TK" 18 "0xAuth" [] rpcBody.
Proof.
  eexists [blockNumber_request example_config], 16, _.
  split; [vm_compute; reflexivity|]. split; [vm_compute; reflexivity|].
  unfold example_net, Reference.mock.
  rewrite decide_True by reflexivity. reflexivity.
Qed.

Lemma example_dynamic_answered (methodName : string) (methodArgs : list value)
    (rpcBody : string) :
  dynamicCall_answered (H:=Reference.libraries) (example_net rpcBody) example_config
    "0xdef" methodName methodArgs 7 [] rpcBody.
Proof.
  eexists [blockNumber_request example_config], 16, _.
  split; [vm_compute; reflexivity|]. split; [vm_compute; reflexivity|].
  unfold example_net, Reference.mock.
  rewrite decide_True by reflexivity. reflexivity.
Qed.

Lemma null_result_is_a_success_witness :
  (dynamicCallWithType (H:=Reference.libraries) (T:=option TransactionResult.t)
     (example_net (json_text "{'jsonrpc':'2.0','id':1,'result':null}"))
     example_config "0xdef" "mint" [VString "0xabc"; VString "5"] 7 []).1
  = Returns (succeeded None).
Proof.
  eapply (proj1 (proj2 (null_result_is_a_success Reference.libraries))).
  - apply example_dynamic_answered.
  - vm_compute. reflexivity.
Defined.

Lemma empty_response_fails_decoding_witness :
  (CreateToken (H:=Reference.libraries) (example_net "<html>Bad Gateway</html>")
     example_config "T" "TK" 18 "0xAuth" []).1
  = Returns (failed (UnmarshalError UnexpectedEnd)).
Proof.
  eapply (proj1 (empty_response_fails_decoding Reference.libraries)).
  - apply example_answered.
  - left. vm_compute. reflexivity.
Defined.

(** ** Decoding results *)

Lemma ParseUint_pretty (d : Z) :
  0 ≤ d → ParseUint (pretty d) = if decide (d < 2 ^ 64) then Some d else None.
Proof.
  intros Hd. destruct d as [|p|p]; [done| |lia].
  change (pretty (Z.pos p)) with (pretty (N.pos p)).
  pose proof (pretty_N_nonempty (N.pos p)) as Hne.
  pose proof (parse_pretty_N (N.pos p)) as Hp.
  unfold ParseUint. destruct (pretty (N.pos p)) as [|c rest]; [done|].
  by rewrite Hp.
Qed.

Lemma ParseUint_negative (p : positive) : ParseUint (pretty (Z.neg p)) = None.
Proof. done. Qed.

(** A number into a [uint8] field. *)
Lemma unmarshal_uint8_number (d old : Z) :
  unmarshal_uint8 (JInt d) old
  = if decide (0 ≤ d < 256) then (d, None)
    else (old, Some (TypeMismatch ("number " +:+ pretty d) "uint8")).
Proof.
  unfold unmarshal_uint8, JInt. destruct (decide (0 ≤ d)) as [Hd|Hd].
  - rewrite ParseUint_pretty by done. repeat case_decide; try done; lia.
  - destruct d as [|p|p]; [lia|lia|]. rewrite ParseUint_negative.
    case_decide; [lia|done].
Qed.

Lemma unmarshal_TokenMetadata_json (md old : TokenMetadata.t) :
  unmarshal (TokenMetadata_json md) old
  = if decide (0 ≤ TokenMetadata.Decimals md < 256) then (md, None)
    else (TokenMetadata.mk (TokenMetadata.Name md) (TokenMetadata.Symbol md)
            (TokenMetadata.Decimals old) (TokenMetadata.Supply md)
            (TokenMetadata.IsPaused md),
          Some (TypeMismatch ("number " +:+ pretty (TokenMetadata.Decimals md)) "uint8")).
Proof.
  destruct md as [name symbol decimals supply isPaused].
  destruct old as [name' symbol' decimals' supply' isPaused'].
  unfold TokenMetadata_json, unmarshal, unmarshal_TokenMetadata, unmarshal_struct.
  cbn [TokenMetadata.Name TokenMetadata.Symbol TokenMetadata.Decimals
       TokenMetadata.Supply TokenMetadata.IsPaused].
  change [("name", JString name); ("symbol", JString symbol); ("decimals", JInt decimals);
          ("supply", JString supply); ("isPaused", JBool isPaused)]
    with ([("name", JString name); ("symbol", JString symbol);
           ("decimals", JInt decimals)]
          ++ [("supply", JString supply); ("isPaused", JBool isPaused)]).
  rewrite fold_left_app.
  match goal with
  | |- context [fold_left ?f [?a; ?b; ?c] ?acc] =>
      let l := eval lazy -[unmarshal_uint8 JInt pretty] in (fold_left f [a; b; c] acc) in
      change (fold_left f [a; b; c] acc) with l
  end.
  rewrite unmarshal_uint8_number. by case_decide.
Qed.

(** Into a nil pointer: the pointee is allocated and decoded into. *)
Lemma unmarshal_pointer_TokenMetadata (md : TokenMetadata.t) :
  unmarshal (TokenMetadata_json md) (zero_value : option TokenMetadata.t)
  = (let '(new, e) := unmarshal (TokenMetadata_json md) (zero_value : TokenMetadata.t) in
     (Some new, e)).
Proof. reflexivity. Qed.

(** ** Decoding an object member by member *)

Lemma first_error_assoc (e1 e2 e3 : option unmarshal_error) :
  first_error (first_error e1 e2) e3 = first_error e1 (first_error e2 e3).
Proof. by destruct e1. Qed.

(** The members of an object are decoded one after the other, and the first
    error is the one kept. *)
Lemma unmarshal_struct_app {T} (go_type : string)
    (set_field : string → json → T → T * option unmarshal_error)
    (fields1 fields2 : list (string * json)) (old : T) :
  unmarshal_struct go_type set_field (JObject (fields1 ++ fields2)) old
  = (let '(cur, e) := unmarshal_struct go_type set_field (JObject fields1) old in
     let '(new, e') := unmarshal_struct go_type set_field (JObject fields2) cur in
     (new, first_error e e')).
Proof.
  unfold unmarshal_struct. rewrite fold_left_app.
  destruct (fold_left _ fields1 (old, None)) as [cur e].
  revert cur e. induction fields2 as [|[key v] fields2 IH]; intros cur e.
  { cbn. by destruct e. }
  cbn [fold_left]. destruct (set_field key v cur) as [new e1].
  rewrite (IH new (first_error e e1)), (IH new (first_error None e1)).
  destruct (fold_left _ fields2 (new, None)) as [new' e'].
  by rewrite first_error_assoc.
Qed.

Lemma unmarshal_struct_cons {T} (go_type : string)
    (set_field : string → json → T → T * option unmarshal_error)
    (member : string * json) (fields : list (string * json)) (old : T) :
  unmarshal_struct go_type set_field (JObject (member :: fields)) old
  = (let '(cur, e) := unmarshal_struct go_type set_field (JObject [member]) old in
     let '(new, e') := unmarshal_struct go_type set_field (JObject fields) cur in
     (new, first_error e e')).
Proof. apply (unmarshal_struct_app go_type set_field [member] fields). Qed.

(** Once an error is met, what follows does not change it. *)
Lemma unmarshal_struct_error_kept {T} (go_type : string)
    (set_field : string → json → T → T * option unmarshal_error)
    (fields1 fields2 : list (string * json)) (old : T) (e : unmarshal_error) :
  (unmarshal_struct go_type set_field (JObject fields1) old).2 = Some e →
  (unmarshal_struct go_type set_field (JObject (fields1 ++ fields2)) old).2 = Some e.
Proof.
  intros He. rewrite unmarshal_struct_app.
  destruct (unmarshal_struct go_type set_field (JObject fields1) old) as [cur e1].
  simpl in He. subst e1.
  by destruct (unmarshal_struct go_type set_field (JObject fields2) cur).
Qed.

(** ** The metadata: the first member that does not fit *)

Lemma unmarshal_well_typed_member (member : string * json) (old : TokenMetadata.t) :
  well_typed_member member →
  ∃ cur, unmarshal (JObject [member]) old = (cur, None).
Proof.
  destruct member as [key v], old as [name symbol decimals supply isPaused].
  intros [[Hkey [s Hv]]|[Hkey [b Hv]]]; simpl in Hkey, Hv; subst v.
  - destruct Hkey as [->|[->| ->]]; by eexists.
  - subst key. by eexists.
Qed.

Lemma unmarshal_well_typed_members (members : list (string * json))
    (old : TokenMetadata.t) :
  Forall well_typed_member members →
  ∃ cur, unmarshal (JObject members) old = (cur, None).
Proof.
  intros Hmembers. revert old.
  induction Hmembers as [|member members Hmember _ IH]; intros old; [by eexists|].
  destruct (unmarshal_well_typed_member member old Hmember) as [cur Hcur].
  destruct (IH cur) as [new Hnew]. exists new.
  unfold unmarshal, unmarshal_TokenMetadata in *.
  by rewrite unmarshal_struct_cons, Hcur, Hnew.
Qed.

Lemma unmarshal_decimals_member (d : Z) (old : TokenMetadata.t) :
  d < 0 ∨ 256 ≤ d →
  (unmarshal (JObject [("decimals", JInt d)]) old).2
  = Some (TypeMismatch ("number " +:+ pretty d) "uint8").
Proof.
  intros Hd. destruct old as [name symbol decimals supply isPaused].
  unfold unmarshal, unmarshal_TokenMetadata, unmarshal_struct.
  match goal with
  | |- (?t).2 = _ =>
      let l := eval lazy -[unmarshal_uint8 JInt pretty] in t in change t with l
  end.
  rewrite unmarshal_uint8_number, decide_False by lia. done.
Qed.

Lemma unmarshal_decimals_out_of_range (before after : list (string * json)) (d : Z)
    (old : TokenMetadata.t) :
  Forall well_typed_member before → d < 0 ∨ 256 ≤ d →
  (unmarshal (JObject (before ++ ("decimals", JInt d) :: after)) old).2
  = Some (TypeMismatch ("number " +:+ pretty d) "uint8").
Proof.
  intros Hbefore Hd.
  destruct (unmarshal_well_typed_members before old Hbefore) as [cur Hcur].
  pose proof (unmarshal_decimals_member d cur Hd) as Hdec.
  unfold unmarshal, unmarshal_TokenMetadata in *.
  change (before ++ ("decimals", JInt d) :: after)
    with (before ++ [("decimals", JInt d)] ++ after).
  rewrite unmarshal_struct_app, Hcur.
  pose proof (unmarshal_struct_error_kept _ _ [("decimals", JInt d)] after cur _ Hdec)
    as Hkept.
  destruct (unmarshal_struct _ _ (JObject ([("decimals", JInt d)] ++ after)) cur)
    as [new e]. simpl in Hkept. by subst e.
Qed.

Section results.
Context (L : Libraries).

(** X11. The metadata the service writes is the metadata the caller receives:
    for every record whose number of decimals fits a byte, a response with the
    object of its five members as result makes the metadata query succeed
    with that record. *)
Theorem GetTokenMetadata_decodes (net : network) (cfg : config) (tokenAddress : string)
    (sent : list request) (respBody : string) (md : TokenMetadata.t) :
  dynamicCall_answered net cfg tokenAddress "getTokenMetadata" [] 0 sent respBody →
  json_parse respBody = Some (result_response (TokenMetadata_json md)) →
  0 ≤ TokenMetadata.Decimals md < 256 →
  (GetTokenMetadata net cfg tokenAddress sent).1 = Returns (succeeded (Some md)).
Proof.
  intros Hans Hbody Hdec. unfold GetTokenMetadata.
  rewrite (dynamicCall_answer _ _ _ _ _ _ _ _ _ Hans),
    (Unmarshal_body_result_response _ _ _ Hbody).
  cbn [rpcResp.Error rpcResp.Result Unmarshal_raw unmarshal unmarshal_pointer].
  rewrite unmarshal_pointer_TokenMetadata, unmarshal_TokenMetadata_json. by rewrite decide_True.
Qed.

(** X12. The first member that does not fit decides the error.  When the
    result of the metadata query is an object in which a [decimals] that does
    not fit a byte (negative, or 256 and more) comes after members that fit
    their fields ([name], [symbol], [supply] with strings, [isPaused] with a
    truth value, in any order and number), the query fails with the error of
    a number that does not fit the type [uint8], whatever the members after
    it are. *)
Theorem GetTokenMetadata_decimals_out_of_range (net : network) (cfg : config)
    (tokenAddress : string) (sent : list request) (respBody : string)
    (before after : list (string * json)) (d : Z) :
  dynamicCall_answered net cfg tokenAddress "getTokenMetadata" [] 0 sent respBody →
  json_parse respBody
  = Some (result_response (JObject (before ++ ("decimals", JInt d) :: after))) →
  Forall well_typed_member before →
  d < 0 ∨ 256 ≤ d →
  (GetTokenMetadata net cfg tokenAddress sent).1
  = Returns (failed (UnmarshalError (TypeMismatch ("number " +:+ pretty d) "uint8"))).
Proof.
  intros Hans Hbody Hbefore Hd. unfold GetTokenMetadata.
  rewrite (dynamicCall_answer _ _ _ _ _ _ _ _ _ Hans),
    (Unmarshal_body_result_response _ _ _ Hbody).
  pose proof (unmarshal_decimals_out_of_range before after d zero_value Hbefore Hd)
    as Herr.
  cbn [rpcResp.Error rpcResp.Result Unmarshal_raw].
  change (unmarshal (JObject (before ++ ("decimals", JInt d) :: after))
            (zero_value : option TokenMetadata.t))
    with (let '(new, e) := unmarshal (JObject (before ++ ("decimals", JInt d) :: after))
                             (zero_value : TokenMetadata.t) in
          (Some new, e)).
  destruct (unmarshal (JObject (before ++ ("decimals", JInt d) :: after))
              (zero_value : TokenMetadata.t)) as [new e].
  simpl in Herr. by subst e.
Qed.
End results.

Lemma GetTokenMetadata_decodes_witness :
  (GetTokenMetadata (H:=Reference.libraries)
     (Reference.mock "http://x" (json_text "{'result':'0x10'}")
        (json_text ("{'jsonrpc':'2.0','id':1,'result':{'name':'T','symbol':'TK'," +:+
                    "'decimals':18,'supply':'1000','isPaused':false}}")))
     example_config "0xdef" []).1
  = Returns (succeeded (Some (TokenMetadata.mk "T" "TK" 18 "1000" false))).
Proof.
  eapply (GetTokenMetadata_decodes Reference.libraries).
  - eexists [blockNumber_request example_config], 16, _.
    split; [vm_compute; reflexivity|]. split; [vm_compute; reflexivity|].
    vm_compute. reflexivity.
  - vm_compute. reflexivity.
  - simpl. lia.
Defined.

Lemma GetTokenMetadata_decimals_out_of_range_witness :
  (GetTokenMetadata (H:=Reference.libraries)
     (Reference.mock "http://x" (json_text "{'result':'0x10'}")
        (json_text ("{'jsonrpc':'2.0','id':1,'result':{'isPaused':true,'name':'T'," +:+
                    "'decimals':256,'supply':7,'other':null}}")))
     example_config "0xdef" []).1
  = Returns (failed (UnmarshalError (TypeMismatch ("number " +:+ pretty 256) "uint8"))).
Proof.
  apply (GetTokenMetadata_decimals_out_of_range Reference.libraries _ _ _ _
           (json_text ("{'jsonrpc':'2.0','id':1,'result':{'isPaused':true,'name':'T'," +:+
                       "'decimals':256,'supply':7,'other':null}}"))
           [("isPaused", JBool true); ("name", JString "T")]
           [("supply", JInt 7); ("other", JNull)] 256).
  - eexists [blockNumber_request example_config], 16, _.
    split; [vm_compute; reflexivity|]. split; [vm_compute; reflexivity|].
    vm_compute. reflexivity.
  - vm_compute. reflexivity.
  - apply Forall_cons_2; [right; split; [reflexivity|by exists true]|].
    apply Forall_cons_2; [left; split; [by left|by exists "T"]|]. apply Forall_nil_2.
  - lia.
Defined.

(** ** Names of members in any case *)

Lemma byte_val_inj (a b : ascii) : byte_val a = byte_val b → a = b.
Proof.
  unfold byte_val. intros Hab. apply N2Z.inj in Hab.
  by rewrite <-(ascii_N_embedding a), <-(ascii_N_embedding b), Hab.
Qed.

(** A letter that is the same as a lower-case letter is that letter or its
    upper-case form. *)
Lemma same_letter_lower (x y : ascii) :
  same_letter x y → 97 ≤ byte_val y ≤ 122 →
  x = y ∨ x = ascii_of_N (Z.to_N (byte_val y - 32)).
Proof.
  intros [->|[[Hx Hy]|[Hy _]]] Hlower; [by left| |lia].
  right. apply byte_val_inj. unfold byte_val in *.
  rewrite N_ascii_embedding.
  - rewrite Z2N.id; lia.
  - apply N2Z.inj_lt. rewrite Z2N.id by lia. change (Z.of_N 256) with 256. lia.
Qed.

Lemma same_name_hash (k : string) :
  same_name k "hash" → field_is "hash" k = true ∧ field_is "token" k = false.
Proof.
  intros H.
  repeat match type of H with
  | same_name ?k _ => destruct k; simpl in H; [done|]
  | _ ∧ _ =>
      let Hletter := fresh "Hletter" in
      destruct H as [Hletter H];
      apply same_letter_lower in Hletter; [|by vm_compute];
      destruct Hletter as [->| ->]
  end; destruct k; try done; by vm_compute.
Qed.

Lemma same_name_token (k : string) :
  same_name k "token" → field_is "token" k = true ∧ field_is "hash" k = false.
Proof.
  intros H.
  repeat match type of H with
  | same_name ?k _ => destruct k; simpl in H; [done|]
  | _ ∧ _ =>
      let Hletter := fresh "Hletter" in
      destruct H as [Hletter H];
      apply same_letter_lower in Hletter; [|by vm_compute];
      destruct Hletter as [->| ->]
  end; destruct k; try done; by vm_compute.
Qed.

Lemma unmarshal_TokenIssueResult_cons (member : string * json)
    (fields : list (string * json)) (old : TokenIssueResult.t) :
  unmarshal (JObject (member :: fields)) old
  = (let '(cur, e) := unmarshal (JObject [member]) old in
     let '(new, e') := unmarshal (JObject fields) cur in
     (new, first_error e e')).
Proof. apply (unmarshal_struct_app _ _ [member] fields). Qed.

(** A member named in any case is decoded as the member of that name. *)
Lemma unmarshal_TokenIssueResult_hash (kh : string) (v : json)
    (old : TokenIssueResult.t) :
  same_name kh "hash" →
  unmarshal (JObject [(kh, v)]) old = unmarshal (JObject [("hash", v)]) old.
Proof.
  intros Hh. destruct (same_name_hash kh Hh) as [Hh1 Hh2], old as [hash token].
  unfold unmarshal at 1, unmarshal_TokenIssueResult, unmarshal_struct.
  cbn [fold_left]. by rewrite Hh1.
Qed.

Lemma unmarshal_TokenIssueResult_token (kt : string) (v : json)
    (old : TokenIssueResult.t) :
  same_name kt "token" →
  unmarshal (JObject [(kt, v)]) old = unmarshal (JObject [("token", v)]) old.
Proof.
  intros Ht. destruct (same_name_token kt Ht) as [Ht1 Ht2], old as [hash token].
  unfold unmarshal at 1, unmarshal_TokenIssueResult, unmarshal_struct.
  cbn [fold_left]. by rewrite Ht2, Ht1.
Qed.

(** Members named in any case are decoded as the members [hash] and
    [token]. *)
Lemma unmarshal_TokenIssueResult_names (kh kt : string) (a b : json)
    (old : TokenIssueResult.t) :
  same_name kh "hash" → same_name kt "token" →
  unmarshal (JObject [(kh, a); (kt, b)]) old
  = unmarshal (JObject [("hash", a); ("token", b)]) old
  ∧ unmarshal (JObject [(kt, b); (kh, a)]) old
    = unmarshal (JObject [("token", b); ("hash", a)]) old
  ∧ unmarshal (JObject [(kh, a)]) old = unmarshal (JObject [("hash", a)]) old.
Proof.
  intros Hh Ht.
  rewrite (unmarshal_TokenIssueResult_cons (kh, a) [(kt, b)]),
    (unmarshal_TokenIssueResult_cons (kt, b) [(kh, a)]),
    (unmarshal_TokenIssueResult_cons ("hash", a) [("token", b)]),
    (unmarshal_TokenIssueResult_cons ("token", b) [("hash", a)]).
  rewrite !(unmarshal_TokenIssueResult_hash kh a _ Hh),
    !(unmarshal_TokenIssueResult_token kt b _ Ht).
  split; [|split; [|done]].
  - destruct (unmarshal (JObject [("hash", a)]) _) as [cur e].
    by rewrite (unmarshal_TokenIssueResult_token kt b _ Ht).
  - destruct (unmarshal (JObject [("token", b)]) _) as [cur e].
    by rewrite (unmarshal_TokenIssueResult_hash kh a _ Hh).
Qed.

Section more_results.
Context (L : Libraries).

(** X13. How the result of a token creation is decoded.  The members [hash]
    and [token] are found whatever the case of the ASCII letters of their
    names and in either order; a [token] member that is missing leaves its
    field empty, so a result with no token address is a success with the
    empty address; a [token] member that is a number, and a result that is a
    string and not an object, make the creation fail with a type error. *)
Theorem CreateToken_result_decoding (net : network) (cfg : config)
    (name symbol : string) (decimals : Z) (masterAuthority : string)
    (sent : list request) (respBody : string) (h t : string) :
  CreateToken_answered net cfg name symbol decimals masterAuthority sent respBody →
  (∀ kh kt, same_name kh "hash" → same_name kt "token" →
     json_parse respBody
     = Some (result_response (JObject [(kh, JString h); (kt, JString t)]))
     ∨ json_parse respBody
       = Some (result_response (JObject [(kt, JString t); (kh, JString h)])) →
     (CreateToken net cfg name symbol decimals masterAuthority sent).1
     = Returns (succeeded (Some (TokenIssueResult.mk h t))))
  ∧ (∀ kh, same_name kh "hash" →
       json_parse respBody = Some (result_response (JObject [(kh, JString h)])) →
       (CreateToken net cfg name symbol decimals masterAuthority sent).1
       = Returns (succeeded (Some (TokenIssueResult.mk h ""))))
  ∧ (∀ kh kt n, same_name kh "hash" → same_name kt "token" →
       json_parse respBody
       = Some (result_response (JObject [(kh, JString h); (kt, JInt n)])) →
       (CreateToken net cfg name symbol decimals masterAuthority sent).1
       = Returns (failed (UnmarshalError (TypeMismatch "number" "string"))))
  ∧ (json_parse respBody = Some (result_response (JString t)) →
     (CreateToken net cfg name symbol decimals masterAuthority sent).1
     = Returns (failed (UnmarshalError
                  (TypeMismatch "string" "alchemy.TokenIssueResult")))).
Proof.
  intros Hans. rewrite (CreateToken_answer _ _ _ _ _ _ _ _ _ Hans).
  split; [|split; [|split]].
  - intros kh kt Hh Ht Hbody.
    destruct (unmarshal_TokenIssueResult_names kh kt (JString h) (JString t)
                zero_value Hh Ht) as (Hfirst & Hsecond & _).
    destruct Hbody as [Hbody|Hbody];
      rewrite (Unmarshal_body_result_response _ _ _ Hbody);
      cbn [rpcResp.Error rpcResp.Result Unmarshal_raw];
      rewrite ?Hfirst, ?Hsecond; reflexivity.
  - intros kh Hh Hbody.
    rewrite (Unmarshal_body_result_response _ _ _ Hbody).
    cbn [rpcResp.Error rpcResp.Result Unmarshal_raw].
    rewrite (unmarshal_TokenIssueResult_hash kh _ _ Hh). reflexivity.
  - intros kh kt n Hh Ht Hbody.
    destruct (unmarshal_TokenIssueResult_names kh kt (JString h) (JInt n)
                zero_value Hh Ht) as (Hfirst & _).
    rewrite (Unmarshal_body_result_response _ _ _ Hbody).
    cbn [rpcResp.Error rpcResp.Result Unmarshal_raw].
    rewrite Hfirst. reflexivity.
  - intros Hbody. rewrite (Unmarshal_body_result_response _ _ _ Hbody). reflexivity.
Qed.
(** X14. The forms of the [error] member.  A JSON-RPC error object, with its
    code and message, makes the call fail with the message.  An error member
    that is a string, a number, a truth value or an array, and an error
    object with no message, make the call fail too, with an empty message:
    what the server wrote is not kept. *)
Theorem rpcCall_error_member_forms (net : network) (cfg : config) (method : string)
    (params : json) (sent : list request) (respBody : string) :
  net sent (rpc_request cfg method params) = inr respBody →
  (∀ code message,
     json_parse respBody = Some (error_response code message) →
     rpcCall net cfg method params sent
     = (inl (RPCError message), sent ++ [rpc_request cfg method params]))
  ∧ (∀ e, scalar_or_array e →
       json_parse respBody = Some (JObject [("error", e)]) →
       rpcCall net cfg method params sent
       = (inl (RPCError ""), sent ++ [rpc_request cfg method params]))
  ∧ (∀ code,
       json_parse respBody = Some (JObject [("error", JObject [("code", JInt code)])]) →
       rpcCall net cfg method params sent
       = (inl (RPCError ""), sent ++ [rpc_request cfg method params])).
Proof.
  intros Hnet. rewrite rpcCall_run, Hnet. unfold Unmarshal_body.
  split; [|split].
  - intros code message ->. reflexivity.
  - intros e He ->. destruct e; try done; reflexivity.
  - intros code ->. reflexivity.
Qed.

End more_results.

Lemma CreateToken_result_decoding_witness :
  (CreateToken (H:=Reference.libraries)
     (example_net (json_text ("{'jsonrpc':'2.0','id':1," +:+
                              "'result':{'Token':'0xdef','HASH':'0xabc'}}")))
     example_config "T" "TK" 18 "0xAuth" []).1
  = Returns (succeeded (Some (TokenIssueResult.mk "0xabc" "0xdef"))).
Proof.
  destruct (CreateToken_result_decoding Reference.libraries
              (example_net (json_text ("{'jsonrpc':'2.0','id':1," +:+
                                       "'result':{'Token':'0xdef','HASH':'0xabc'}}")))
              example_config "T" "TK" 18 "0xAuth" []
              (json_text ("{'jsonrpc':'2.0','id':1," +:+
                          "'result':{'Token':'0xdef','HASH':'0xabc'}}"))
              "0xabc" "0xdef" (example_answered _)) as (Hnames & _).
  apply (Hnames "HASH" "Token").
  - simpl. repeat split; right; left; (split; [by vm_compute|reflexivity]).
  - simpl. repeat split; try (by left). right; left. split; [by vm_compute|reflexivity].
  - right. vm_compute. reflexivity.
Defined.

Lemma rpcCall_error_member_forms_witness :
  rpcCall (H:=Reference.libraries)
    (example_net (json_text "{'error':'insufficient funds'}"))
    example_config "mint" (JArray []) []
  = (inl (RPCError ""), [] ++ [rpc_request (H:=Reference.libraries) example_config "mint"
                                 (JArray [])]).
Proof.
  destruct (rpcCall_error_member_forms Reference.libraries
              (example_net (json_text "{'error':'insufficient funds'}"))
              example_config "mint" (JArray []) []
              (json_text "{'error':'insufficient funds'}") eq_refl) as (_ & Hform & _).
  apply (Hform (JString "insufficient funds") I). vm_compute. reflexivity.
Defined.

Section block_number_errors.
Context (L : Libraries) (HL : LibrariesSpec L).

(** X15. The block-height fetch does not look at the [error] member and drops
    the error of decoding: when the chain node answers the query with a
    JSON-RPC error, or with a result that is a number and not a string, the
    fetch returns the checkpoint 0 and no error. *)
Theorem getBlockNumber_ignores_node_error (net : network) (cfg : config)
    (sent : list request) (respBody : string) :
  net sent (blockNumber_request cfg) = inr respBody →
  (∃ code message, json_parse respBody = Some (error_response code message))
  ∨ (∃ n, json_parse respBody = Some (result_response (JInt n))) →
  getBlockNumber net cfg sent = (inr 0, sent ++ [blockNumber_request cfg]).
Proof.
  intros Hnet Hbody. rewrite getBlockNumber_run, Hnet. do 2 f_equal.
  unfold Unmarshal_body.
  destruct Hbody as [(code & message & ->)|[n ->]].
  - change (blockResp.Result _) with "". by rewrite (Sscanf_empty L HL).
  - change (blockResp.Result _) with "". by rewrite (Sscanf_empty L HL).
Qed.
End block_number_errors.

Lemma getBlockNumber_ignores_node_error_witness :
  getBlockNumber (H:=Reference.libraries)
    (Reference.mock "http://x"
       (json_text
          "{'jsonrpc':'2.0','id':1,'error':{'code':-32601,'message':'no such method'}}")
       "")
    example_config []
  = (inr 0, [] ++ [blockNumber_request example_config]).
Proof.
  apply (getBlockNumber_ignores_node_error Reference.libraries Reference_libraries_spec
           _ _ _
           (json_text
              "{'jsonrpc':'2.0','id':1,'error':{'code':-32601,'message':'no such method'}}")).
  - reflexivity.
  - left. exists (-32601), "no such method". vm_compute. reflexivity.
Defined.

(** ** The balance query: edge cases *)

Section balance_edges.
Context (L : Libraries).

Lemma GetBalance_after_response net cfg address sent respBody :
  net sent (balance_request cfg address) = inr respBody →
  GetBalance net cfg address sent
  = (let rpcResp := Unmarshal_body respBody (zero_value : balanceResp.t) in
     match balanceResp.Error rpcResp with
     | Some e => Returns (failed (RPCError (rpcError.Message e)))
     | None =>
         let balanceHex := balanceResp.Result rpcResp in
         if decide (String.length balanceHex < 2)%nat then Panics
         else
           let hex := string_from 2 balanceHex in
           let balanceWei :=
             match Int_SetString16 hex with
             | Some x => x
             | None => SetString_failed hex
             end in
           Returns (succeeded (Some
             (BalanceInfo.mk (Int_String balanceWei)
                (Float_String (Float_Quo (Float_SetInt balanceWei) NewFloat_1e18)))))
     end, sent ++ [balance_request cfg address]).
Proof.
  intros Hnet. unfold GetBalance, client_Post. fold (balance_request cfg address).
  rewrite Hnet. cbv zeta. destruct (balanceResp.Error _); [done|]. by case_decide.
Qed.

Lemma Unmarshal_body_balance (respBody : string) (s : string) :
  json_parse respBody = Some (result_response (JString s)) →
  Unmarshal_body respBody (zero_value : balanceResp.t) = balanceResp.mk s None.
Proof. unfold Unmarshal_body. intros ->. reflexivity. Qed.

(** What the query returns for a result of two characters followed by a
    numeral that [SetString] reads. *)
Lemma GetBalance_result net cfg address sent respBody (c0 c1 : ascii) (hex : string)
    (wei : Z) :
  net sent (balance_request cfg address) = inr respBody →
  json_parse respBody = Some (result_response (JString (String c0 (String c1 hex)))) →
  Int_SetString16 hex = Some wei →
  GetBalance net cfg address sent
  = (Returns (succeeded (Some
       (BalanceInfo.mk (Int_String wei)
          (Float_String (Float_Quo (Float_SetInt wei) NewFloat_1e18))))),
     sent ++ [balance_request cfg address]).
Proof.
  intros Hnet Hbody Hhex.
  rewrite (GetBalance_after_response _ _ _ _ _ Hnet), (Unmarshal_body_balance _ _ Hbody).
  cbv zeta. cbn [balanceResp.Error balanceResp.Result String.length string_from].
  case_decide; [lia|]. by rewrite Hhex.
Qed.

(** X16. The balance query slices the result from its third byte on without
    looking at its length: when the response is not JSON, or its result is
    [null], a number, or a string of fewer than two characters, and the
    response holds no error, the query panics after its request. *)
Theorem GetBalance_panics_on_short_result (net : network) (cfg : config)
    (address : string) (sent : list request) (respBody : string) :
  net sent (balance_request cfg address) = inr respBody →
  json_parse respBody = None
  ∨ json_parse respBody = Some (result_response JNull)
  ∨ (∃ n, json_parse respBody = Some (result_response (JInt n)))
  ∨ (∃ s, json_parse respBody = Some (result_response (JString s))
          ∧ (String.length s < 2)%nat) →
  GetBalance net cfg address sent = (Panics, sent ++ [balance_request cfg address]).
Proof.
  intros Hnet Hbody. rewrite (GetBalance_after_response _ _ _ _ _ Hnet).
  destruct Hbody as [Hbody|[Hbody|[[n Hbody]|(s & Hbody & Hlen)]]].
  - unfold Unmarshal_body. rewrite Hbody. reflexivity.
  - unfold Unmarshal_body. rewrite Hbody. reflexivity.
  - unfold Unmarshal_body. rewrite Hbody. reflexivity.
  - rewrite (Unmarshal_body_balance _ _ Hbody). cbv zeta.
    cbn [balanceResp.Error balanceResp.Result]. by rewrite decide_True.
Qed.

(** X17. The error of the node comes first: a JSON-RPC error response makes
    the balance query fail with the message of the node; the result, which
    such a response does not hold, is not sliced. *)
Theorem GetBalance_rpc_error (net : network) (cfg : config) (address : string)
    (sent : list request) (respBody : string) (code : Z) (message : string) :
  net sent (balance_request cfg address) = inr respBody →
  json_parse respBody = Some (error_response code message) →
  GetBalance net cfg address sent
  = (Returns (failed (RPCError message)), sent ++ [balance_request cfg address])
  ∧ ∀ cause, error_text (RPCError message) cause = "RPC error: " +:+ message.
Proof.
  intros Hnet Hbody. rewrite (GetBalance_after_response _ _ _ _ _ Hnet).
  unfold Unmarshal_body. rewrite Hbody. split; reflexivity.
Qed.

(** X18. The balance query needs no key and calls [client.Post] once in
    every case (the log holds the call whether or not the transport carries
    it out): the call goes to the base URL itself, not to [/rpc], with the
    JSON-RPC envelope of [eth_getBalance] for the address and [latest]; what
    the query returns does not depend on the configured key, and an error of
    the call is returned as it is. *)
Theorem GetBalance_posts_once_without_key (net : network) (cfg : config)
    (address : string) (sent : list request) :
  let query :=
    {| url := baseURL cfg; contentType := "application/json";
       body := json_Marshal
                 (JObject [("jsonrpc", JString "2.0");
                           ("method", JString "eth_getBalance");
                           ("params", JArray [JString address; JString "latest"]);
                           ("id", JInt 1)]) |} in
  (GetBalance net cfg address sent).2 = sent ++ [query]
  ∧ (∀ key, GetBalance net (Config (baseURL cfg) key cfg) address sent
            = GetBalance net cfg address sent)
  ∧ (∀ e, net sent query = inl e →
          (GetBalance net cfg address sent).1 = Returns (failed (TransportError e))).
Proof.
  intros query. subst query.
  change {| url := baseURL cfg; contentType := "application/json"; body := _ |}
    with (balance_request cfg address).
  split; [|split].
  - unfold GetBalance, client_Post. fold (balance_request cfg address).
    destruct (net sent _); [done|]. cbv zeta.
    destruct (balanceResp.Error _); [done|]. by case_decide.
  - intros key. reflexivity.
  - intros e Hnet. unfold GetBalance, client_Post. fold (balance_request cfg address).
    by rewrite Hnet.
Qed.

(** X19. The first two characters of the result are dropped, not checked:
    whatever they are, the balance is the one the numeral after them
    denotes. *)
Theorem GetBalance_prefix_unchecked (net : network) (cfg : config) (address : string)
    (sent : list request) (respBody : string) (c0 c1 : ascii) (hex : string) (wei : Z) :
  net sent (balance_request cfg address) = inr respBody →
  json_parse respBody = Some (result_response (JString (String c0 (String c1 hex)))) →
  hex ≠ "" → parse_digits 16 fromHexChar hex 0 = Some wei →
  ∃ info,
    GetBalance net cfg address sent
    = (Returns (succeeded (Some info)), sent ++ [balance_request cfg address])
    ∧ decimal_value (BalanceInfo.Wei info) = Some wei
    ∧ BalanceInfo.Eth info = Float_String (Float_Quo (Float_SetInt wei) NewFloat_1e18).
Proof.
  intros Hnet Hbody Hne Hhex.
  exists (BalanceInfo.mk (Int_String wei)
            (Float_String (Float_Quo (Float_SetInt wei) NewFloat_1e18))).
  split.
  - apply (GetBalance_result _ _ _ _ _ _ _ _ wei Hnet Hbody).
    by apply Int_SetString16_digits.
  - split; [apply decimal_value_pretty|reflexivity].
Qed.

Lemma Float_String_negative (wei : Z) :
  0 < wei →
  Float_String (Float_Quo (Float_SetInt (- wei)) NewFloat_1e18)
  = "-" +:+ Float_String (Float_Quo (Float_SetInt wei) NewFloat_1e18).
Proof.
  intros Hwei. unfold Float_String, Float_Quo, Float_SetInt.
  cbn [mant prec neg exp NewFloat_1e18].
  assert (bitLen (- wei) = bitLen wei) as ->.
  { unfold bitLen. repeat case_decide; try lia. by rewrite Z.abs_opp. }
  rewrite Z.abs_opp.
  case_decide as H18; [by vm_compute in H18|].
  case_decide; [lia|].
  rewrite bool_decide_true by lia. rewrite (bool_decide_false (wei < 0)) by lia.
  destruct (round_quotient _ _ _) as [m e]. reflexivity.
Qed.

(** X20. [SetString] reads a sign, so a result with a minus sign after the
    prefix is a success with a negative balance: the wei text is the numeral
    of the negated amount and the ETH text is the ETH text of the amount with
    a minus sign before it. *)
Theorem GetBalance_negative_amount (net : network) (cfg : config) (address : string)
    (sent : list request) (respBody : string) (hex : string) (wei : Z) :
  net sent (balance_request cfg address) = inr respBody →
  json_parse respBody = Some (result_response (JString ("0x-" +:+ hex))) →
  hex ≠ "" → parse_digits 16 fromHexChar hex 0 = Some wei → 0 < wei →
  ∃ info,
    GetBalance net cfg address sent
    = (Returns (succeeded (Some info)), sent ++ [balance_request cfg address])
    ∧ decimal_value (BalanceInfo.Wei info) = Some (- wei)
    ∧ BalanceInfo.Eth info
      = "-" +:+ Float_String (Float_Quo (Float_SetInt wei) NewFloat_1e18).
Proof.
  intros Hnet Hbody Hne Hhex Hwei.
  exists (BalanceInfo.mk (Int_String (- wei))
            (Float_String (Float_Quo (Float_SetInt (- wei)) NewFloat_1e18))).
  split.
  - apply (GetBalance_result _ _ _ _ _ "0" "x" ("-" +:+ hex) (- wei) Hnet Hbody).
    unfold Int_SetString16. change ("-" +:+ hex) with (String "-" hex).
    destruct hex as [|c rest]; [done|]. by rewrite Hhex.
  - split; [apply decimal_value_pretty|]. cbn [BalanceInfo.Eth].
    by apply Float_String_negative.
Qed.

End balance_edges.

Lemma GetBalance_panics_on_short_result_witness :
  GetBalance (H:=Reference.libraries) (Reference.mock "http://x" "Bad Gateway" "")
    example_config "0xAddr" []
  = (Panics, [] ++ [balance_request (H:=Reference.libraries) example_config "0xAddr"]).
Proof.
  apply (GetBalance_panics_on_short_result Reference.libraries _ _ _ _ "Bad Gateway").
  - reflexivity.
  - left. vm_compute. reflexivity.
Defined.

Lemma GetBalance_rpc_error_witness :
  GetBalance (H:=Reference.libraries)
    (Reference.mock "http://x"
       (json_text
          "{'jsonrpc':'2.0','id':1,'error':{'code':-32602,'message':'invalid address'}}")
       "")
    example_config "0xAddr" []
  = (Returns (failed (RPCError "invalid address")),
     [] ++ [balance_request (H:=Reference.libraries) example_config "0xAddr"]).
Proof.
  apply (GetBalance_rpc_error Reference.libraries _ _ _ _
           (json_text
              "{'jsonrpc':'2.0','id':1,'error':{'code':-32602,'message':'invalid address'}}")
           (-32602) "invalid address").
  - reflexivity.
  - vm_compute. reflexivity.
Defined.

Lemma GetBalance_posts_once_without_key_witness :
  (GetBalance (H:=Reference.libraries) (λ _ _, inl "connection refused")
     initial_config "0xAddr" []).1
  = Returns (failed (TransportError "connection refused")).
Proof.
  apply (GetBalance_posts_once_without_key Reference.libraries). reflexivity.
Defined.

Lemma GetBalance_prefix_unchecked_witness :
  ∃ info,
    GetBalance (H:=Reference.libraries)
      (Reference.mock "http://x" (json_text "{'jsonrpc':'2.0','id':1,'result':'ff10'}") "")
      example_config "0xAddr" []
    = (Returns (succeeded (Some info)),
       [] ++ [balance_request (H:=Reference.libraries) example_config "0xAddr"])
    ∧ decimal_value (BalanceInfo.Wei info) = Some 16
    ∧ BalanceInfo.Eth info = Float_String (Float_Quo (Float_SetInt 16) NewFloat_1e18).
Proof.
  apply (GetBalance_prefix_unchecked Reference.libraries _ _ _ _
           (json_text "{'jsonrpc':'2.0','id':1,'result':'ff10'}") "f" "f" "10" 16).
  - reflexivity.
  - vm_compute. reflexivity.
  - done.
  - reflexivity.
Defined.

Lemma GetBalance_negative_amount_witness :
  ∃ info,
    GetBalance (H:=Reference.libraries)
      (Reference.mock "http://x" (json_text "{'jsonrpc':'2.0','id':1,'result':'0x-ff'}") "")
      example_config "0xAddr" []
    = (Returns (succeeded (Some info)),
       [] ++ [balance_request (H:=Reference.libraries) example_config "0xAddr"])
    ∧ decimal_value (BalanceInfo.Wei info) = Some (- 255)
    ∧ BalanceInfo.Eth info
      = "-" +:+ Float_String (Float_Quo (Float_SetInt 255) NewFloat_1e18).
Proof.
  apply (GetBalance_negative_amount Reference.libraries _ _ _ _
           (json_text "{'jsonrpc':'2.0','id':1,'result':'0x-ff'}") "ff" 255).
  - reflexivity.
  - vm_compute. reflexivity.
  - done.
  - reflexivity.
  - lia.
Defined.

(** ** The operations on a token *)

Section token_operations.
Context (L : Libraries).

Lemma dynamicCall_sends net cfg tokenAddress methodName methodArgs nonce sent sent1
    blockNum signature :
  getBlockNumber net cfg sent = (inr blockNum, sent1) →
  generateSignature cfg (dynamicCall_params tokenAddress nonce blockNum)
  = Returns (inr signature) →
  (dynamicCall net cfg tokenAddress methodName methodArgs nonce sent).2
  = sent1 ++ [rpc_request cfg methodName
                (dynamicCall_reqParams tokenAddress methodArgs nonce blockNum signature)].
Proof.
  intros Hb Hsig. unfold dynamicCall.
  by rewrite (dynamicCallWithType_run _ _ _ _ _ _ _ _ _ _ Hb), Hsig.
Qed.

(** X21. The method and the arguments each operation on a token sends, the
    arguments in the order of the operation's parameters and an operation
    without arguments with an empty array.  All of them carry the signature
    that the signer made for the token, the nonce and the checkpoint alone,
    so the signature of one operation is the signature of every other one
    with that token, nonce and checkpoint. *)
Theorem operations_methods_and_arguments (net : network) (cfg : config)
    (tokenAddress : string) (nonce : Z) (sent sent1 : list request) (blockNum : Z)
    (signature : Signature.t) :
  getBlockNumber net cfg sent = (inr blockNum, sent1) →
  generateSignature cfg (dynamicCall_params tokenAddress nonce blockNum)
  = Returns (inr signature) →
  let sends (op : token_operation) (method : string) (args : list value) :=
    (op sent).2
    = sent1 ++ [rpc_request cfg method
                  (dynamicCall_reqParams tokenAddress args nonce blockNum signature)] in
  (∀ newName newSymbol,
     sends (UpdateMetadata net cfg tokenAddress newName newSymbol nonce)
       "updateMetadata" [VString newName; VString newSymbol])
  ∧ (∀ toAddress amount,
       sends (Mint net cfg tokenAddress toAddress amount nonce)
         "mint" [VString toAddress; VString amount])
  ∧ (∀ role account,
       sends (GrantAuthority net cfg tokenAddress role account nonce)
         "grantAuthority" [VString role; VString account])
  ∧ (∀ role account,
       sends (RevokeAuthority net cfg tokenAddress role account nonce)
         "revokeAuthority" [VString role; VString account])
  ∧ (∀ fromAddress amount,
       sends (AdminBurn net cfg tokenAddress fromAddress amount nonce)
         "adminBurn" [VString fromAddress; VString amount])
  ∧ sends (Pause net cfg tokenAddress nonce) "pause" []
  ∧ sends (Unpause net cfg tokenAddress nonce) "unpause" []
  ∧ (∀ accountAddress,
       sends (AddToBlacklist net cfg tokenAddress accountAddress nonce)
         "addToBlacklist" [VString accountAddress])
  ∧ (nonce = 0 →
     (GetTokenMetadata net cfg tokenAddress sent).2
     = sent1 ++ [rpc_request cfg "getTokenMetadata"
                   (dynamicCall_reqParams tokenAddress [] 0 blockNum signature)]).
Proof.
  intros Hb Hsig sends. unfold sends.
  repeat split; intros; try by apply dynamicCall_sends.
  subst nonce. unfold GetTokenMetadata.
  by rewrite (dynamicCallWithType_run _ _ _ _ _ _ _ _ _ _ Hb), Hsig.
Qed.

End token_operations.

Lemma operations_methods_and_arguments_witness :
  (Pause (H:=Reference.libraries) (example_net "") example_config "0xdef" 7 []).2
  = [blockNumber_request example_config]
    ++ [rpc_request (H:=Reference.libraries) example_config "pause"
          (dynamicCall_reqParams "0xdef" [] 7 16
             (Signature.mk "8076906140389926930761572"
                "8234104122419153896766082834368325185836758793849291220731449330901821446552"
                "27"))].
Proof.
  destruct (operations_methods_and_arguments Reference.libraries (example_net "")
              example_config "0xdef" 7 [] [blockNumber_request example_config] 16
              (Signature.mk "8076906140389926930761572"
                 "8234104122419153896766082834368325185836758793849291220731449330901821446552"
                 "27"))
    as (_ & _ & _ & _ & _ & Hpause & _).
  - vm_compute. reflexivity.
  - vm_compute. reflexivity.
  - exact Hpause.
Defined.

(** ** The response wrapper: chains *)

(** X22. The two accessors can be chained in either order with the same
    effect, and an accessor can be used again: each use of the success
    accessor on a wrapper without error invokes the callback once more. *)
Theorem accessors_chain_in_any_order {T St} (r : ResponseHandler T)
    (f : T → St → St) (g : error → St → St) (st : St) :
  Error_then_Success r g f st = Success_then_Error r f g st
  ∧ (Success_then_Error r f g st).1 = r
  ∧ (Success_then_Error r f g st).2
    = match err r with None => f (data r) st | Some e => g e st end
  ∧ Success (Success r f st).1 f (Success r f st).2
    = (r, match err r with None => f (data r) (f (data r) st) | Some _ => st end).
Proof.
  unfold Error_then_Success, Success_then_Error, Success, Error.
  destruct (err r) as [e|] eqn:He; cbn; rewrite ?He; done.
Qed.

(** ** The balance query: a balance of zero *)

Section zero_balance.
Context (L : Libraries).

(** X23. A result that denotes zero, with however many digits, gives the wei
    text [0] and the ETH text [0]. *)
Theorem GetBalance_zero_balance (net : network) (cfg : config) (address : string)
    (sent : list request) (respBody : string) (hex : string) :
  net sent (balance_request cfg address) = inr respBody →
  json_parse respBody = Some (result_response (JString ("0x" +:+ hex))) →
  hex ≠ "" → parse_digits 16 fromHexChar hex 0 = Some 0 →
  GetBalance net cfg address sent
  = (Returns (succeeded (Some (BalanceInfo.mk "0" "0"))),
     sent ++ [balance_request cfg address]).
Proof.
  intros Hnet Hbody Hne Hhex.
  apply (GetBalance_result _ _ _ _ _ _ "0" "x" hex 0 Hnet Hbody).
  by apply Int_SetString16_digits.
Qed.
End zero_balance.

Lemma GetBalance_zero_balance_witness :
  GetBalance (H:=Reference.libraries)
    (Reference.mock "http://x" (json_text "{'jsonrpc':'2.0','id':1,'result':'0x000'}") "")
    example_config "0xAddr" []
  = (Returns (succeeded (Some (BalanceInfo.mk "0" "0"))),
     [] ++ [balance_request (H:=Reference.libraries) example_config "0xAddr"]).
Proof.
  apply (GetBalance_zero_balance Reference.libraries _ _ _ _
           (json_text "{'jsonrpc':'2.0','id':1,'result':'0x000'}") "000").
  - reflexivity.
  - vm_compute. reflexivity.
  - done.
  - reflexivity.
Defined.

(** ** The quotient of the balance query *)

Lemma bitLen_spec (x : Z) : 0 < x → 0 < bitLen x ∧ 2 ^ (bitLen x - 1) ≤ x < 2 ^ bitLen x.
Proof.
  intros Hx. unfold bitLen. rewrite decide_False by lia. rewrite Z.abs_eq by lia.
  pose proof (Z.log2_nonneg x). pose proof (Z.log2_spec x Hx) as Hlog.
  replace (Z.log2 x + 1 - 1) with (Z.log2 x) by lia.
  replace (Z.log2 x + 1) with (Z.succ (Z.log2 x)) by lia. lia.
Qed.

(** The numerator and the denominator at the exponent [e] and at [e + 1]. *)
Lemma scale_step (n d e : Z) :
  let A e := n * 2 ^ Z.max 0 (- e) in
  let B e := d * 2 ^ Z.max 0 e in
  (0 ≤ e ∧ A (e + 1) = A e ∧ B (e + 1) = 2 * B e)
  ∨ (e < 0 ∧ A e = 2 * A (e + 1) ∧ B (e + 1) = B e).
Proof.
  intros A B. unfold A, B. destruct (decide (0 ≤ e)) as [He|He]; [left|right].
  - split; [done|]. rewrite !Z.max_l by lia. rewrite !Z.max_r by lia.
    rewrite Z.pow_add_r by lia. split; lia.
  - split; [lia|]. rewrite !Z.max_r by lia. rewrite !Z.max_l by lia.
    replace (- e) with ((- (e + 1)) + 1) at 1 by lia.
    rewrite Z.pow_add_r by lia. split; lia.
Qed.

Lemma first_exponent_bounds (p n d : Z) :
  0 < p → 0 < n → 0 < d →
  let e1 := bitLen n - bitLen d - p in
  2 ^ (p - 1) * (d * 2 ^ Z.max 0 e1) ≤ n * 2 ^ Z.max 0 (- e1)
  ∧ n * 2 ^ Z.max 0 (- e1) < 2 * 2 ^ p * (d * 2 ^ Z.max 0 e1).
Proof.
  intros Hp Hn Hd e1.
  destruct (bitLen_spec n Hn) as [Ha Hna]. destruct (bitLen_spec d Hd) as [Hb Hdb].
  assert (2 ^ p = 2 * 2 ^ (p - 1)) as Hpp.
  { replace p with ((p - 1) + 1) at 1 by lia. rewrite Z.pow_add_r by lia. lia. }
  assert (2 ^ bitLen n = 2 * 2 ^ (bitLen n - 1)) as Haa.
  { replace (bitLen n) with ((bitLen n - 1) + 1) at 1 by lia.
    rewrite Z.pow_add_r by lia. lia. }
  assert (2 ^ bitLen d = 2 * 2 ^ (bitLen d - 1)) as Hbb.
  { replace (bitLen d) with ((bitLen d - 1) + 1) at 1 by lia.
    rewrite Z.pow_add_r by lia. lia. }
  assert (0 < 2 ^ (p - 1)) by (apply Z.pow_pos_nonneg; lia).
  assert (0 < 2 ^ (bitLen d - 1)) by (apply Z.pow_pos_nonneg; lia).
  assert (0 < 2 ^ (bitLen n - 1)) by (apply Z.pow_pos_nonneg; lia).
  rewrite Hpp. rewrite Haa in Hna. rewrite Hbb in Hdb.
  set (X := 2 ^ (p - 1)) in *. set (Z' := 2 ^ (bitLen d - 1)) in *.
  set (U := 2 ^ (bitLen n - 1)) in *.
  destruct (decide (0 ≤ e1)) as [He|He].
  - rewrite (Z.max_l 0 (- e1)), (Z.max_r 0 e1) by lia. rewrite Z.pow_0_r.
    assert (U = X * 2 ^ e1 * (2 * Z')) as HU.
    { unfold U, X. rewrite <-Hbb, <-!Z.pow_add_r by lia. f_equal. unfold e1. lia. }
    assert (0 < 2 ^ e1) by (apply Z.pow_pos_nonneg; lia).
    set (Y := 2 ^ e1) in *.
    replace (X * (d * Y)) with (X * Y * d) by ring.
    replace (2 * (2 * X) * (d * Y)) with (4 * (X * Y * d)) by ring.
    assert (0 < X * Y) by nia. set (XY := X * Y) in *. split; nia.
  - rewrite (Z.max_r 0 (- e1)), (Z.max_l 0 e1) by lia. rewrite Z.pow_0_r.
    assert (U * 2 ^ (- e1) = 2 * X * Z') as HU.
    { unfold U, Z'. rewrite <-Hpp, <-!Z.pow_add_r by lia. f_equal. unfold e1. lia. }
    assert (0 < 2 ^ (- e1)) by (apply Z.pow_pos_nonneg; lia).
    set (W := 2 ^ (- e1)) in *. rewrite Z.mul_1_r.
    assert (U * W ≤ n * W ∧ n * W < 2 * (U * W)) as [? ?] by (split; nia).
    rewrite HU in *. split; nia.
Qed.

(** Rounding a quotient that lies between [2^(p-1)] and [2^p] to an integer. *)
Lemma round_to_nearest (P A B : Z) :
  0 < B → P * B ≤ A → A < 2 * P * B →
  let q := A / B in
  let r := A mod B in
  let q' := if decide (B < 2 * r ∨ (2 * r = B ∧ Z.odd q = true)) then q + 1 else q in
  P ≤ q' ≤ 2 * P ∧ 2 * Z.abs (A - q' * B) ≤ B.
Proof.
  intros HB Hlo Hhi q r q'.
  pose proof (Z.div_mod A B ltac:(lia)) as Hdm.
  pose proof (Z.mod_pos_bound A B HB) as Hr. fold q r in Hdm, Hr.
  assert (P ≤ q < 2 * P) as Hq by nia.
  unfold q'. case_decide as Hup.
  - split; [lia|]. destruct Hup as [Hup|[Hup _]]; nia.
  - split; [lia|]. assert (2 * r ≤ B) by (destruct (decide (2 * r ≤ B)); [done|]; lia).
    nia.
Qed.

Lemma round_quotient_rounded (p n d : Z) :
  0 < p → 0 < n → 0 < d →
  rounded_quotient p n d (round_quotient p n d).1 (round_quotient p n d).2.
Proof.
  intros Hp Hn Hd.
  assert (2 ^ p = 2 * 2 ^ (p - 1)) as Hpp.
  { replace p with ((p - 1) + 1) at 1 by lia. rewrite Z.pow_add_r by lia. lia. }
  assert (0 < 2 ^ (p - 1)) as HX by (apply Z.pow_pos_nonneg; lia).
  assert (∀ e, 0 < d * 2 ^ Z.max 0 e) as HB.
  { intros e. apply Z.mul_pos_pos; [done|]. apply Z.pow_pos_nonneg; lia. }
  destruct (first_exponent_bounds p n d Hp Hn Hd) as [Hlo1 Hhi1].
  unfold round_quotient, rounded_quotient.
  set (e1 := bitLen n - bitLen d - p) in *.
  (* the exponent at which the quotient has [p] bits *)
  set (e := if decide (2 ^ p ≤ n * 2 ^ Z.max 0 (- e1) / (d * 2 ^ Z.max 0 e1))
            then e1 + 1 else e1).
  assert (2 ^ (p - 1) * (d * 2 ^ Z.max 0 e) ≤ n * 2 ^ Z.max 0 (- e)
          ∧ n * 2 ^ Z.max 0 (- e) < 2 * 2 ^ (p - 1) * (d * 2 ^ Z.max 0 e)) as [Hlo Hhi].
  { unfold e. pose proof (HB e1) as HB1. pose proof (HB (e1 + 1)) as HB2.
    pose proof (Z.div_mod (n * 2 ^ Z.max 0 (- e1)) (d * 2 ^ Z.max 0 e1) ltac:(lia)) as Hdm.
    pose proof (Z.mod_pos_bound (n * 2 ^ Z.max 0 (- e1)) (d * 2 ^ Z.max 0 e1) HB1) as Hr.
    rewrite Hpp in Hhi1 |- *.
    set (A1 := n * 2 ^ Z.max 0 (- e1)) in *. set (B1 := d * 2 ^ Z.max 0 e1) in *.
    set (q1 := A1 / B1) in *. set (r1 := A1 mod B1) in *.
    case_decide as Hbig.
    - destruct (scale_step n d e1) as [(_ & HA & HB')|(_ & HA & HB')].
      + rewrite HA, HB'. fold A1 B1. nia.
      + fold A1 in HA. rewrite HB'. fold B1.
        set (A2 := n * 2 ^ Z.max 0 (- (e1 + 1))) in *. nia.
    - fold A1 B1. nia. }
  pose proof (round_to_nearest (2 ^ (p - 1)) _ _ (HB e) Hlo Hhi) as Hround.
  cbv zeta in Hround.
  set (A := n * 2 ^ Z.max 0 (- e)) in *. set (B := d * 2 ^ Z.max 0 e) in *.
  set (q' := if decide (B < 2 * (A mod B) ∨ (2 * (A mod B) = B ∧ Z.odd (A / B) = true))
             then A / B + 1 else A / B) in *.
  destruct Hround as [Hq Herr]. rewrite <-Hpp in Hq.
  case_decide as Htop; cbn [fst snd].
  - (* the mantissa overflowed to [2^p] *)
    split; [lia|]. rewrite Htop in Herr.
    destruct (scale_step n d e) as [(_ & HA & HB')|(_ & HA & HB')].
    + rewrite HA, HB'. fold A B. nia.
    + fold A in HA. rewrite HB'. fold B.
      set (A2 := n * 2 ^ Z.max 0 (- (e + 1))) in *. nia.
  - split; [lia|]. done.
Qed.

Section quotient.
Context (L : Libraries).

(** X24. The ETH value is the quotient of the amount by 10^18 correctly
    rounded: for every positive amount the node returns, the ETH text is the
    printed form of a binary number whose mantissa has as many bits as the
    amount, and at least 64, and which is at most half a unit of the last bit
    of that mantissa away from the amount divided by 10^18. *)
Theorem GetBalance_quotient_correctly_rounded (net : network) (cfg : config)
    (address : string) (sent : list request) (hex : string) (wei : Z) :
  node_returns net cfg address sent hex wei → 0 < wei →
  ∃ info m e,
    (GetBalance net cfg address sent).1 = Returns (succeeded (Some info))
    ∧ BalanceInfo.Eth info
      = Float_String {| prec := Z.max (bitLen wei) 64; neg := false; mant := m; exp := e |}
    ∧ rounded_quotient (Z.max (bitLen wei) 64) wei (10 ^ 18) m e.
Proof.
  intros Hnode Hwei.
  pose proof (round_quotient_rounded (Z.max (bitLen wei) 64) wei (10 ^ 18)
                ltac:(lia) Hwei ltac:(lia)) as Hrounded.
  destruct (round_quotient (Z.max (bitLen wei) 64) wei (10 ^ 18)) as [m e] eqn:Hq.
  eexists _, m, e. split; [by rewrite (GetBalance_run _ _ _ _ _ _ _ Hnode)|].
  split; [|exact Hrounded].
  cbn [BalanceInfo.Eth]. f_equal. unfold Float_Quo, Float_SetInt.
  cbn [mant prec neg exp NewFloat_1e18].
  case_decide as H18; [by vm_compute in H18|].
  rewrite Z.abs_eq by lia. case_decide; [lia|].
  rewrite Hq. rewrite bool_decide_false by lia. f_equal. lia.
Qed.
End quotient.

Lemma GetBalance_quotient_correctly_rounded_witness :
  ∃ info m e,
    (GetBalance (H:=Reference.libraries)
       (Reference.mock "http://x" (json_text "{'result':'0x112210f47de98115'}") "")
       example_config "0xAddr" []).1 = Returns (succeeded (Some info))
    ∧ BalanceInfo.Eth info
      = Float_String {| prec := Z.max (bitLen 1234567890123456789) 64; neg := false;
                        mant := m; exp := e |}
    ∧ rounded_quotient (Z.max (bitLen 1234567890123456789) 64) 1234567890123456789
        (10 ^ 18) m e.
Proof.
  apply (GetBalance_quotient_correctly_rounded Reference.libraries _ _ _ _
           "112210f47de98115" 1234567890123456789).
  - eexists. split; [vm_compute; reflexivity|]. split; [vm_compute; reflexivity|].
    split; [done|]. vm_compute. reflexivity.
  - lia.
Defined.

(** ** The signer: what the signature depends on *)

Section signature_inputs.
Context (L : Libraries).

(** X25. The signature depends on the scalar of the key and on the canonical
    message, and on nothing else: two configurations whose keys are
    spellings of one scalar (with or without the prefix, digits in upper or
    lower case) and two parameter sets with the same message are signed
    alike, whatever the address of the service is. *)
Theorem generateSignature_depends_on_scalar_and_message
    (cfg cfg' : config) (params params' : gmap string value) (scalar : Z) :
  well_formed_key (strip_0x (privateKey cfg)) scalar →
  well_formed_key (strip_0x (privateKey cfg')) scalar →
  buildSortedMessage (range_keys params) params
  = buildSortedMessage (range_keys params') params' →
  generateSignature cfg params = generateSignature cfg' params'.
Proof.
  intros Hkey Hkey' Hmessage. unfold generateSignature.
  apply HexToECDSA_accepts in Hkey, Hkey'. by rewrite Hkey, Hkey', Hmessage.
Qed.

(** X26. How the result of an operation on a token is decoded: an object
    with a hash gives a transaction result with that hash, an object without
    one gives a transaction result with the empty hash, and a result that is
    a string makes the operation fail with a type error. *)
Theorem dynamicCall_result_decoding (net : network) (cfg : config)
    (tokenAddress methodName : string) (methodArgs : list value) (nonce : Z)
    (sent : list request) (respBody : string) (h : string) :
  dynamicCall_answered net cfg tokenAddress methodName methodArgs nonce sent respBody →
  (json_parse respBody = Some (result_response (JObject [("hash", JString h)])) →
   (dynamicCall net cfg tokenAddress methodName methodArgs nonce sent).1
   = Returns (succeeded (Some (TransactionResult.mk h))))
  ∧ (json_parse respBody = Some (result_response (JObject [])) →
     (dynamicCall net cfg tokenAddress methodName methodArgs nonce sent).1
     = Returns (succeeded (Some (TransactionResult.mk ""))))
  ∧ (json_parse respBody = Some (result_response (JString h)) →
     (dynamicCall net cfg tokenAddress methodName methodArgs nonce sent).1
     = Returns (failed (UnmarshalError
                  (TypeMismatch "string" "alchemy.TransactionResult")))).
Proof.
  intros Hans. unfold dynamicCall. rewrite (dynamicCall_answer _ _ _ _ _ _ _ _ _ Hans).
  split; [|split].
  - intros Hbody. rewrite (Unmarshal_body_result_response _ _ _ Hbody). reflexivity.
  - intros Hbody. rewrite (Unmarshal_body_result_response _ _ _ Hbody). reflexivity.
  - intros Hbody. rewrite (Unmarshal_body_result_response _ _ _ Hbody). reflexivity.
Qed.

End signature_inputs.

Lemma generateSignature_depends_on_scalar_and_message_witness :
  generateSignature (H:=Reference.libraries)
    (Config "http://x"
       "0x00000000000000000000000000000000000000000000000000000000000000ab"
       initial_config)
    {[ "decimals" := VInt 18; "nonce" := VInt 0 ]}
  = generateSignature (H:=Reference.libraries)
      (Config "http://y"
         "00000000000000000000000000000000000000000000000000000000000000AB"
         initial_config)
      {[ "a" := VString "18"; "b" := VString "0" ]}.
Proof.
  apply (generateSignature_depends_on_scalar_and_message Reference.libraries _ _ _ _ 171).
  - split; [reflexivity|]. split; [reflexivity|]. vm_compute. split; reflexivity.
  - split; [reflexivity|]. split; [reflexivity|]. vm_compute. split; reflexivity.
  - vm_compute. reflexivity.
Defined.

Lemma dynamicCall_result_decoding_witness :
  (dynamicCall (H:=Reference.libraries)
     (example_net (json_text "{'jsonrpc':'2.0','id':1,'result':{'hash':'0xabc'}}"))
     example_config "0xdef" "mint" [VString "0xabc"; VString "5"] 7 []).1
  = Returns (succeeded (Some (TransactionResult.mk "0xabc"))).
Proof.
  destruct (dynamicCall_result_decoding Reference.libraries
              (example_net (json_text "{'jsonrpc':'2.0','id':1,'result':{'hash':'0xabc'}}"))
              example_config "0xdef" "mint" [VString "0xabc"; VString "5"] 7 []
              (json_text "{'jsonrpc':'2.0','id':1,'result':{'hash':'0xabc'}}")
              "0xabc" (example_dynamic_answered _ _ _)) as (Hhash & _).
  apply Hhash. vm_compute. reflexivity.
Defined.

(** ** Token creation: one signature for two requests *)

Lemma string_app_assoc (a b c : string) : (a +:+ b) +:+ c = a +:+ (b +:+ c).
Proof.
  induction a as [|x a IH]; [done|].
  change (String x ((a +:+ b) +:+ c) = String x (a +:+ (b +:+ c))). by rewrite IH.
Qed.

Section collisions.
Context (L : Libraries) (HL : LibrariesSpec L).

(** X27. The signature of a token creation does not tell where the authority
    ends and the name begins: creating the token named [b,c] under the
    authority [a] and creating the token named [c] under the authority [a,b]
    are signed over the same message, so the signer returns the same for
    both. *)
Theorem CreateToken_signature_collision (cfg : config) (symbol : string)
    (decimals : Z) (a b c : string) (blockNum : Z) :
  buildSortedMessage
    (range_keys (CreateToken_params (b +:+ "," +:+ c) symbol decimals a 0 blockNum))
    (CreateToken_params (b +:+ "," +:+ c) symbol decimals a 0 blockNum)
  = buildSortedMessage
      (range_keys (CreateToken_params c symbol decimals (a +:+ "," +:+ b) 0 blockNum))
      (CreateToken_params c symbol decimals (a +:+ "," +:+ b) 0 blockNum)
  ∧ generateSignature cfg
      (CreateToken_params (b +:+ "," +:+ c) symbol decimals a 0 blockNum)
    = generateSignature cfg
        (CreateToken_params c symbol decimals (a +:+ "," +:+ b) 0 blockNum).
Proof.
  assert (buildSortedMessage
            (range_keys (CreateToken_params (b +:+ "," +:+ c) symbol decimals a 0 blockNum))
            (CreateToken_params (b +:+ "," +:+ c) symbol decimals a 0 blockNum)
          = buildSortedMessage
              (range_keys
                 (CreateToken_params c symbol decimals (a +:+ "," +:+ b) 0 blockNum))
              (CreateToken_params c symbol decimals (a +:+ "," +:+ b) 0 blockNum))
    as Hmessage.
  { rewrite !CreateToken_message by apply range_keys_spec.
    unfold strings_Join. cbn [String.concat]. f_equal.
    by rewrite !string_app_assoc. }
  split; [done|]. unfold generateSignature. by rewrite Hmessage.
Qed.
End collisions.

Lemma CreateToken_signature_collision_witness :
  buildSortedMessage
    (range_keys (Libraries:=Reference.libraries)
       (CreateToken_params ("B" +:+ "," +:+ "C") "TK" 18 "A" 0 16))
    (CreateToken_params ("B" +:+ "," +:+ "C") "TK" 18 "A" 0 16)
  = buildSortedMessage
      (range_keys (Libraries:=Reference.libraries)
         (CreateToken_params "C" "TK" 18 ("A" +:+ "," +:+ "B") 0 16))
      (CreateToken_params "C" "TK" 18 ("A" +:+ "," +:+ "B") 0 16).
Proof.
  exact (proj1 (CreateToken_signature_collision Reference.libraries
                  Reference_libraries_spec example_config "TK" 18 "A" "B" "C" 16)).
Defined.

(** ** Operations of a client that was never configured *)

Section unconfigured.
Context (L : Libraries).

(** X28. With the empty key, which is the key of a client that was never
    configured, the token creation and every operation on a token, the
    metadata query among them, fail with the error of a key of invalid length
    as soon as the chain node has answered the block-height query, and send
    nothing to the service. *)
Theorem empty_key_fails_every_operation :
  (∀ net cfg name symbol decimals masterAuthority sent respBody,
     privateKey cfg = "" →
     net sent (blockNumber_request cfg) = inr respBody →
     CreateToken net cfg name symbol decimals masterAuthority sent
     = (Returns (failed (InvalidPrivateKey InvalidLength)),
        sent ++ [blockNumber_request cfg]))
  ∧ (∀ T (HZ : Zero T) (HU : Unmarshal T) net cfg tokenAddress methodName methodArgs
       nonce sent respBody,
       privateKey cfg = "" →
       net sent (blockNumber_request cfg) = inr respBody →
       dynamicCallWithType (T:=T) net cfg tokenAddress methodName methodArgs nonce sent
       = (Returns (failed (InvalidPrivateKey InvalidLength)),
          sent ++ [blockNumber_request cfg]))
  ∧ privateKey initial_config = "".
Proof.
  split; [|split; [|done]].
  - intros * Hkey Hnet.
    pose proof (getBlockNumber_run L net cfg sent) as Hb. rewrite Hnet in Hb.
    rewrite (CreateToken_run _ _ _ _ _ _ _ _ _ _ Hb).
    unfold generateSignature. by rewrite Hkey.
  - intros * Hkey Hnet.
    pose proof (getBlockNumber_run L net cfg sent) as Hb. rewrite Hnet in Hb.
    rewrite (dynamicCallWithType_run _ _ _ _ _ _ _ _ _ _ Hb).
    unfold generateSignature. by rewrite Hkey.
Qed.
End unconfigured.

Lemma empty_key_fails_every_operation_witness :
  GetTokenMetadata (H:=Reference.libraries)
    (Reference.mock "http://localhost:8545" (json_text "{'result':'0x10'}") "")
    initial_config "0xdef" []
  = (Returns (failed (InvalidPrivateKey InvalidLength)),
     [] ++ [blockNumber_request initial_config]).
Proof.
  apply (proj1 (proj2 (empty_key_fails_every_operation Reference.libraries))
           _ _ _ _ _ _ _ _ _ _ (json_text "{'result':'0x10'}")).
  - reflexivity.
  - reflexivity.
Defined.
